(** * RuleGo: node wrapper, shared clients and the REST endpoint

    A shallow embedding of four Go files of the rule engine

    - [engine/node.go]: the node wrapper [RuleNodeCtx], its initialisation,
      hot reload and variable substitution;
    - [components/external/ssh_node.go] and
      [components/external/mqtt_client_node.go]: two leaf components and the
      lazily built, lock-guarded MQTT client;
    - the REST endpoint (package [rest]): route registration, soft removal,
      dispatch and restart.

    Go maps are [gmap]s, nil-able pointers and maps are [option]s, an [error]
    is its message, a panic is an explicit outcome.  Objects that are shared
    through pointers (routers, endpoints) live in a store and are named by
    their address.  Calls into packages that are not part of these files
    (the template engine, httprouter, the network) are operations of a type
    class, so every theorem holds for all their behaviours. *)

From Stdlib Require Import Ascii String.
From stdpp Require Import gmap strings list fin_maps.


Open Scope string_scope.
Open Scope list_scope.
Open Scope nat_scope.

(** A Go [error] value, identified with its message; [nil] is [None]. *)
Definition error := string.

(* ===================================================================== *)
(** * Package [strings] (the functions the endpoint uses)                *)
(* ===================================================================== *)

(** Identifiers, methods and paths are ASCII here; on such strings Go's
    [strings.ToUpper] maps [a-z] to [A-Z], and [strings.TrimSpace] removes
    leading and trailing tab, line feed, vertical tab, form feed, carriage
    return and space. *)
Module gostrings.

Definition isSpace (c : ascii) : bool :=
  let n := nat_of_ascii c in
  bool_decide (n = 32)%nat || (bool_decide (9 ≤ n)%nat && bool_decide (n ≤ 13)%nat).

Definition upperChar (c : ascii) : ascii :=
  let n := nat_of_ascii c in
  if bool_decide (97 ≤ n)%nat && bool_decide (n ≤ 122)%nat then ascii_of_nat (n - 32) else c.

Fixpoint ToUpper (s : string) : string :=
  match s with
  | EmptyString => EmptyString
  | String c r => String (upperChar c) (ToUpper r)
  end.

Fixpoint TrimLeft (s : string) : string :=
  match s with
  | EmptyString => EmptyString
  | String c r => if isSpace c then TrimLeft r else s
  end.

(** [TrimRight] drops the trailing run of blanks: a blank is kept exactly
    when something that is kept follows it. *)
Fixpoint TrimRight (s : string) : string :=
  match s with
  | EmptyString => EmptyString
  | String c r =>
      match TrimRight r with
      | EmptyString => if isSpace c then EmptyString else String c EmptyString
      | r' => String c r'
      end
  end.

Definition TrimSpace (s : string) : string := TrimRight (TrimLeft s).

(** [strings.HasPrefix] and [strings.HasSuffix]:
    [len(s) >= len(suffix) && s[len(s)-len(suffix):] == suffix]. *)
Definition HasPrefix (s prefix : string) : bool :=
  bool_decide (String.length prefix ≤ String.length s)
  && bool_decide (substring 0 (String.length prefix) s = prefix).

Definition HasSuffix (s suffix : string) : bool :=
  bool_decide (String.length suffix ≤ String.length s)
  && bool_decide (substring (String.length s - String.length suffix) (String.length suffix) s
                  = suffix).

(** [strings.Split] for a separator of one byte: the pieces between the
    occurrences of the separator, one more than there are occurrences. *)
Fixpoint Split (s : string) (sep : ascii) : list string :=
  match s with
  | EmptyString => [EmptyString]
  | String c r =>
      if decide (c = sep) then EmptyString :: Split r sep
      else match Split r sep with
           | piece :: pieces => String c piece :: pieces
           | [] => [String c EmptyString]
           end
  end.

(** A string that does not begin with a blank. *)
Definition firstOk (s : string) : Prop :=
  match s with
  | String c _ => isSpace c = false
  | EmptyString => True
  end.

End gostrings.

(* ===================================================================== *)
(** * Package [types] (what [engine/node.go] uses of it)                 *)
(* ===================================================================== *)

Module types.

(** The values a [Configuration] (a [map[string]interface{}]) holds.  The
    last two are what [initRuleNodeCtx] injects: the chain context pointer
    (by chain id, [None] for nil) and a copy of the node definition's
    header. *)
Inductive Value :=
| VString (s : string)
| VBool (b : bool)
| VInt (z : Z)
| VStringMap (m : gmap string string)
| VChainCtx (chain : option string)
| VRuleNode (id type : string) (debugMode : bool).

Abbreviation Configuration := (gmap string Value).

(** [types.RuleNode]: the declarative definition of one node.  Its
    [Configuration] may be a nil map. *)
Record RuleNode := mkRuleNode {
  Id : string;
  Type' : string;
  DebugMode : bool;
  Configuration' : option Configuration
}.

(** A component instance behind the [types.Node] interface.  [Init] either
    rejects a configuration with an error or keeps it; the instance records
    the configuration it was initialised with ([None] before [Init]). *)
Record Node := mkNode {
  nodeType : string;
  nodeInitCheck : Configuration → option error;
  nodeConfiguration : option Configuration
}.

Definition Node_Init (n : Node) (configuration : Configuration) : Node * option error :=
  match nodeInitCheck n configuration with
  | Some e => (n, Some e)
  | None => (mkNode (nodeType n) (nodeInitCheck n) (Some configuration), None)
  end.

(** [types.Config]: the engine configuration.  [Properties] and the
    registry are nil-able; the registry's [NewNode] yields a fresh instance
    or an error; the parser decodes a node definition. *)
Record Config := mkConfig {
  Properties : option (gmap string string);
  ComponentsRegistry : option (string → Node + error);
  Parser : string → RuleNode + error
}.

(** An aspect; [OnNodeBeforeInit] is present for the aspects that implement
    the before-init hook. *)
Record Aspect := mkAspect {
  aspectName : string;
  OnNodeBeforeInit : option (Config → RuleNode → option error)
}.

Abbreviation AspectList := (list Aspect).

(** Modelled from the spec: [AspectList.GetEngineAspects] is not in these
    files; its second result is the list of aspects "invoked around node
    initialization", here those that carry the before-init hook, in order. *)
Definition nodeBeforeInitAspects (aspects : AspectList) : list (Config → RuleNode → option error) :=
  omap OnNodeBeforeInit aspects.

(** Modelled from the spec: the scope names of the substitution environment
    and the reserved configuration keys are constants of [api/types], named
    after the scopes "global properties, chain variables, chain secrets". *)
Definition Global : string := "global".
Definition Vars : string := "vars".
Definition Secrets : string := "secrets".
Definition NodeConfigurationKeyIsInitNetResource : string := "$isInitNetResource".
Definition NodeConfigurationKeyChainCtx : string := "$chainCtx".
Definition NodeConfigurationKeySelfDefinition : string := "$selfDefinition".

(** The zero value of [Config]. *)
Definition zeroConfig : Config := mkConfig None None (λ _, inr "nil parser").

End types.

(** [str.ExecuteTemplate]: the placeholder engine of [utils/str], which is
    not part of these files.  The environment maps a scope name to that
    scope's variables. *)
Class TemplateEngine := ExecuteTemplate : string → gmap string (gmap string string) → string.

(* ===================================================================== *)
(** * [engine/node.go]                                                   *)
(* ===================================================================== *)

Module engine.
Import types.

(** What the node wrapper reads of its owning chain. *)
Record RuleChainCtx := mkRuleChainCtx {
  chainId : string;
  vars : gmap string string;
  decryptSecrets : gmap string string;
  chainAspects : AspectList
}.

(** [RuleNodeCtx]: every pointer field is nil-able. *)
Record RuleNodeCtx := mkRuleNodeCtx {
  Node : option types.Node;
  ChainCtx : option RuleChainCtx;
  SelfDefinition : option RuleNode;
  config : Config;
  aspects : AspectList;
  isInitNetResource : bool
}.

(** [&RuleNodeCtx{}] *)
Definition emptyRuleNodeCtx : RuleNodeCtx :=
  mkRuleNodeCtx None None None zeroConfig [] false.

(** A call either returns or panics. *)
Inductive outcome (A : Type) :=
| Returns (a : A)
| Panics (msg : string).
Arguments Returns {A} a.
Arguments Panics {A} msg.

Definition nilDereference : string := "invalid memory address or nil pointer dereference".

(** [copyMap]: the loop inserts every entry into a fresh map. *)
Definition copyMap (inputMap : gmap string string) : gmap string string :=
  map_fold (λ key value result, <[key:=value]> result) ∅ inputMap.

Section process.
Context `{TemplateEngine}.

(** The environment [processVariables] hands to the template engine. *)
Definition templateEnv (globalEnv : gmap string string) (varsEnv : option (gmap string string))
  : gmap string (gmap string string) :=
  <[Vars := default ∅ varsEnv]> (<[Global := globalEnv]> ∅).

Definition processVariables (config : Config) (chainCtx : option RuleChainCtx)
    (configuration : Configuration) : Configuration * option error :=
  let globalEnv := match Properties config with Some p => p | None => ∅ end in
  let varsEnv := (λ c, copyMap (vars c)) <$> chainCtx in
  let decryptSecrets := (λ c, copyMap (decryptSecrets c)) <$> chainCtx in
  let env := templateEnv globalEnv varsEnv in
  let result :=
    map_fold (λ key value result,
                match value with
                | VString strV => <[key := VString (ExecuteTemplate strV env)]> result
                | _ => <[key := value]> result
                end) ∅ configuration in
  let result := match varsEnv with
                | Some v => <[Vars := VStringMap v]> result
                | None => result
                end in
  let result := match decryptSecrets with
                | Some s => <[Secrets := VStringMap s]> result
                | None => result
                end in
  (result, None).

(** The before-init loop: the first aspect that fails aborts. *)
Fixpoint runBeforeInit (hooks : list (Config → RuleNode → option error))
    (config : Config) (selfDefinition : RuleNode) : option error :=
  match hooks with
  | [] => None
  | h :: rest =>
      match h config selfDefinition with
      | Some err => Some err
      | None => runBeforeInit rest config selfDefinition
      end
  end.

Definition injected (chainCtx : option RuleChainCtx) (selfDefinition : RuleNode)
    (isInitNetResource : bool) (configuration : Configuration) : Configuration :=
  let configuration :=
    if isInitNetResource
    then <[NodeConfigurationKeyIsInitNetResource := VBool true]> configuration
    else configuration in
  let configuration := <[NodeConfigurationKeyChainCtx := VChainCtx (chainId <$> chainCtx)]> configuration in
  <[NodeConfigurationKeySelfDefinition :=
      VRuleNode (Id selfDefinition) (Type' selfDefinition) (DebugMode selfDefinition)]> configuration.

(** [initRuleNodeCtx]: Go returns a wrapper pointer (nil-able) and an error. *)
Definition initRuleNodeCtx (config : Config) (chainCtx : option RuleChainCtx)
    (aspects : AspectList) (selfDefinition : RuleNode) (isInitNetResource : bool)
  : outcome (option RuleNodeCtx * option error) :=
  match runBeforeInit (nodeBeforeInitAspects aspects) config selfDefinition with
  | Some err => Returns (None, Some err)
  | None =>
      match ComponentsRegistry config with
      | None => Panics nilDereference
      | Some NewNode =>
          match NewNode (Type' selfDefinition) with
          | inr err =>
              Returns (Some (mkRuleNodeCtx None chainCtx (Some selfDefinition) config aspects
                                            isInitNetResource), Some err)
          | inl node =>
              let selfDefinition :=
                match Configuration' selfDefinition with
                | None => mkRuleNode (Id selfDefinition) (Type' selfDefinition)
                                     (DebugMode selfDefinition) (Some ∅)
                | Some _ => selfDefinition
                end in
              match processVariables config chainCtx (default ∅ (Configuration' selfDefinition)) with
              | (_, Some err) => Returns (Some emptyRuleNodeCtx, Some err)
              | (configuration, None) =>
                  let configuration := injected chainCtx selfDefinition isInitNetResource configuration in
                  match Node_Init node configuration with
                  | (_, Some err) => Returns (Some emptyRuleNodeCtx, Some err)
                  | (node, None) =>
                      Returns (Some (mkRuleNodeCtx (Some node) chainCtx (Some selfDefinition) config
                                                    aspects isInitNetResource), None)
                  end
              end
          end
      end
  end.

Definition InitRuleNodeCtx config chainCtx aspects selfDefinition :=
  initRuleNodeCtx config chainCtx aspects selfDefinition false.

Definition InitNetResourceNodeCtx config chainCtx aspects selfDefinition :=
  initRuleNodeCtx config chainCtx aspects selfDefinition true.



(** [Copy]: the chain context and the net-resource flag stay. *)
Definition Copy (rn newCtx : RuleNodeCtx) : RuleNodeCtx :=
  mkRuleNodeCtx (Node newCtx) (ChainCtx rn) (SelfDefinition newCtx) (config newCtx)
                (aspects newCtx) (isInitNetResource rn).

(** The state a reload acts on: the wrapper (a shared, mutable object) and
    the component instances destroyed so far, oldest first. *)
Record NodeState := mkNodeState {
  wrapper : RuleNodeCtx;
  destroyed : list types.Node
}.

(** [rn.Destroy()] is the embedded component's [Destroy]; with no component
    the promoted call dereferences nil. *)
Definition Destroy (st : NodeState) : outcome NodeState :=
  match Node (wrapper st) with
  | Some n => Returns (mkNodeState (wrapper st) (destroyed st ++ [n]))
  | None => Panics nilDereference
  end.

(** [ReloadSelfFromDef]: the state after the call and what the call did. *)
Definition ReloadSelfFromDef (st : NodeState) (def : RuleNode) : NodeState * outcome (option error) :=
  let rn := wrapper st in
  let chainCtx := ChainCtx rn in
  let r := match chainCtx with
           | None => initRuleNodeCtx (config rn) None [] def (isInitNetResource rn)
           | Some c => initRuleNodeCtx (config rn) chainCtx (chainAspects c) def (isInitNetResource rn)
           end in
  match r with
  | Panics msg => (st, Panics msg)
  | Returns (ctx, None) =>
      match Destroy st with
      | Panics msg => (st, Panics msg)
      | Returns st' =>
          match ctx with
          | Some ctx => (mkNodeState (Copy (wrapper st') ctx) (destroyed st'), Returns None)
          | None => (st', Panics nilDereference)
          end
      end
  | Returns (_, Some err) => (st, Returns (Some err))
  end.

(** [ReloadSelf]: decode, then reload. *)
Definition ReloadSelf (st : NodeState) (def : string) : NodeState * outcome (option error) :=
  match Parser (config (wrapper st)) def with
  | inl node => ReloadSelfFromDef st node
  | inr err => (st, Returns (Some err))
  end.

(** [ReloadChild] and [GetNodeById] of a leaf wrapper. *)
Definition ReloadChild (rn : RuleNodeCtx) (nodeId : string) (def : string) : option error :=
  Some "not support this func".

Definition GetNodeById (rn : RuleNodeCtx) (nodeId : string) : option RuleNodeCtx * bool :=
  (None, false).

(** ** Vocabulary of the statements *)

(** What the resolution pass does to one entry. *)
Definition resolveEntry (env : gmap string (gmap string string)) (v : Value) : Value :=
  match v with
  | VString strV => VString (ExecuteTemplate strV env)
  | _ => v
  end.

(** An environment with three scopes: global properties, chain variables
    and the chain's decrypted secrets. *)
Definition threeScopeEnv (config : Config) (chainCtx : option RuleChainCtx)
  : gmap string (gmap string string) :=
  <[Secrets := default ∅ (decryptSecrets <$> chainCtx)]>
    (<[Vars := default ∅ (vars <$> chainCtx)]> (<[Global := default ∅ (Properties config)]> ∅)).

(** What a caller learns from a sub-chain call on a leaf wrapper. *)
Inductive Reply :=
| Unsupported (msg : error)
| NotFound
| Found (n : RuleNodeCtx)
| Done.

Definition replyOfReloadChild (r : option error) : Reply :=
  match r with
  | Some msg => Unsupported msg
  | None => Done
  end.

Definition replyOfGetNodeById (r : option RuleNodeCtx * bool) : Reply :=
  match r with
  | (Some n, true) => Found n
  | _ => NotFound
  end.

End process.
End engine.

(* ===================================================================== *)
(** * Concrete collaborators used by the examples                        *)
(* ===================================================================== *)

Module demo.
Import types engine.

(** [splitAt c s]: the text before the first [c] and the text after it. *)
Fixpoint splitAt (c : ascii) (s : string) : option (string * string) :=
  match s with
  | EmptyString => None
  | String d r =>
      if decide (c = d) then Some (EmptyString, r)
      else match splitAt c r with
           | Some (before, after) => Some (String d before, after)
           | None => None
           end
  end.

(** A small placeholder engine: a placeholder [${scope.key}] whose scope and
    key are bound in the environment is replaced by the bound value; all
    other text stays. *)
Fixpoint resolve (fuel : nat) (env : gmap string (gmap string string)) (s : string) : string :=
  match fuel with
  | O => s
  | S fuel =>
      match s with
      | EmptyString => EmptyString
      | String "$" (String "{" r) =>
          match splitAt "}" r with
          | Some (name, rest) =>
              let value :=
                match splitAt "." name with
                | Some (scope, key) => env !! scope ≫= (λ vs, vs !! key)
                | None => None
                end in
              match value with
              | Some v => v +:+ resolve fuel env rest
              | None => "${" +:+ name +:+ "}" +:+ resolve fuel env rest
              end
          | None => s
          end
      | String c r => String c (resolve fuel env r)
      end
  end.

Definition simpleEngine : TemplateEngine := λ s env, resolve (String.length s) env s.

(** A component that accepts every configuration, and one that rejects
    every configuration. *)
Definition goodNode (type : string) : types.Node := mkNode type (λ _, None) None.
Definition failingNode (type : string) : types.Node := mkNode type (λ _, Some "bad configuration") None.

(** A registry that knows the types [log] and [broken]. *)
Definition registry (type : string) : types.Node + error :=
  if decide (type = "log") then inl (goodNode type)
  else if decide (type = "broken") then inl (failingNode type)
  else inr ("component not found. componentType=" +:+ type).

Definition engineConfig : Config :=
  mkConfig (Some {[ "region" := "eu" ]}) (Some registry) (λ _, inr "no parser").

Definition chain : RuleChainCtx :=
  mkRuleChainCtx "chain01" {[ "ip" := "10.0.0.1" ]} {[ "pw" := "hunter2" ]} [].

Definition logDef : RuleNode :=
  mkRuleNode "s1" "log" true (Some {[ "url" := VString "http://${vars.ip}/${global.region}" ]}).
Definition unknownDef : RuleNode := mkRuleNode "s2" "nosuch" true None.

(** A running node: the wrapper initialisation returns for [logDef]. *)
Definition runningWrapper : RuleNodeCtx :=
  match initRuleNodeCtx (H := simpleEngine) engineConfig (Some chain) [] logDef false with
  | Returns (Some rn, None) => rn
  | _ => emptyRuleNodeCtx
  end.

(** Two aspects with a before-init hook, one that lets every node pass and
    one that refuses nodes in debug mode, and an aspect without the hook. *)
Definition passAspect : Aspect := mkAspect "pass" (Some (λ _ _, None)).
Definition noDebugAspect : Aspect :=
  mkAspect "noDebug" (Some (λ _ def, if DebugMode def then Some "debug mode is not allowed" else None)).
Definition otherAspect : Aspect := mkAspect "other" None.

(** The wrapper initialisation returns for a definition of an unregistered
    type: it holds no component. *)
Definition brokenWrapper : RuleNodeCtx :=
  mkRuleNodeCtx None (Some chain) (Some unknownDef) engineConfig [] false.

End demo.

(* ===================================================================== *)
(** * Package [external]: the SSH node and the MQTT client node          *)
(* ===================================================================== *)

Module external.
Import engine.

(** A rule message: payload, content type, message type and metadata. *)
Record RuleMsg := mkRuleMsg {
  Data : string;
  DataType : string;
  MsgType : string;
  Metadata : gmap string string
}.

Definition TEXT : string := "TEXT".

(** The two calls a component makes on its [types.RuleContext]. *)
Inductive Tell :=
| Success (msg : RuleMsg)
| Failure (msg : RuleMsg) (err : error).

(** A rule context is known by the calls made on it so far, oldest first. *)
Abbreviation RuleContext := (list Tell).

Definition TellSuccess (ctx : RuleContext) (msg : RuleMsg) : RuleContext := ctx ++ [Success msg].
Definition TellFailure (ctx : RuleContext) (msg : RuleMsg) (err : error) : RuleContext :=
  ctx ++ [Failure msg err].

(** Handles of the SSH and MQTT client libraries. *)
Definition SshClient := nat.
Definition SshSession := nat.
Definition MqttClient := nat.

(** [time.Duration] is an [int64] count of nanoseconds, and arithmetic on
    it wraps around: [seconds n] is [time.Duration(n) * time.Second]. *)
Module gotime.

Definition int64 (z : Z) : Z := ((z + 2 ^ 63) mod 2 ^ 64 - 2 ^ 63)%Z.

Definition Second : Z := 1000000000.

Definition seconds (n : Z) : Z := int64 (int64 n * Second).

End gotime.

(** [mqtt.Config]; the reconnect interval is a [time.Duration]. *)
Record MqttConfig := mkMqttConfig {
  mqttServer : string;
  mqttUsername : string;
  mqttPassword : string;
  mqttQOS : nat;
  mqttMaxReconnectInterval : Z;
  mqttCleanSession : bool;
  mqttClientID : string
}.

(** The collaborators outside these files: the template engine applied to
    the environment of a message ([str.Template.ExecuteFn] over
    [base.NodeUtils.GetEvnAndMetadata]), [maps.Map2Struct], the SSH and MQTT
    client libraries and the node pool.  [mqtt_NewClient n timeout config] is
    the outcome of the [n]-th construction of a client, started with the
    given timeout in seconds.  [poolReference] reads the pooled instance id a
    server string refers to, the empty string when it names a server. *)
Class ExternalWorld := {
  Execute : string → RuleMsg → string;
  ssh_Dial : string → Z → string → string → SshClient + error;
  ssh_NewSession : SshClient → SshSession + error;
  ssh_CombinedOutput : SshSession → string → string * option error;
  mqtt_NewClient : nat → Z → MqttConfig → MqttClient + error;
  mqtt_Publish : MqttClient → string → nat → string → option error;
  pool_GetInstance : string → MqttClient + error;
  poolReference : string → string
}.

(* --------------------------------------------------------------------- *)
(** ** [ssh_node.go]                                                     *)
(* --------------------------------------------------------------------- *)

Module SshNode.

Definition SshConfigEmptyErr : error := "ssh config can not empty".
Definition SshClientNotInitErr : error := "ssh client not initialized".
Definition SshCmdEmptyErr : error := "cmd can not empty".

Record SshConfiguration := mkSshConfiguration {
  Host : string;
  Port : Z;
  Username : string;
  Password : string;
  Cmd : string
}.

(** The node: its configuration, the client and the command template, both
    nil until [Init] sets them. *)
Record SshNode := mkSshNode {
  Config : SshConfiguration;
  client : option SshClient;
  cmdTemplate : option string
}.

Definition New : SshNode :=
  mkSshNode (mkSshConfiguration "127.0.0.1" 22 "root" "password" "") None None.

Section ssh.
Context `{ExternalWorld}.

(** [Init]; [decoded] is what [maps.Map2Struct] makes of the configuration. *)
Definition Init (x : SshNode) (decoded : SshConfiguration + error) : SshNode * option error :=
  match decoded with
  | inr err => (x, Some err)
  | inl sshConfig =>
      let x := mkSshNode sshConfig (client x) (cmdTemplate x) in
      if bool_decide (Host sshConfig ≠ "") && bool_decide (Port sshConfig ≠ 0%Z)
         && bool_decide (Username sshConfig ≠ "") && bool_decide (Password sshConfig ≠ "")
      then
        match ssh_Dial (Host sshConfig) (Port sshConfig) (Username sshConfig) (Password sshConfig) with
        | inl c => (mkSshNode sshConfig (Some c) (Some (Cmd sshConfig)), None)
        | inr err => (mkSshNode sshConfig None (Some (Cmd sshConfig)), Some err)
        end
      else (x, Some SshConfigEmptyErr)
  end.

(** [OnMsg]: the context after the call, or a panic. *)
Definition OnMsg (x : SshNode) (ctx : RuleContext) (msg : RuleMsg) : outcome RuleContext :=
  match client x with
  | None => Returns (TellFailure ctx msg SshClientNotInitErr)
  | Some sshClient =>
      let cmd := Cmd (Config x) in
      if decide (cmd = "") then Returns (TellFailure ctx msg SshCmdEmptyErr)
      else
        match cmdTemplate x with
        | None => Panics nilDereference
        | Some template =>
            let cmd := Execute template msg in
            match ssh_NewSession sshClient with
            | inl session =>
                let '(output, err) := ssh_CombinedOutput session cmd in
                let msg := mkRuleMsg output TEXT (MsgType msg) (Metadata msg) in
                match err with
                | Some err => Returns (TellFailure ctx msg err)
                | None => Returns (TellSuccess ctx msg)
                end
            | inr err => Returns (TellFailure ctx msg err)
            end
        end
  end.

End ssh.
End SshNode.

(* --------------------------------------------------------------------- *)
(** ** [mqtt_client_node.go]                                             *)
(* --------------------------------------------------------------------- *)

Module MqttClientNode.

Record MqttClientNodeConfiguration := mkMqttClientNodeConfiguration {
  Server : string;
  Username : string;
  Password : string;
  Topic : string;
  MaxReconnectInterval : Z;
  QOS : nat;
  CleanSession : bool;
  ClientID : string
}.

(** [ToMqttConfig] first normalises a negative reconnect interval in place;
    the interval, in seconds, is then converted to a [time.Duration]. *)
Definition ToMqttConfig (x : MqttClientNodeConfiguration) : MqttClientNodeConfiguration * MqttConfig :=
  let x := if bool_decide (MaxReconnectInterval x < 0)%Z
           then mkMqttClientNodeConfiguration (Server x) (Username x) (Password x) (Topic x) 60
                                              (QOS x) (CleanSession x) (ClientID x)
           else x in
  (x, mkMqttConfig (Server x) (Username x) (Password x) (QOS x)
                   (gotime.seconds (MaxReconnectInterval x)) (CleanSession x) (ClientID x)).

(** One construction of a client: the timeout and configuration it was
    started with, and its outcome. *)
Record Construction := mkConstruction {
  timeout : Z;
  usedConfig : MqttConfig;
  result : MqttClient + error
}.

(** The node, shared by every caller: the embedded [SharedNode] (its
    [InstanceId], whether [Init] has recorded the construction function, and
    who holds its [Locker]), the configuration, the topic template (nil until
    [Init]) and the client (nil until built).  [constructed] is the history
    of the calls of [mqtt.NewClient] made for this node. *)
Record MqttClientNode := mkMqttClientNode {
  InstanceId : string;
  hasInitInstanceFunc : bool;
  Locker : option nat;
  Config : MqttClientNodeConfiguration;
  topicTemplate : option string;
  client : option MqttClient;
  constructed : list Construction
}.

Definition New : MqttClientNode :=
  mkMqttClientNode "" false None
    (mkMqttClientNodeConfiguration "127.0.0.1:1883" "" "" "/device/msg" 60 0 false "")
    None None [].

(** The timeout of [initClient], in seconds. *)
Definition initClientTimeout : Z := 4.

(** Where a caller of [initClient] stands. *)
Inductive pc :=
| AtLock
| AtCheck
| AtConstruct
| AtStore (r : MqttClient + error)
| AtUnlock (r : option MqttClient * option error)
| Returned (r : option MqttClient * option error).

Definition setLocker (x : MqttClientNode) (l : option nat) : MqttClientNode :=
  mkMqttClientNode (InstanceId x) (hasInitInstanceFunc x) l (Config x) (topicTemplate x)
                   (client x) (constructed x).

Definition setClient (x : MqttClientNode) (c : MqttClient) : MqttClientNode :=
  mkMqttClientNode (InstanceId x) (hasInitInstanceFunc x) (Locker x) (Config x) (topicTemplate x)
                   (Some c) (constructed x).

Section mqtt.
Context `{ExternalWorld}.

(** [mqtt.NewClient(ctx, x.Config.ToMqttConfig())] under the 4 second
    context: the configuration is normalised, the call is recorded. *)
Definition construct (x : MqttClientNode) : MqttClientNode * (MqttClient + error) :=
  let '(cfg, mqttConfig) := ToMqttConfig (Config x) in
  let r := mqtt_NewClient (length (constructed x)) initClientTimeout mqttConfig in
  (mkMqttClientNode (InstanceId x) (hasInitInstanceFunc x) (Locker x) cfg (topicTemplate x)
                    (client x) (constructed x ++ [mkConstruction initClientTimeout mqttConfig r]),
   r).

(** One step of caller [i] through [initClient]:
    - [AtLock]: [x.Locker.Lock()], possible only while nobody holds the lock;
    - [AtCheck]: read [x.client] under the read lock; return it if set;
    - [AtConstruct]: call [mqtt.NewClient];
    - [AtStore]: [if err == nil] store the client;
    - [AtUnlock]: the deferred [x.Locker.Unlock()], then return.
    [None]: the caller cannot move (it waits for the lock or has returned). *)
Definition stepCaller (i : nat) (p : pc) (x : MqttClientNode) : option (pc * MqttClientNode) :=
  match p with
  | AtLock =>
      match Locker x with
      | None => Some (AtCheck, setLocker x (Some i))
      | Some _ => None
      end
  | AtCheck =>
      match client x with
      | Some existingClient => Some (AtUnlock (Some existingClient, None), x)
      | None => Some (AtConstruct, x)
      end
  | AtConstruct => let '(x, r) := construct x in Some (AtStore r, x)
  | AtStore (inl c) => Some (AtUnlock (Some c, None), setClient x c)
  | AtStore (inr err) => Some (AtUnlock (None, Some err), x)
  | AtUnlock r => Some (Returned r, setLocker x None)
  | Returned _ => None
  end.

(** [initClient] run by one caller from start to return. *)
Definition initClient (x : MqttClientNode) : option (MqttClientNode * (option MqttClient * option error)) :=
  '(p, x) ← stepCaller 0 AtLock x;
  '(p, x) ← stepCaller 0 p x;
  match p with
  | AtUnlock r => '(_, x) ← stepCaller 0 p x; Some (x, r)
  | _ =>
      '(p, x) ← stepCaller 0 p x;
      '(p, x) ← stepCaller 0 p x;
      match p with
      | AtUnlock r => '(_, x) ← stepCaller 0 p x; Some (x, r)
      | _ => None
      end
  end.

(** Several callers of [initClient] on one node. *)
Record System := mkSystem {
  node : MqttClientNode;
  callers : list pc
}.

Definition stepSystem (i : nat) (s : System) : option System :=
  p ← callers s !! i;
  '(p', x') ← stepCaller i p (node s);
  Some (mkSystem x' (<[i := p']> (callers s))).

(** Any caller that can move may move next. *)
Definition step (s s' : System) : Prop := ∃ i, stepSystem i s = Some s'.

Definition launch (x : MqttClientNode) (n : nat) : System := mkSystem x (replicate n AtLock).

Definition returned (p : pc) : bool :=
  match p with
  | Returned _ => true
  | _ => false
  end.

Definition allReturned (s : System) : Prop := Forall (λ p, returned p = true) (callers s).

(** Modelled from the spec: [SharedNode.Get] and [SharedNode.Init] are not in
    these files.  "Resources are identified by a logical key": a node whose
    key refers to a pooled instance gets that instance; otherwise [Get] "runs
    the construction function" that [Init] recorded, here [initClient].
    [Init] "records identity/key; if eagerlyConstruct is true, forces
    construction immediately; otherwise defers to first Get". *)
Definition SharedNode_Get (x : MqttClientNode)
  : outcome (MqttClientNode * (option MqttClient * option error)) :=
  if decide (InstanceId x ≠ "") then
    match pool_GetInstance (InstanceId x) with
    | inl c => Returns (x, (Some c, None))
    | inr err => Returns (x, (None, Some err))
    end
  else if hasInitInstanceFunc x then
    match initClient x with
    | Some r => Returns r
    | None => Panics "all goroutines are asleep - deadlock!"
    end
  else Returns (x, (None, Some "node not init")).

Definition SharedNode_Init (x : MqttClientNode) (serverOrInstanceId : string) (initNow : bool)
  : outcome (MqttClientNode * option error) :=
  let instanceId := poolReference serverOrInstanceId in
  if decide (instanceId = "") then
    let x := mkMqttClientNode (InstanceId x) true (Locker x) (Config x) (topicTemplate x)
                              (client x) (constructed x) in
    if initNow then
      match initClient x with
      | Some (x, (_, err)) => Returns (x, err)
      | None => Panics "all goroutines are asleep - deadlock!"
      end
    else Returns (x, None)
  else
    Returns (mkMqttClientNode instanceId (hasInitInstanceFunc x) (Locker x) (Config x)
                              (topicTemplate x) (client x) (constructed x), None).

(** [Init]; [decoded] is what [maps.Map2Struct] makes of the configuration.
    The error of [SharedNode.Init] is dropped, as in the source. *)
Definition Init (x : MqttClientNode) (nodeClientInitNow : bool)
    (decoded : MqttClientNodeConfiguration + error) : outcome (MqttClientNode * option error) :=
  match decoded with
  | inr err => Returns (x, Some err)
  | inl cfg =>
      let x := mkMqttClientNode (InstanceId x) (hasInitInstanceFunc x) (Locker x) cfg
                                (topicTemplate x) (client x) (constructed x) in
      match SharedNode_Init x (Server cfg) nodeClientInitNow with
      | Panics msg => Panics msg
      | Returns (x, _) =>
          Returns (mkMqttClientNode (InstanceId x) (hasInitInstanceFunc x) (Locker x) (Config x)
                                    (Some (Topic (Config x))) (client x) (constructed x), None)
      end
  end.

(** [OnMsg]: the node and the context after the call, or a panic. *)
Definition OnMsg (x : MqttClientNode) (ctx : RuleContext) (msg : RuleMsg)
  : outcome (MqttClientNode * RuleContext) :=
  match topicTemplate x with
  | None => Panics nilDereference
  | Some template =>
      let topic := Execute template msg in
      match SharedNode_Get x with
      | Panics m => Panics m
      | Returns (x, (_, Some err)) => Returns (x, TellFailure ctx msg err)
      | Returns (x, (None, None)) => Panics nilDereference
      | Returns (x, (Some mqttClient, None)) =>
          match mqtt_Publish mqttClient topic (QOS (Config x)) (Data msg) with
          | Some err => Returns (x, TellFailure ctx msg err)
          | None => Returns (x, TellSuccess ctx msg)
          end
      end
  end.

(** ** Vocabulary of the statements *)

(** A schedule names the caller that moves at each step. *)
Fixpoint runSchedule (schedule : list nat) (s : System) : option System :=
  match schedule with
  | [] => Some s
  | i :: schedule => s' ← stepSystem i s; runSchedule schedule s'
  end.

Definition failed (k : Construction) : Prop := ∃ err, result k = inr err.

(** The client and the history agree: a client is stored exactly when the
    last construction succeeded with it, and every construction before the
    last one failed. *)
Definition consistent (x : MqttClientNode) : Prop :=
  match client x with
  | Some c => ∃ past k, constructed x = past ++ [k] ∧ result k = inl c ∧ Forall failed past
  | None => Forall failed (constructed x)
  end.

(** A node nobody is working on. *)
Definition quiescent (x : MqttClientNode) : Prop :=
  Locker x = None ∧ consistent x
  ∧ Forall (λ k, timeout k = initClientTimeout) (constructed x).

(** The callers inside the critical section. *)
Definition holds (p : pc) : bool :=
  match p with
  | AtCheck | AtConstruct | AtStore _ | AtUnlock _ => true
  | AtLock | Returned _ => false
  end.

(** What a caller is about to return, or has returned, fits the node
    [x], launched as [x0]: a client is the stored one, an error is the error
    of a construction made since the launch. *)
Definition fits (x0 x : MqttClientNode) (r : option MqttClient * option error) : Prop :=
  match r with
  | (Some c, None) => client x = Some c
  | (None, Some err) =>
      ∃ n k, constructed x !! n = Some k ∧ (length (constructed x0) ≤ n)%nat ∧ result k = inr err
  | _ => False
  end.

Definition pcInv (x0 x : MqttClientNode) (p : pc) : Prop :=
  match p with
  | AtLock => True
  | AtCheck => consistent x
  | AtConstruct => client x = None ∧ Forall failed (constructed x)
  | AtStore r =>
      client x = None
      ∧ ∃ past k, constructed x = past ++ [k] ∧ result k = r ∧ Forall failed past
                  ∧ (length (constructed x0) ≤ length past)%nat
  | AtUnlock r => consistent x ∧ fits x0 x r
  | Returned r => fits x0 x r
  end.

(** The invariant of a system launched on the node [x0]. *)
Record Inv (x0 : MqttClientNode) (s : System) : Prop := mkInv {
  inv_lock : ∀ i p, callers s !! i = Some p → holds p = true → Locker (node s) = Some i;
  inv_holder : ∀ i, Locker (node s) = Some i → ∃ p, callers s !! i = Some p ∧ holds p = true;
  inv_free : Locker (node s) = None → consistent (node s);
  inv_pc : ∀ i p, callers s !! i = Some p → pcInv x0 (node s) p;
  inv_config : Config (node s) = Config x0 ∨ Config (node s) = (ToMqttConfig (Config x0)).1;
  inv_history : ∃ new, constructed (node s) = constructed x0 ++ new
      ∧ ∀ n k, new !! n = Some k →
          k = mkConstruction initClientTimeout (ToMqttConfig (Config x0)).2
                (mqtt_NewClient (length (constructed x0) + n) initClientTimeout
                                (ToMqttConfig (Config x0)).2);
  inv_built : ∀ c, client x0 = Some c →
      client (node s) = Some c ∧ constructed (node s) = constructed x0
}.

(** The steps a caller still has to take, at most. *)
Definition remaining (p : pc) : nat :=
  match p with
  | AtLock => 5
  | AtCheck => 4
  | AtConstruct => 3
  | AtStore _ => 2
  | AtUnlock _ => 1
  | Returned _ => 0
  end.

Definition weight (s : System) : nat := sum_list (remaining <$> callers s).

End mqtt.
End MqttClientNode.
End external.

(** Two networks for the examples: one where every connection attempt
    fails, one where every attempt succeeds (the [n]-th construction yields
    the client [n]). *)
Module demo_external.
Import external.

Definition offline : ExternalWorld := {|
  Execute := λ template _, template;
  ssh_Dial := λ _ _ _ _, inr "dial tcp: connection refused";
  ssh_NewSession := λ _, inr "ssh: connection closed";
  ssh_CombinedOutput := λ _ _, ("", Some "exit status 1");
  mqtt_NewClient := λ _ _ _, inr "context deadline exceeded";
  mqtt_Publish := λ _ _ _ _, Some "not connected";
  pool_GetInstance := λ _, inr "node resources not found";
  poolReference := λ _, ""
|}.

Definition online : ExternalWorld := {|
  Execute := λ template _, template;
  ssh_Dial := λ _ _ _ _, inl 1;
  ssh_NewSession := λ c, inl c;
  ssh_CombinedOutput := λ _ cmd, (cmd, None);
  mqtt_NewClient := λ n _ _, inl n;
  mqtt_Publish := λ _ _ _ _, None;
  pool_GetInstance := λ _, inr "node resources not found";
  poolReference := λ _, ""
|}.

(** The MQTT node after [Init] with its default configuration. *)
Definition mqttNode : MqttClientNode.MqttClientNode :=
  MqttClientNode.mkMqttClientNode "" true None
    (MqttClientNode.Config MqttClientNode.New) (Some "/device/msg") None [].

Definition message : RuleMsg := mkRuleMsg "AA" "JSON" "ACTIVITY_EVENT" ∅.

End demo_external.

(* ===================================================================== *)
(** * The regular expression of [convertPathParams]                      *)
(* ===================================================================== *)

(** The expression matches an opening brace, a name (a letter or
    underscore followed by any number of letters, digits and underscores)
    and a closing brace; [ReplaceAllString] with the replacement [:$1] puts
    a colon and the name in place of every match.  A match can only begin
    at an opening brace, and the name after the brace is taken as far as it
    goes, so the leftmost matches are found by one pass that remembers the
    name read since the last opening brace.  Paths are ASCII here. *)
Module regexp.

Definition isNameStart (c : ascii) : bool :=
  let n := nat_of_ascii c in
  (bool_decide (65 ≤ n) && bool_decide (n ≤ 90))
  || (bool_decide (97 ≤ n) && bool_decide (n ≤ 122))
  || bool_decide (n = 95).

Definition isNameChar (c : ascii) : bool :=
  let n := nat_of_ascii c in
  isNameStart c || (bool_decide (48 ≤ n) && bool_decide (n ≤ 57)).

(** [pending] is the name read since an opening brace that may still begin
    a match; [None] when there is no such brace. *)
Fixpoint replaceFrom (pending : option string) (s : string) : string :=
  match s with
  | EmptyString =>
      match pending with
      | Some name => String "{" name
      | None => EmptyString
      end
  | String c r =>
      match pending with
      | None =>
          if decide (c = "{"%char) then replaceFrom (Some EmptyString) r
          else String c (replaceFrom None r)
      | Some name =>
          if (if decide (name = EmptyString) then isNameStart c else isNameChar c)
          then replaceFrom (Some (name +:+ String c EmptyString)) r
          else if bool_decide (name ≠ EmptyString) && bool_decide (c = "}"%char)
          then String ":" (name +:+ replaceFrom None r)
          else String "{" (name +:+ (if decide (c = "{"%char) then replaceFrom (Some EmptyString) r
                                     else String c (replaceFrom None r)))
      end
  end.

Definition ReplaceAllString (path : string) : string := replaceFrom None path.

(** A parameter name: a letter or underscore followed by letters, digits
    and underscores. *)
Fixpoint allNameChars (s : string) : bool :=
  match s with
  | EmptyString => true
  | String c r => isNameChar c && allNameChars r
  end.

Definition isName (s : string) : bool :=
  match s with
  | EmptyString => false
  | String c r => isNameStart c && allNameChars r
  end.

(** A text without an opening brace. *)
Fixpoint noBrace (s : string) : bool :=
  match s with
  | EmptyString => true
  | String c r => bool_decide (c ≠ "{"%char) && noBrace r
  end.

End regexp.

(* ===================================================================== *)
(** * Package [rest]: the HTTP endpoint                                  *)
(* ===================================================================== *)

(** ** Routers (package [endpoint]) *)

Module endpoint.

(** The source of a route: its path and, when it has a destination, whether
    that destination makes the caller wait ([From.GetTo().IsWait()]). *)
Record From := mkFrom {
  fromPath : string;
  fromTo : option bool
}.

(** A router as the endpoint sees it.  The parameters are the HTTP methods
    it was registered with, as strings ([str.ToString] of a string is the
    string). *)
Record Router := mkRouter {
  id : string;
  params : list string;
  disable : bool;
  from : option From
}.

End endpoint.

Module rest.
Import engine.
Import endpoint.

(** ** The dispatch surface ([httprouter.Router]) *)

(** One registered handle: method, path, and what the closure built by
    [rest.handler] captured, the router (by address) and the wait flag. *)
Record Handle := mkHandle {
  hMethod : string;
  hPath : string;
  hRouter : nat;
  hWait : bool
}.

Record Surface := mkSurface {
  handles : list Handle;
  GlobalOPTIONS : bool
}.

(** [httprouter.New()] *)
Definition newSurface : Surface := mkSurface [] false.

(** ** The endpoint *)

Record Config := mkConfig {
  Server : string;
  CertFile : string;
  CertKeyFile : string;
  AllowCors : bool
}.

(** [Rest].  [InstanceId] and [NodeType] are the embedded [SharedNode]
    ([NodeType] is empty until the shared node is initialised); [Logger]
    tells whether [RuleConfig.Logger] is set; [HttpServer] is the address of
    the [http.Server], if one was created; [interceptors] counts the
    interceptors of the embedded [BaseEndpoint]; [RouterStorage] maps a route
    id to the address of its router and may be nil. *)
Record Rest := mkRest {
  InstanceId : string;
  NodeType : string;
  Config' : Config;
  Logger : bool;
  HttpServer : option string;
  router : option Surface;
  started : bool;
  RouterStorage : option (gmap string nat);
  interceptors : nat
}.

(** What the endpoint code reads and writes: the endpoints and the routers,
    by address, the node pool (instance id to endpoint), and the lines
    written to the logger.  The servers themselves and their listeners are
    outside: of a server the world holds only its address. *)
Record World := mkWorld {
  endpoints : gmap nat Rest;
  routers : gmap nat endpoint.Router;
  pool : gmap string nat;
  log : list string
}.

(** The collaborators outside this file: [net.Listen] on an address; what
    [httprouter.Router.Handle] does for a method and path on a router that
    holds the given handles (the panic value, if it panics); the regular
    expression of [convertPathParams]; the pooled instance id a server
    string refers to (empty when it names a server); and the order in which
    a [range] over a map visits its entries, any permutation. *)
Class RestWorld := {
  net_Listen : string → option error;
  httprouter_Handle : list Handle → string → string → option string;
  regexp_ReplaceAllString : string → string;
  poolReference : string → string;
  rangeOrder : list (string * nat) → list (string * nat);
  rangeOrder_perm : ∀ l, rangeOrder l ≡ₚ l
}.

(** ** Calls: a state and failure monad

    A call runs on a world and returns a value and the world it leaves, or
    panics, leaving the world as it is at the panic, or, in this model, runs
    out of fuel (a call chain deeper than the fuel given). *)
Inductive Outcome (A : Type) : Type :=
| Ok (a : A) (w : World)
| Panic (msg : string) (w : World)
| OutOfFuel.
Arguments Ok {A} a w.
Arguments Panic {A} msg w.
Arguments OutOfFuel {A}.

Definition M (A : Type) : Type := World → Outcome A.

Definition ret {A} (a : A) : M A := λ w, Ok a w.

Definition bind {A B} (m : M A) (k : A → M B) : M B :=
  λ w, match m w with
       | Ok a w' => k a w'
       | Panic msg w' => Panic msg w'
       | OutOfFuel => OutOfFuel
       end.

Notation "'let*' x := m 'in' k" := (bind m (λ x, k))
  (at level 10, x pattern, m at level 100, k at level 200).
Notation "m ;; k" := (bind m (λ _, k)) (at level 100, k at level 200, right associativity).

Definition panic {A} (msg : string) : M A := λ w, Panic msg w.
Definition outOfFuel {A} : M A := λ _, OutOfFuel.

(** [defer func() { if e := recover(); e != nil { ... } }()] *)
Definition recover {A} (m : M A) (handler : string → M A) : M A :=
  λ w, match m w with
       | Panic msg w' => handler msg w'
       | o => o
       end.

Definition getRest (a : nat) : M Rest :=
  λ w, match endpoints w !! a with
       | Some r => Ok r w
       | None => Panic nilDereference w
       end.

Definition modifyRest (a : nat) (f : Rest → Rest) : M unit :=
  λ w, match endpoints w !! a with
       | Some r => Ok tt (mkWorld (<[a := f r]> (endpoints w)) (routers w) (pool w) (log w))
       | None => Panic nilDereference w
       end.

Definition getRouter (p : nat) : M endpoint.Router :=
  λ w, match routers w !! p with
       | Some ro => Ok ro w
       | None => Panic nilDereference w
       end.

Definition modifyRouter (p : nat) (f : endpoint.Router → endpoint.Router) : M unit :=
  λ w, match routers w !! p with
       | Some ro => Ok tt (mkWorld (endpoints w) (<[p := f ro]> (routers w)) (pool w) (log w))
       | None => Panic nilDereference w
       end.

Definition writeLog (line : string) : M unit :=
  λ w, Ok tt (mkWorld (endpoints w) (routers w) (pool w) (log w ++ [line])).

(** Field updates of [Rest]. *)
Definition setInstanceId (v : string) (r : Rest) : Rest :=
  mkRest v (NodeType r) (Config' r) (Logger r) (HttpServer r) (router r) (started r)
         (RouterStorage r) (interceptors r).
Definition setNodeType (v : string) (r : Rest) : Rest :=
  mkRest (InstanceId r) v (Config' r) (Logger r) (HttpServer r) (router r) (started r)
         (RouterStorage r) (interceptors r).
Definition setHttpServer (v : option string) (r : Rest) : Rest :=
  mkRest (InstanceId r) (NodeType r) (Config' r) (Logger r) v (router r) (started r)
         (RouterStorage r) (interceptors r).
Definition setRouter (v : option Surface) (r : Rest) : Rest :=
  mkRest (InstanceId r) (NodeType r) (Config' r) (Logger r) (HttpServer r) v (started r)
         (RouterStorage r) (interceptors r).
Definition setStarted (v : bool) (r : Rest) : Rest :=
  mkRest (InstanceId r) (NodeType r) (Config' r) (Logger r) (HttpServer r) (router r) v
         (RouterStorage r) (interceptors r).
Definition setRouterStorage (v : option (gmap string nat)) (r : Rest) : Rest :=
  mkRest (InstanceId r) (NodeType r) (Config' r) (Logger r) (HttpServer r) (router r) (started r)
         v (interceptors r).
Definition setInterceptors (v : nat) (r : Rest) : Rest :=
  mkRest (InstanceId r) (NodeType r) (Config' r) (Logger r) (HttpServer r) (router r) (started r)
         (RouterStorage r) v.

(** ** The methods of [endpoint.Router], on a router in the store *)

Definition GetId (p : nat) : M string := let* ro := getRouter p in ret (id ro).
Definition SetId (p : nat) (v : string) : M unit :=
  modifyRouter p (λ ro, mkRouter v (params ro) (disable ro) (from ro)).
Definition GetParams (p : nat) : M (list string) := let* ro := getRouter p in ret (params ro).
Definition SetParams (p : nat) (v : list string) : M unit :=
  modifyRouter p (λ ro, mkRouter (id ro) v (disable ro) (from ro)).
Definition IsDisable (p : nat) : M bool := let* ro := getRouter p in ret (disable ro).
Definition Disable (p : nat) (v : bool) : M unit :=
  modifyRouter p (λ ro, mkRouter (id ro) (params ro) v (from ro)).
Definition FromToString (p : nat) : M string :=
  let* ro := getRouter p in ret (match from ro with Some f => fromPath f | None => "" end).

(** ** The endpoint's methods *)

(** The component type: [types.EndpointTypePrefix + "http"]. *)
Definition Type' : string := "endpoint/http".

(** [Printf]: a line reaches the logger when one is configured. *)
Definition Printf (a : nat) (line : string) : M unit :=
  let* r := getRest a in
  if Logger r then writeLog line else ret tt.

Definition RouterKey (method : string) (from : string) : string :=
  method +:+ ":" +:+ from.

(** [RegisterStaticFiles]: the calls of [ServeFiles] it makes on the
    router, in order, each with its URL path and local directory.  An entry
    of the mapping that does not consist of exactly two parts around one
    [=] makes no call.  ([ServeFiles] itself is httprouter's.) *)
Definition RegisterStaticFiles (resourceMapping : string) : list (string * string) :=
  if decide (resourceMapping ≠ "") then
    let mapping := gostrings.Split resourceMapping "," in
    omap (λ item,
            match gostrings.Split item "=" with
            | [files0; files1] =>
                let urlPath := gostrings.TrimSpace files0 in
                let localDir := gostrings.TrimSpace files1 in
                let basePath :=
                  if gostrings.HasSuffix urlPath "/*filepath"
                  then substring 0 (String.length urlPath - 10) urlPath
                  else urlPath in
                let urlPath :=
                  if negb (gostrings.HasSuffix urlPath "/*filepath") then
                    if gostrings.HasSuffix basePath "/" then basePath +:+ "*filepath"
                    else basePath +:+ "/*filepath"
                  else urlPath in
                Some (gostrings.TrimSpace urlPath, gostrings.TrimSpace localDir)
            | _ => None
            end) mapping
  else [].

Section methods.
Context `{RestWorld}.

(** [convertPathParams]: the replacement of [{name}] by [:name] is the
    regular expression library's. *)
Definition convertPathParams (path : string) : string := regexp_ReplaceAllString path.

(** Modelled from the spec: [SharedNode.IsInit], [SharedNode.Init] and
    [SharedNode.Get] are not in this file.  [Init] "records identity/key"
    and, asked not to construct eagerly, "defers to first Get": it records
    the node type and, when the key refers to a pooled instance, that
    instance's id.  [IsInit] is the "non-blocking check" whether that has
    happened.  [Get] yields the pooled instance when the node refers to one
    ("multiple node definitions pointing at the same external endpoint share
    one live handle") and otherwise "runs the construction function", which
    for the endpoint is [initServer]; before [Init] there is none. *)
Definition SharedNode_IsInit (r : Rest) : bool := bool_decide (NodeType r ≠ "").

Definition SharedNode_Init (a : nat) (nodeType serverOrInstanceId : string) : M (option error) :=
  modifyRest a (setNodeType nodeType);;
  (if decide (poolReference serverOrInstanceId = "") then ret tt
   else modifyRest a (setInstanceId (poolReference serverOrInstanceId)));;
  ret None.

Definition checkIsInitSharedNode (a : nat) : M (option error) :=
  let* r := getRest a in
  if SharedNode_IsInit r then ret None
  else SharedNode_Init a Type' (Server (Config' r)).

Definition AddInterceptors (a : nat) : M unit :=
  modifyRest a (λ r, setInterceptors (S (interceptors r)) r).

(** [rest.Router().GlobalOPTIONS = handler] on the router of endpoint [b]. *)
Definition setGlobalOPTIONS (b : nat) : M unit :=
  let* r := getRest b in
  match router r with
  | Some s => modifyRest b (setRouter (Some (mkSurface (handles s) true)))
  | None => panic nilDereference
  end.

(** [newRouter], [Router] and [SharedNode.Get] (with [initServer]) call each
    other.  [Router] and [Get] return the endpoint whose router, or which,
    they yield. *)
Fixpoint newRouter (fuel : nat) (a : nat) : M unit :=
  match fuel with
  | O => outOfFuel
  | S fuel =>
      modifyRest a (setRouter (Some newSurface));;
      let* r := getRest a in
      if AllowCors (Config' r) then
        let* b := Router fuel a in
        setGlobalOPTIONS b;;
        AddInterceptors a
      else ret tt
  end
with Router (fuel : nat) (a : nat) : M nat :=
  match fuel with
  | O => outOfFuel
  | S fuel =>
      checkIsInitSharedNode a;;
      let* got := SharedNode_Get fuel a in
      match got with
      | inr err => Printf a ("get router err :" +:+ err);; newRouter fuel a;; ret a
      | inl fromPool => ret fromPool
      end
  end
with SharedNode_Get (fuel : nat) (a : nat) : M (nat + error) :=
  match fuel with
  | O => outOfFuel
  | S fuel =>
      let* r := getRest a in
      if decide (InstanceId r ≠ "") then
        λ w, match pool w !! InstanceId r with
             | Some shared => Ok (inl shared) w
             | None => Ok (inr ("node resources not found id=" +:+ InstanceId r)) w
             end
      else if SharedNode_IsInit r then
        (* initServer *)
        (match router r with
         | None => newRouter fuel a
         | Some _ => ret tt
         end);;
        ret (inl a)
      else ret (inr "node not init")
  end.

(** [Listen]: the address the server listens on. *)
Definition listenAddr (r : Rest) : string :=
  let addr := default "" (HttpServer r) in
  if decide (addr = "") then
    if bool_decide (CertKeyFile (Config' r) ≠ "") && bool_decide (CertFile (Config' r) ≠ "")
    then ":https" else ":http"
  else addr.

(** [startServer]; serving goes on in the background and is not modelled. *)
Definition startServer (a : nat) : M (option error) :=
  let* r := getRest a in
  if started r then ret None
  else
    modifyRest a (setHttpServer (Some (Server (Config' r))));;
    let* r := getRest a in
    match net_Listen (listenAddr r) with
    | Some err => ret (Some err)
    | None =>
        modifyRest a (setStarted true);;
        (if bool_decide (CertKeyFile (Config' r) ≠ "") && bool_decide (CertFile (Config' r) ≠ "")
         then Printf a ("started rest server with TLS on " +:+ Server (Config' r))
         else Printf a ("started rest server on " +:+ Server (Config' r)));;
        ret None
    end.

Definition Start (fuel : nat) (a : nat) : M (option error) :=
  let* err := checkIsInitSharedNode a in
  match err with
  | Some err => ret (Some err)
  | None =>
      let* got := SharedNode_Get fuel a in
      match got with
      | inl netResource => startServer netResource
      | inr err => ret (Some err)
      end
  end.

(** Modelled from the spec: [BaseEndpoint.HasRouter] is not in this file;
    the route storage is "the stored route" per id, so a route is there when
    its id is a key of the storage. *)
Definition HasRouter (a : nat) (routerId : string) : M bool :=
  let* r := getRest a in
  ret (match RouterStorage r with
       | Some storage => bool_decide (is_Some (storage !! routerId))
       | None => false
       end).

(** [rest.router.Handle(method, path, rest.handler(item, isWait))] *)
Definition Handle' (a : nat) (method path : string) (item : nat) (isWait : bool) : M unit :=
  let* r := getRest a in
  match router r with
  | None => panic nilDereference
  | Some s =>
      match httprouter_Handle (handles s) method path with
      | Some msg => panic msg
      | None =>
          modifyRest a (setRouter (Some (mkSurface (handles s ++ [mkHandle method path item isWait])
                                                   (GlobalOPTIONS s))))
      end
  end.

(** The first half of the loop body of [addRouter]: the route gets its id if
    it has none, records the method and is stored under its id.  The value
    is the trimmed path. *)
Definition storeRoute (a : nat) (method : string) (item : nat) : M string :=
  let* fromString := FromToString item in
  let path := gostrings.TrimSpace fromString in
  let* itemId := GetId item in
  (if decide (itemId = "") then SetId item (RouterKey method path) else ret tt);;
  SetParams item [method];;
  let* itemId := GetId item in
  modifyRest a (λ r, setRouterStorage (Some (<[itemId := item]> (default ∅ (RouterStorage r)))) r);;
  ret path.

(** [addRouter]: in a shared endpoint the first router is handed on to the
    pooled instance and the call returns. *)
Fixpoint addRouter (fuel : nat) (a : nat) (method : string) (routers : list nat)
  : M (option error) :=
  match fuel with
  | O => outOfFuel
  | S fuel =>
      let method := gostrings.ToUpper method in
      let* r := getRest a in
      (match RouterStorage r with
       | None => modifyRest a (setRouterStorage (Some ∅))
       | Some _ => ret tt
       end);;
      (fix loop (routers : list nat) : M (option error) :=
         match routers with
         | [] => ret None
         | item :: routers =>
             let* path := storeRoute a method item in
             let* r := getRest a in
             if decide (InstanceId r ≠ "") then
               let* got := SharedNode_Get fuel a in
               match got with
               | inl shared => addRouter fuel shared method [item]
               | inr err => ret (Some err)
               end
             else
               (match router r with
                | None => newRouter fuel a
                | Some _ => ret tt
                end);;
               let* ro := getRouter item in
               let isWait := match from ro with
                             | Some f => default false (fromTo f)
                             | None => false
                             end in
               let path := convertPathParams path in
               Handle' a method path item isWait;;
               loop routers
         end) routers
  end.

(** [AddRouter]: the router may be nil; a panic of [addRouter] is recovered
    into the error, and the id is then the empty string. *)
Definition AddRouter (fuel : nat) (a : nat) (router : option nat) (params : list string)
  : M (string * option error) :=
  match params, router with
  | [], _ => ret ("", Some "need to specify HTTP method")
  | _, None => ret ("", Some "router can not nil")
  | param :: _, Some router =>
      recover
        (let* err2 := addRouter fuel a (gostrings.ToUpper param) [router] in
         let* routerId := GetId router in
         ret (routerId, err2))
        (λ e, ret ("", Some ("addRouter err :" +:+ e)))
  end.

Definition RemoveRouter (a : nat) (routerId : string) : M (option error) :=
  let routerId := gostrings.TrimSpace routerId in
  let* r := getRest a in
  match RouterStorage r with
  | Some storage =>
      match storage !! routerId with
      | Some router =>
          let* isDisable := IsDisable router in
          if negb isDisable then Disable router true;; ret None
          else ret (Some ("router: " +:+ routerId +:+ " not found"))
      | None => ret (Some ("router: " +:+ routerId +:+ " not found"))
      end
  | None => ret None
  end.

Definition deleteRouter (a : nat) (routerId : string) : M unit :=
  let routerId := gostrings.TrimSpace routerId in
  let* r := getRest a in
  match RouterStorage r with
  | Some storage => modifyRest a (setRouterStorage (Some (delete routerId storage)))
  | None => ret tt
  end.

(** What the closure built by [rest.handler] answers to a request: not
    found while its router is disabled, otherwise the router's processing
    ([DoProcess], not modelled further). *)
Inductive Response :=
| NotFound404
| Processed (router : nat) (detached : bool).

Definition handler (h : Handle) : M Response :=
  let* isDisable := IsDisable (hRouter h) in
  if isDisable then ret NotFound404
  else ret (Processed (hRouter h) (negb (hWait h))).

(** The loop of [Restart] that collects the enabled routes. *)
Definition isEnabled (w : World) (router : nat) : bool :=
  match routers w !! router with
  | Some ro => negb (disable ro)
  | None => false
  end.

Definition enabledRoutes (storage : gmap string nat) : M (gmap string nat) :=
  λ w, if bool_decide (map_Forall (λ _ router, is_Some (routers w !! router)) storage)
       then Ok (filter (λ kv, isEnabled w kv.2 = true) storage) w
       else Panic nilDereference w.

(** The replay loop of [Restart]. *)
Fixpoint replay (fuel : nat) (a : nat) (oldRouter : list (string * nat)) : M unit :=
  match oldRouter with
  | [] => ret tt
  | (_, router) :: oldRouter =>
      let* routerParams := GetParams router in
      (if decide (length routerParams = 0) then SetParams router ["GET"] else ret tt);;
      let* routerId := GetId router in
      let* has := HasRouter a routerId in
      (if negb has then
         let* routerParams := GetParams router in
         let* added := AddRouter fuel a (Some router) routerParams in
         match added.2 with
         | Some err =>
             let* fromString := FromToString router in
             Printf a ("rest add router path:=" +:+ fromString +:+ " error:" +:+ err)
         | None => ret tt
         end
       else ret tt);;
      replay fuel a oldRouter
  end.

(** [Restart]; shutting the old server down changes nothing recorded here. *)
Fixpoint Restart (fuel : nat) (a : nat) : M (option error) :=
  match fuel with
  | O => outOfFuel
  | S fuel =>
      let* r := getRest a in
      if decide (InstanceId r ≠ "") then
        let* got := SharedNode_Get fuel a in
        match got with
        | inl shared => Restart fuel shared
        | inr err => ret (Some err)
        end
      else
        (match router r with
         | Some _ => newRouter fuel a
         | None => ret tt
         end);;
        let* r := getRest a in
        let* oldRouter := enabledRoutes (default ∅ (RouterStorage r)) in
        modifyRest a (setRouterStorage (Some ∅));;
        modifyRest a (setStarted false);;
        let* err := Start fuel a in
        match err with
        | Some err => ret (Some err)
        | None => replay fuel a (rangeOrder (map_to_list oldRouter));; ret None
        end
  end.

(** The shortcuts [GET], [HEAD], [OPTIONS], [POST], [PUT], [PATCH] and
    [DELETE]: [addRouter] with the method fixed.  Its error is dropped, a
    panic is not recovered, and the endpoint itself is returned. *)
Definition GET (fuel : nat) (a : nat) (routers : list nat) : M nat :=
  addRouter fuel a "GET" routers;; ret a.
Definition HEAD (fuel : nat) (a : nat) (routers : list nat) : M nat :=
  addRouter fuel a "HEAD" routers;; ret a.
Definition OPTIONS (fuel : nat) (a : nat) (routers : list nat) : M nat :=
  addRouter fuel a "OPTIONS" routers;; ret a.
Definition POST (fuel : nat) (a : nat) (routers : list nat) : M nat :=
  addRouter fuel a "POST" routers;; ret a.
Definition PUT (fuel : nat) (a : nat) (routers : list nat) : M nat :=
  addRouter fuel a "PUT" routers;; ret a.
Definition PATCH (fuel : nat) (a : nat) (routers : list nat) : M nat :=
  addRouter fuel a "PATCH" routers;; ret a.
Definition DELETE (fuel : nat) (a : nat) (routers : list nat) : M nat :=
  addRouter fuel a "DELETE" routers;; ret a.

(** [Started], [Id] and [GetServer]; the server of a shared endpoint is the
    pooled instance's. *)
Definition Started (a : nat) : M bool := let* r := getRest a in ret (started r).

Definition Id (a : nat) : M string := let* r := getRest a in ret (Server (Config' r)).

Definition GetServer (fuel : nat) (a : nat) : M (option string) :=
  let* r := getRest a in
  match HttpServer r with
  | Some server => ret (Some server)
  | None =>
      if decide (InstanceId r ≠ "") then
        let* got := SharedNode_Get fuel a in
        match got with
        | inl shared => let* rs := getRest shared in ret (HttpServer rs)
        | inr _ => ret None
        end
      else ret None
  end.

(** ** Vocabulary of the statements *)

(** The world with endpoint [a] replaced, and with router [p] replaced. *)
Definition putRest (a : nat) (r : Rest) (w : World) : World :=
  mkWorld (<[a := r]> (endpoints w)) (routers w) (pool w) (log w).

Definition putRouter (p : nat) (ro : endpoint.Router) (w : World) : World :=
  mkWorld (endpoints w) (<[p := ro]> (routers w)) (pool w) (log w).

(** An endpoint that serves its routes itself: it refers to no pooled
    instance, and initialising its shared node will not make it refer to
    one. *)
Definition selfHosted (r : Rest) : Prop :=
  InstanceId r = "" ∧ (NodeType r ≠ "" ∨ poolReference (Server (Config' r)) = "").

(** What the calls around the surface leave of a self-hosted endpoint: its
    shared node initialised; a fresh router, with the CORS handler and
    interceptor when CORS is allowed; a router where there was none. *)
Definition inited (r : Rest) : Rest :=
  if SharedNode_IsInit r then r else setNodeType Type' r.

Definition freshRouter (r : Rest) : Rest :=
  let r1 := setRouter (Some newSurface) r in
  if AllowCors (Config' r) then
    let r2 := inited r1 in
    setInterceptors (S (interceptors r2)) (setRouter (Some (mkSurface [] true)) r2)
  else r1.

Definition ensureRouter (r : Rest) : Rest :=
  match router r with
  | None => freshRouter r
  | Some _ => r
  end.

(** The world after a line was handed to [Printf]. *)
Definition logged (logger : bool) (line : string) (w : World) : World :=
  if logger then mkWorld (endpoints w) (routers w) (pool w) (log w ++ [line]) else w.

(** The id a route has once it is registered with [method]. *)
Definition registeredId (method : string) (ro : endpoint.Router) : string :=
  if decide (id ro = "")
  then RouterKey method (gostrings.TrimSpace (match from ro with Some f => fromPath f | None => "" end))
  else id ro.

(** The router once it is registered with [method]. *)
Definition registered (method : string) (ro : endpoint.Router) : endpoint.Router :=
  mkRouter (registeredId method ro) [method] (disable ro) (from ro).

(** The endpoint once the route at [item] is stored in it. *)
Definition withRoute (method : string) (item : nat) (ro : endpoint.Router) (r : Rest) : Rest :=
  setRouterStorage (Some (<[registeredId method ro := item]> (default ∅ (RouterStorage r)))) r.

(** The surface of an endpoint, and the endpoint with one more handle. *)
Definition surfaceOf (r : Rest) : Surface := default newSurface (router r).

Definition withHandle (h : Handle) (r : Rest) : Rest :=
  setRouter (Some (mkSurface (handles (surfaceOf r) ++ [h]) (GlobalOPTIONS (surfaceOf r)))) r.

(** The handle [addRouter] registers for a route. *)
Definition handleOf (method : string) (item : nat) (ro : endpoint.Router) : Handle :=
  mkHandle method
           (convertPathParams (gostrings.TrimSpace (match from ro with
                                                    | Some f => fromPath f
                                                    | None => ""
                                                    end)))
           item
           (match from ro with
            | Some f => default false (fromTo f)
            | None => false
            end).

(** The line [startServer] prints, and the endpoint it leaves when
    listening succeeds. *)
Definition startLine (r : Rest) : string :=
  if bool_decide (CertKeyFile (Config' r) ≠ "") && bool_decide (CertFile (Config' r) ≠ "")
  then "started rest server with TLS on " +:+ Server (Config' r)
  else "started rest server on " +:+ Server (Config' r).

Definition withServer (r : Rest) : Rest :=
  setHttpServer (Some (Server (Config' r))) (ensureRouter (inited r)).

(** The line [Restart] prints for a route it could not replay. *)
Definition replayErrorLine (ro : endpoint.Router) (msg : string) : string :=
  "rest add router path:=" +:+ (match from ro with Some f => fromPath f | None => "" end)
    +:+ " error:" +:+ ("addRouter err :" +:+ msg).

(** The address a restarted endpoint listens on. *)
Definition serverAddr (r : Rest) : string :=
  listenAddr (setHttpServer (Some (Server (Config' r))) r).

(** The endpoint as [Restart] hands it to [Start]: a fresh router in place
    of the old one, an empty route storage, not started. *)
Definition cleared (r : Rest) : Rest :=
  setStarted false
    (setRouterStorage (Some ∅)
       (match router r with
        | Some _ => freshRouter r
        | None => r
        end)).

(** The route storage as registration leaves it: every entry is stored
    under the id of its router, which is not empty. *)
Definition storageWf (w : World) (storage : gmap string nat) : Prop :=
  ∀ key p, storage !! key = Some p →
    key ≠ "" ∧ ∃ ro, routers w !! p = Some ro ∧ id ro = key.

(** The method a route is replayed with: its first recorded parameter, or
    [GET] when it has none, in upper case. *)
Definition replayMethod (ro : endpoint.Router) : string :=
  gostrings.ToUpper (match params ro with
                     | [] => "GET"
                     | param :: _ => param
                     end).

(** The path a route is registered under. *)
Definition routePath (ro : endpoint.Router) : string :=
  gostrings.TrimSpace (match from ro with Some f => fromPath f | None => "" end).

Definition routeWait (ro : endpoint.Router) : bool :=
  match from ro with
  | Some f => default false (fromTo f)
  | None => false
  end.

End methods.

(** ** Closing *)

(** Two more collaborators: the error [http.Server.Shutdown] returns for
    the server at an address, under the 2 second context, and
    [BaseEndpoint.Destroy], which is not in this file and acts on the fields
    of the embedded [BaseEndpoint], here the route storage and the
    interceptors.  What [Shutdown] does to the server itself (it closes the
    listeners, also when it runs out of time) is not recorded: the world
    holds the fields of the endpoints, not the state of their listeners. *)
Class ServerWorld := {
  http_Shutdown : string → option error;
  BaseEndpoint_Destroy : option (gmap string nat) * nat → option (gmap string nat) * nat
}.

Section lifecycle.
Context `{RestWorld} `{ServerWorld}.

(** [Close].  A shared endpoint whose pooled instance is found deletes its
    own routes from that instance and restarts it; the locks taken on the
    way are not modelled, so this is the call for an endpoint that is not
    its own pooled instance. *)
Definition Close (fuel : nat) (a : nat) : M (option error) :=
  let* r := getRest a in
  match HttpServer r ≫= http_Shutdown with
  | Some err => ret (Some err)
  | None =>
      (match router r with
       | Some _ => newRouter fuel a
       | None => ret tt
       end);;
      let* r := getRest a in
      let finish : M (option error) :=
        modifyRest a (setStarted false);;
        modifyRest a (λ r, let '(storage, n) :=
                             BaseEndpoint_Destroy (RouterStorage r, interceptors r) in
                           setInterceptors n (setRouterStorage storage r));;
        ret None in
      if decide (InstanceId r ≠ "") then
        let* got := SharedNode_Get fuel a in
        match got with
        | inl shared =>
            let* r := getRest a in
            (fix loop (keys : list string) : M unit :=
               match keys with
               | [] => ret tt
               | key :: keys => deleteRouter shared key;; loop keys
               end) (rangeOrder (map_to_list (default ∅ (RouterStorage r)))).*1;;
            Restart fuel shared
        | inr _ => finish
        end
      else finish
  end.

(** [Destroy]: the error of [Close] is dropped. *)
Definition Destroy (fuel : nat) (a : nat) : M unit := Close fuel a;; ret tt.

End lifecycle.
End rest.

(* ===================================================================== *)
(** * Package [rest]: requests, responses and the handler                *)
(* ===================================================================== *)

Module exchange.
Import engine external endpoint.

Definition JSON : string := "JSON".
Definition newline : string := String (ascii_of_nat 10) EmptyString.
Definition ContentTypeKey : string := "Content-Type".
Definition JsonContextType : string := "application/json".

(** [*http.Request], as far as the endpoint reads it: method, URL, the
    parsed query of the URL, the header (keys in canonical form) and the
    body, which is [None] when the request has no body reader and otherwise
    holds the bytes that are still unread.  [Query] stands for
    [r.URL.Query()], which holds at least one value under every key it
    has; the type does not enforce this. *)
Record Request := mkRequest {
  Method : string;
  URL : string;
  Query : gmap string (list string);
  Header : gmap string (list string);
  reqBody : option string
}.

(** [http.ResponseWriter], known by the calls made on it, oldest first. *)
Inductive WriterCall :=
| WriteHeader (statusCode : Z)
| Write (body : string).

Abbreviation ResponseWriter := (list WriterCall).

(** [textproto.MIMEHeader.Get]: the first value of the key, or the empty
    string; a nil header has no values. *)
Definition headerGet (h : option (gmap string (list string))) (key : string) : string :=
  match h ≫= (.!! key) with
  | Some (v :: _) => v
  | _ => ""
  end.

(** [httprouter.Params.ByName]: the value of the first parameter with the
    given key, or the empty string. *)
Fixpoint ByName (ps : list (string * string)) (name : string) : string :=
  match ps with
  | [] => ""
  | (key, value) :: ps => if decide (key = name) then value else ByName ps name
  end.

(** The collaborators outside this file: [http.Request.FormValue], which
    may parse, and so consume, the request; [str.ToString] of the parsed
    query and of a list of values; the text of [runtime.Stack]. *)
Class HttpWorld := {
  FormValue : Request → string → string * Request;
  str_ToString_values : gmap string (list string) → string;
  str_ToString_list : list string → string;
  runtime_Stack : string
}.

(* --------------------------------------------------------------------- *)
(** ** [RequestMessage]                                                  *)
(* --------------------------------------------------------------------- *)

Module RequestMessage.

(** The request, the response writer, the body read so far (nil-able), the
    path parameters, the rule message built so far, the error and the
    metadata (nil-able). *)
Record RequestMessage := mkRequestMessage {
  request : option Request;
  response : option ResponseWriter;
  body : option string;
  Params : list (string * string);
  msg : option RuleMsg;
  err : option error;
  Metadata : option (gmap string string)
}.

Definition setRequest (v : option Request) (r : RequestMessage) : RequestMessage :=
  mkRequestMessage v (response r) (body r) (Params r) (msg r) (err r) (Metadata r).
Definition setBody (v : option string) (r : RequestMessage) : RequestMessage :=
  mkRequestMessage (request r) (response r) v (Params r) (msg r) (err r) (Metadata r).
Definition setMsg (v : option RuleMsg) (r : RequestMessage) : RequestMessage :=
  mkRequestMessage (request r) (response r) (body r) (Params r) v (err r) (Metadata r).
Definition setErr (v : option error) (r : RequestMessage) : RequestMessage :=
  mkRequestMessage (request r) (response r) (body r) (Params r) (msg r) v (Metadata r).
Definition setMetadata (v : option (gmap string string)) (r : RequestMessage) : RequestMessage :=
  mkRequestMessage (request r) (response r) (body r) (Params r) (msg r) (err r) v.

Section methods.
Context `{HttpWorld}.

(** [Body]: the body is read from the request the first time it is asked
    for; [io.ReadAll] on a request without a body reader dereferences nil. *)
Definition Body (r : RequestMessage) : outcome (RequestMessage * option string) :=
  match body r, request r with
  | None, Some req =>
      match reqBody req with
      | None => Panics nilDereference
      | Some entry =>
          let req := mkRequest (Method req) (URL req) (Query req) (Header req) (Some "") in
          Returns (setBody (Some entry) (setRequest (Some req) r), Some entry)
      end
  | _, _ => Returns (r, body r)
  end.

Definition Headers (r : RequestMessage) : option (gmap string (list string)) :=
  Header <$> request r.

Definition From (r : RequestMessage) : string :=
  match request r with
  | None => ""
  | Some req => URL req
  end.

Definition GetParam (r : RequestMessage) (key : string) : RequestMessage * string :=
  match request r with
  | None => (r, "")
  | Some req =>
      let v := ByName (Params r) key in
      if decide (v = "") then
        let '(value, req) := FormValue req key in
        (setRequest (Some req) r, value)
      else (r, v)
  end.

Definition SetMsg (r : RequestMessage) (m : option RuleMsg) : RequestMessage := setMsg m r.

(** [GetMsg]: the message is built the first time it is asked for. *)
Definition GetMsg (r : RequestMessage) : outcome (RequestMessage * RuleMsg) :=
  match msg r with
  | Some m => Returns (r, m)
  | None =>
      let read :=
        match request r with
        | Some req =>
            if decide (Method req = "GET")
            then Returns (r, JSON, str_ToString_values (Query req))
            else
              let dataType :=
                if gostrings.HasPrefix (headerGet (Headers r) ContentTypeKey) JsonContextType
                then JSON else TEXT in
              match Body r with
              | Returns (r, data) => Returns (r, dataType, default "" data)
              | Panics e => Panics e
              end
        | None =>
            let dataType :=
              if gostrings.HasPrefix (headerGet (Headers r) ContentTypeKey) JsonContextType
              then JSON else TEXT in
            match Body r with
            | Returns (r, data) => Returns (r, dataType, default "" data)
            | Panics e => Panics e
            end
        end in
      match read with
      | Panics e => Panics e
      | Returns (r, dataType, data) =>
          let r := match Metadata r with
                   | None => setMetadata (Some ∅) r
                   | Some _ => r
                   end in
          let ruleMsg := mkRuleMsg data dataType (From r) (default ∅ (Metadata r)) in
          Returns (setMsg (Some ruleMsg) r, ruleMsg)
      end
  end.

Definition SetStatusCode (r : RequestMessage) (statusCode : Z) : RequestMessage := r.
Definition SetBody (r : RequestMessage) (b : option string) : RequestMessage := setBody b r.
Definition SetError (r : RequestMessage) (e : option error) : RequestMessage := setErr e r.
Definition GetError (r : RequestMessage) : option error := err r.

End methods.
End RequestMessage.

(* --------------------------------------------------------------------- *)
(** ** [ResponseMessage]                                                 *)
(* --------------------------------------------------------------------- *)

Module ResponseMessage.

Record ResponseMessage := mkResponseMessage {
  request : option Request;
  response : option ResponseWriter;
  body : option string;
  to : string;
  msg : option RuleMsg;
  err : option error
}.

Definition Body (r : ResponseMessage) : option string := body r.

Definition From (r : ResponseMessage) : string :=
  match request r with
  | None => ""
  | Some req => URL req
  end.

Definition SetMsg (r : ResponseMessage) (m : option RuleMsg) : ResponseMessage :=
  mkResponseMessage (request r) (response r) (body r) (to r) m (err r).

Definition GetMsg (r : ResponseMessage) : option RuleMsg := msg r.

Definition SetStatusCode (r : ResponseMessage) (statusCode : Z) : ResponseMessage :=
  match response r with
  | Some w => mkResponseMessage (request r) (Some (w ++ [WriteHeader statusCode])) (body r) (to r)
                                (msg r) (err r)
  | None => r
  end.

Definition SetBody (r : ResponseMessage) (b : option string) : ResponseMessage :=
  let r := mkResponseMessage (request r) (response r) b (to r) (msg r) (err r) in
  match response r with
  | Some w => mkResponseMessage (request r) (Some (w ++ [Write (default "" b)])) (body r) (to r)
                                (msg r) (err r)
  | None => r
  end.

Definition SetError (r : ResponseMessage) (e : option error) : ResponseMessage :=
  mkResponseMessage (request r) (response r) (body r) (to r) (msg r) e.

Definition GetError (r : ResponseMessage) : option error := err r.

(** One call on a response message, and a sequence of them. *)
Inductive Call :=
| CallSetBody (b : option string)
| CallSetStatusCode (statusCode : Z)
| CallSetMsg (m : option RuleMsg)
| CallSetError (e : option error).

Definition call (r : ResponseMessage) (c : Call) : ResponseMessage :=
  match c with
  | CallSetBody b => SetBody r b
  | CallSetStatusCode statusCode => SetStatusCode r statusCode
  | CallSetMsg m => SetMsg r m
  | CallSetError e => SetError r e
  end.

(** What a call sends to the response writer, and the body it leaves. *)
Definition sent (c : Call) : list WriterCall :=
  match c with
  | CallSetBody b => [Write (default "" b)]
  | CallSetStatusCode statusCode => [WriteHeader statusCode]
  | _ => []
  end.

Definition lastBody (start : option string) (calls : list Call) : option string :=
  foldl (λ b c, match c with CallSetBody b' => b' | _ => b end) start calls.

End ResponseMessage.

(* --------------------------------------------------------------------- *)
(** ** The closure built by [rest.handler]                               *)
(* --------------------------------------------------------------------- *)

(** [endpoint.Exchange] *)
Record Exchange := mkExchange {
  In : RequestMessage.RequestMessage;
  Out : ResponseMessage.ResponseMessage
}.

(** What a request ends in: the "not found" answer, a call of [DoProcess]
    for the router with the exchange (detached from the request's context
    or not), or a recovered panic. *)
Inductive Served :=
| NotFound
| Dispatched (router : nat) (exchange : Exchange) (detached : bool)
| Recovered.

Section handler.
Context `{HttpWorld}.

(** The value a query parameter puts into the metadata; [None] stands for
    the index that is out of range when the parameter has no value. *)
Definition queryValue (value : list string) : option string :=
  match value with
  | [] => None
  | [v] => Some v
  | _ => Some (str_ToString_list value)
  end.

(** The two loops that fill the metadata: the path parameters in order,
    then the query parameters. *)
Definition fillMetadata (params : list (string * string)) (query : gmap string (list string))
  : option (gmap string string) :=
  let metadata := foldl (λ m p, <[p.1 := p.2]> m) ∅ params in
  map_fold (λ key value acc, m ← acc; v ← queryValue value; Some (<[key := v]> m))
           (Some metadata) query.

(** Modelled from the spec: [types.NewMetadata] and [Metadata.PutValue] are
    the "key/value metadata bag" of the message model, an empty map and an
    insertion.  The handler for router [item] of endpoint [a], serving the
    request [r] with the path parameters [params] on the writer [w]. *)
Definition handler (a : nat) (item : nat) (isWait : bool)
    (w : ResponseWriter) (r : Request) (params : list (string * string)) : rest.M Served :=
  rest.recover
    (rest.bind (rest.IsDisable item) (λ isDisable,
       if isDisable then rest.ret NotFound
       else
         match fillMetadata params (Query r) with
         | None => rest.panic "runtime error: index out of range [0] with length 0"
         | Some metadata =>
             let exchange :=
               mkExchange
                 (RequestMessage.mkRequestMessage (Some r) (Some w) None params None None
                                                  (Some metadata))
                 (ResponseMessage.mkResponseMessage (Some r) (Some w) None "" None None) in
             rest.ret (Dispatched item exchange (negb isWait))
         end))
    (λ _, rest.bind (rest.Printf a ("http endpoint handler err :" +:+ newline +:+ runtime_Stack))
                    (λ _, rest.ret Recovered)).

End handler.
End exchange.

(** A request and its collaborators for the examples: form values are the
    first query value, a list of values is rendered with commas. *)
Module demo_exchange.
Import external exchange.

Definition http : HttpWorld := {|
  FormValue := λ req key, (default "" (head (default [] (Query req !! key))), req);
  str_ToString_values := λ query, "{...}";
  str_ToString_list := λ vs, String.concat "," vs;
  runtime_Stack := "goroutine 1 [running]"
|}.

(** [POST /devices/7/msg?x=1&tag=a&tag=b&id=9] with a JSON body. *)
Definition post : Request :=
  mkRequest "POST" "/devices/7/msg?x=1&tag=a&tag=b&id=9"
            {[ "x" := ["1"]; "tag" := ["a"; "b"]; "id" := ["9"] ]}
            {[ "Content-Type" := ["application/json; charset=utf-8"] ]}
            (Some "{temperature:35}").

Definition postMessage : RequestMessage.RequestMessage :=
  RequestMessage.mkRequestMessage (Some post) (Some []) None [("id", "7")] None None None.

End demo_exchange.

(** An HTTP router library, a network and worlds for the examples: a
    registration panics when the path does not start with a slash or when
    the method and path are taken; listening succeeds; map entries are
    visited in reverse. *)
Module demo_rest.
Import endpoint rest.

Definition taken (hs : list Handle) (method path : string) : bool :=
  bool_decide (Exists (λ h, hMethod h = method ∧ hPath h = path) hs).

Definition simpleHandle (hs : list Handle) (method path : string) : option string :=
  match path with
  | String "/" _ =>
      if taken hs method path
      then Some ("a handle is already registered for path '" +:+ path +:+ "'")
      else None
  | _ => Some ("path must begin with '/' in path '" +:+ path +:+ "'")
  end.

Definition world : RestWorld := {|
  net_Listen := λ _, None;
  httprouter_Handle := simpleHandle;
  regexp_ReplaceAllString := λ path, path;
  poolReference := λ _, "";
  rangeOrder := reverse;
  rangeOrder_perm := reverse_Permutation
|}.

(** The same with a port that is in use. *)
Definition busyWorld : RestWorld := {|
  net_Listen := λ _, Some "listen tcp :6333: bind: address already in use";
  httprouter_Handle := simpleHandle;
  regexp_ReplaceAllString := λ path, path;
  poolReference := λ _, "";
  rangeOrder := reverse;
  rangeOrder_perm := reverse_Permutation
|}.

(** [&Rest{Config: Config{Server: ":6333"}}], without and with a logger. *)
Definition freshRest (logger : bool) : Rest :=
  mkRest "" "" (mkConfig ":6333" "" "" false) logger None None false None 0.

Definition route (routeId path : string) : endpoint.Router :=
  mkRouter routeId [] false (Some (mkFrom path (Some true))).

(** A world with one fresh endpoint at address 0 and four routers that are
    not registered yet: two well-formed ones without an id, one with the
    caller's id [ a ] (blanks included), one whose path lacks the slash. *)
Definition freshWorld (logger : bool) : World :=
  mkWorld {[ 0 := freshRest logger ]}
          {[ 1 := route "" "/api/v1/msg"; 2 := route "" " /api/v1/status ";
             3 := route " a " "/a"; 4 := route "bad" "api" ]}
          ∅ [].

(** The world a run leaves behind. *)
Definition after {A} (m : M A) (w : World) : World :=
  match m w with
  | Ok _ w' | Panic _ w' => w'
  | OutOfFuel => w
  end.

(** The fresh world once the four routers are registered on the endpoint
    (the last one is refused by the HTTP router), and once the second one is
    then removed. *)
Definition registeredWorld (logger : bool) : World :=
  after (AddRouter (H := world) 9 0 (Some 1) ["get"];;
         AddRouter (H := world) 9 0 (Some 2) ["post"];;
         AddRouter (H := world) 9 0 (Some 3) ["put"];;
         AddRouter (H := world) 9 0 (Some 4) ["get"])
        (freshWorld logger).

Definition servingWorld (logger : bool) : World :=
  after (RemoveRouter 0 "POST:/api/v1/status") (registeredWorld logger).

(** The world whose regular expression library is the function above. *)
Definition pathWorld : RestWorld := {|
  net_Listen := λ _, None;
  httprouter_Handle := simpleHandle;
  regexp_ReplaceAllString := regexp.ReplaceAllString;
  poolReference := λ _, "";
  rangeOrder := reverse;
  rangeOrder_perm := reverse_Permutation
|}.

(** Servers that shut down in time and servers that do not; destroying
    the base endpoint empties the storage and drops the interceptors. *)
Definition server : ServerWorld := {|
  http_Shutdown := λ _, None;
  BaseEndpoint_Destroy := λ _, (Some ∅, 0)
|}.

Definition slowServer : ServerWorld := {|
  http_Shutdown := λ _, Some "context deadline exceeded";
  BaseEndpoint_Destroy := λ _, (Some ∅, 0)
|}.

(** A second endpoint, at address 5, that shares the server of the first
    one through the pool, where the first one is known as [srv]; and the
    same endpoint when the pool does not know [srv]. *)
Definition sharedRest : Rest :=
  mkRest "srv" "endpoint/http" (mkConfig "ref://srv" "" "" false) true None None false None 0.

Definition sharedWorld : World :=
  mkWorld {[ 0 := freshRest true; 5 := sharedRest ]} (routers (freshWorld true)) {[ "srv" := 0 ]} [].

Definition orphanWorld : World :=
  mkWorld {[ 0 := freshRest true; 5 := sharedRest ]} (routers (freshWorld true)) ∅ [].

(** The endpoint with its four routes, started; and the world in which the
    shared endpoint has registered the route for [/api/v1/msg]. *)
Definition startedWorld : World :=
  after (Start (H := world) 4 0) (registeredWorld true).

Definition sharingWorld : World :=
  after (AddRouter (H := world) 9 5 (Some 1) ["GET"]) sharedWorld.

End demo_rest.

(* ===================================================================== *)
(** * Properties of [engine/node.go]                                     *)
(* ===================================================================== *)

Module engine_spec.
Import types engine.

Lemma copyMap_id (m : gmap string string) : copyMap m = m.
Proof.
  unfold copyMap.
  apply (map_fold_weak_ind (λ r m, r = m)); [done|].
  intros i x m' r _ ->. done.
Qed.

Section substitution.
Context `{TemplateEngine}.

Lemma resolution_loop env (configuration : Configuration) :
  map_fold (λ key value result,
              match value with
              | VString strV => <[key := VString (ExecuteTemplate strV env)]> result
              | _ => <[key := value]> result
              end) ∅ configuration
  = resolveEntry env <$> configuration.
Proof.
  apply (map_fold_weak_ind (λ r m, r = resolveEntry env <$> m)).
  - by rewrite fmap_empty.
  - intros i x m r _ ->. rewrite fmap_insert. by destruct x.
Qed.

Lemma processVariables_unfold config chainCtx (configuration : Configuration) :
  processVariables config chainCtx configuration =
  (let env := templateEnv (default ∅ (Properties config)) (vars <$> chainCtx) in
   let result := resolveEntry env <$> configuration in
   match chainCtx with
   | Some c => <[Secrets := VStringMap (decryptSecrets c)]> (<[Vars := VStringMap (vars c)]> result)
   | None => result
   end, None).
Proof.
  unfold processVariables. rewrite resolution_loop.
  destruct chainCtx as [c|]; simpl; rewrite ?copyMap_id;
    by destruct (Properties config).
Qed.

(** C6 (as the code has it): [processVariables] never fails.  Every entry
    whose key the chain's [vars]/[secrets] entries do not overwrite is carried
    into the result, a string entry resolved by the template engine against an
    environment of exactly two scopes, the global properties and the chain
    variables, any other entry as it is.  With a chain context the result
    carries the chain variables under [vars] and the decrypted secrets under
    [secrets]; the secrets are no scope of the environment. *)
Theorem processVariables_resolves config chainCtx (configuration : Configuration) :
  let env := templateEnv (default ∅ (Properties config)) (vars <$> chainCtx) in
  ∃ result,
    processVariables config chainCtx configuration = (result, None)
    ∧ (∀ key, (is_Some chainCtx → key ≠ Vars ∧ key ≠ Secrets) →
         result !! key = resolveEntry env <$> configuration !! key)
    ∧ (∀ c, chainCtx = Some c →
         result !! Vars = Some (VStringMap (vars c))
         ∧ result !! Secrets = Some (VStringMap (decryptSecrets c)))
    ∧ dom env = {[Global; Vars]}
    ∧ env !! Secrets = None.
Proof.
  intros env. rewrite processVariables_unfold. fold env.
  eexists. split; [reflexivity|]. split; [|split; [|split]].
  - intros key Hkey. destruct chainCtx as [c|]; simpl.
    + destruct Hkey as [Hv Hs]; [by eexists|].
      rewrite !lookup_insert_ne by done. by rewrite lookup_fmap.
    + by rewrite lookup_fmap.
  - intros c ->. split.
    + rewrite lookup_insert_ne by done. by rewrite lookup_insert_eq.
    + by rewrite lookup_insert_eq.
  - unfold env, templateEnv. rewrite !dom_insert_L, dom_empty_L. set_solver.
  - unfold env, templateEnv. by rewrite !lookup_insert_ne, lookup_empty.
Qed.

(** ** Initialisation *)

(** The only way [initRuleNodeCtx] returns without an error is with a
    wrapper that holds a live component. *)
Lemma initRuleNodeCtx_success config chainCtx aspects def flag ctx :
  initRuleNodeCtx config chainCtx aspects def flag = Returns (ctx, None) →
  ∃ node def', ctx = Some (mkRuleNodeCtx (Some node) chainCtx (Some def') config aspects flag)
               ∧ Id def' = Id def ∧ Type' def' = Type' def ∧ DebugMode def' = DebugMode def
               ∧ is_Some (Configuration' def').
Proof.
  unfold initRuleNodeCtx.
  destruct (runBeforeInit _ _ _); [discriminate|].
  destruct (ComponentsRegistry config) as [NewNode|]; [|discriminate].
  destruct (NewNode (Type' def)) as [node|err]; [|discriminate].
  rewrite processVariables_unfold. cbv zeta.
  destruct (Node_Init node _) as [node' [err|]]; [discriminate|].
  intros [= <-]. eexists _, _. split; [reflexivity|].
  destruct (Configuration' def) eqn:Hc; simpl; rewrite ?Hc; eauto.
Qed.


(** ** Hot reload *)

(** C1: [ReloadSelfFromDef] is all-or-nothing.  With [r] the result of
    initialising a fresh wrapper from the new definition: if [r] carries an
    error the call returns that error and the state (the wrapper's instance,
    config, definition and aspects, and the list of destroyed instances) is
    what it was; if initialisation panics so does the call, again with the
    state unchanged; if [r] carries no error and the wrapper holds an
    instance, that instance is destroyed and the wrapper holds the new
    instance, config, aspects and definition; and whenever the state differs
    after the call, initialisation has succeeded. *)
Theorem ReloadSelfFromDef_all_or_nothing st def :
  let rn := wrapper st in
  let r := initRuleNodeCtx (config rn) (ChainCtx rn) (default [] (chainAspects <$> ChainCtx rn))
                           def (isInitNetResource rn) in
  (∀ ctx err, r = Returns (ctx, Some err) → ReloadSelfFromDef st def = (st, Returns (Some err)))
  ∧ (∀ msg, r = Panics msg → ReloadSelfFromDef st def = (st, Panics msg))
  ∧ (∀ ctx old, r = Returns (ctx, None) → Node rn = Some old →
       ∃ new, ctx = Some new ∧ is_Some (Node new)
         ∧ ReloadSelfFromDef st def =
             (mkNodeState
                (mkRuleNodeCtx (Node new) (ChainCtx rn) (SelfDefinition new) (config new)
                               (aspects new) (isInitNetResource rn))
                (destroyed st ++ [old]),
              Returns None))
  ∧ (∀ st' out, ReloadSelfFromDef st def = (st', out) → st' ≠ st →
       ∃ new, r = Returns (Some new, None)).
Proof.
  intros rn r.
  assert (Hr : ReloadSelfFromDef st def =
               match r with
               | Panics msg => (st, Panics msg)
               | Returns (ctx, None) =>
                   match Destroy st with
                   | Panics msg => (st, Panics msg)
                   | Returns st' =>
                       match ctx with
                       | Some ctx => (mkNodeState (Copy (wrapper st') ctx) (destroyed st'), Returns None)
                       | None => (st', Panics nilDereference)
                       end
                   end
               | Returns (_, Some err) => (st, Returns (Some err))
               end).
  { unfold ReloadSelfFromDef, r, rn. by destruct (ChainCtx (wrapper st)). }
  split; [|split; [|split]].
  - intros ctx err Heq. by rewrite Hr, Heq.
  - intros msg Heq. by rewrite Hr, Heq.
  - intros ctx old Heq Hold.
    destruct (initRuleNodeCtx_success _ _ _ _ _ _ Heq) as (node & def' & -> & _).
    eexists. split; [reflexivity|]. split; [by eexists|].
    rewrite Hr, Heq. unfold Destroy. fold rn. rewrite Hold. done.
  - intros st' out. rewrite Hr. destruct r as [[ctx [err|]]|msg] eqn:Heq.
    + intros [= <- _] Hne. done.
    + destruct (initRuleNodeCtx_success _ _ _ _ _ _ Heq) as (node & def' & -> & _).
      intros _ _. by eexists.
    + intros [= <- _] Hne. done.
Qed.

(** ** Sub-chain calls on a leaf *)

(** C8 (as the code has it): on a leaf wrapper [ReloadChild] fails, whatever
    its arguments, with the error "not support this func"; [GetNodeById]
    returns no node and [false], a result that has no error to label. *)
Theorem leaf_subchain_calls (rn : RuleNodeCtx) (nodeId def : string) :
  ReloadChild rn nodeId def = Some "not support this func"
  ∧ replyOfReloadChild (ReloadChild rn nodeId def) = Unsupported "not support this func"
  ∧ GetNodeById rn nodeId = (None, false)
  ∧ replyOfGetNodeById (GetNodeById rn nodeId) = NotFound.
Proof. done. Qed.

End substitution.

(** C8 as stated fails for [GetNodeById]: the caller is told "not found",
    with no error at all. *)
Lemma GetNodeById_counterexample :
  ¬ ∃ msg, replyOfGetNodeById (GetNodeById emptyRuleNodeCtx "s1") = Unsupported msg.
Proof. intros [msg Hmsg]. discriminate Hmsg. Qed.

(** C6, an instance: the placeholder over [vars] and [global] is resolved. *)
Lemma processVariables_resolves_witness :
  (processVariables (H := demo.simpleEngine) demo.engineConfig (Some demo.chain)
     {[ "url" := VString "http://${vars.ip}/${global.region}" ]}).1 !! "url"
  = Some (VString "http://10.0.0.1/eu").
Proof.
  destruct (processVariables_resolves (H := demo.simpleEngine) demo.engineConfig (Some demo.chain)
              {[ "url" := VString "http://${vars.ip}/${global.region}" ]})
    as (result & -> & Hkey & _).
  simpl. rewrite Hkey by (intros _; split; discriminate).
  rewrite lookup_singleton_eq. vm_compute. reflexivity.
Defined.

(** C6 as stated fails: a placeholder over the chain's secrets is left
    unresolved although a three-scope environment would resolve it, and a
    string entry stored under the key [vars] is replaced by the chain's
    variables instead of being resolved. *)
Lemma processVariables_secrets_counterexample :
  let result := (processVariables (H := demo.simpleEngine) demo.engineConfig (Some demo.chain)
                   {[ "password" := VString "${secrets.pw}"; "vars" := VString "${global.region}" ]}).1 in
  result !! "password" = Some (VString "${secrets.pw}")
  ∧ ExecuteTemplate (TemplateEngine := demo.simpleEngine) "${secrets.pw}"
      (threeScopeEnv demo.engineConfig (Some demo.chain)) = "hunter2"
  ∧ result !! "vars" = Some (VStringMap {[ "ip" := "10.0.0.1" ]}).
Proof.
  cbv zeta. rewrite processVariables_unfold. cbn [fst]. split; [|split].
  - rewrite !lookup_insert_ne by done. rewrite lookup_fmap.
    rewrite lookup_insert_eq. vm_compute. reflexivity.
  - vm_compute. reflexivity.
  - rewrite lookup_insert_ne by done. by rewrite lookup_insert_eq.
Qed.



(** The demo wrapper is a running node. *)
Lemma demo_running_node :
  initRuleNodeCtx (H := demo.simpleEngine) demo.engineConfig (Some demo.chain) [] demo.logDef false
  = Returns (Some demo.runningWrapper, None)
  ∧ is_Some (Node demo.runningWrapper).
Proof. split; [|eexists]; vm_compute; reflexivity. Qed.

(** C1, two instances on a running [log] node: reloading it from a
    definition of an unregistered type returns the error and changes
    nothing; reloading it from another [log] definition destroys the old
    instance and installs the new definition. *)
Lemma ReloadSelfFromDef_all_or_nothing_witness :
  let st := mkNodeState demo.runningWrapper [] in
  ReloadSelfFromDef (H := demo.simpleEngine) st demo.unknownDef
  = (st, Returns (Some "component not found. componentType=nosuch"))
  ∧ ∃ st', ReloadSelfFromDef (H := demo.simpleEngine) st (mkRuleNode "s1" "log" false None)
           = (st', Returns None)
           ∧ destroyed st' = option_list (Node demo.runningWrapper)
           ∧ (DebugMode <$> SelfDefinition (wrapper st')) = Some false.
Proof.
  intros st. split.
  - destruct (ReloadSelfFromDef_all_or_nothing (H := demo.simpleEngine) st demo.unknownDef)
      as (Hfail & _).
    eapply Hfail. vm_compute. reflexivity.
  - destruct (ReloadSelfFromDef_all_or_nothing (H := demo.simpleEngine) st
                (mkRuleNode "s1" "log" false None)) as (_ & _ & Hok & _).
    edestruct Hok as (new & Hnew & _ & ->).
    { vm_compute. reflexivity. }
    { vm_compute. reflexivity. }
    injection Hnew as <-.
    eexists. split; [reflexivity|]. split; vm_compute; reflexivity.
Defined.

End engine_spec.

(* ===================================================================== *)
(** * Further properties of [engine/node.go]                             *)
(* ===================================================================== *)

Module engine_props.
Import types engine.

Section lifecycle.
Context `{TemplateEngine}.

Lemma runBeforeInit_app pre post config def :
  runBeforeInit (pre ++ post) config def
  = match runBeforeInit pre config def with
    | Some err => Some err
    | None => runBeforeInit post config def
    end.
Proof.
  induction pre as [|h pre IH]; simpl; [done|]. by destruct (h config def).
Qed.

Lemma runBeforeInit_Some hooks config def err :
  runBeforeInit hooks config def = Some err →
  ∃ pre h post, hooks = pre ++ h :: post ∧ h config def = Some err
                ∧ Forall (λ g, g config def = None) pre.
Proof.
  induction hooks as [|h hooks IH]; simpl; [done|].
  destruct (h config def) as [e|] eqn:Hh.
  - intros [= <-]. by exists [], h, hooks.
  - intros (pre & g & post & -> & Hg & Hpre)%IH.
    exists (h :: pre), g, post. split; [done|]. split; [done|]. by constructor.
Qed.

(** The before-init aspects decide first.  The first aspect, in list order,
    whose before-init hook objects aborts the initialisation: the call
    returns that aspect's error and a nil wrapper, whatever the registry
    holds (it is not consulted, not even when it is nil).  And a nil
    wrapper is returned in no other case: it always comes with the error of
    an objecting aspect that every earlier hook let pass. *)
Theorem before_init_aspect_veto config chainCtx aspects def flag :
  (∀ pre a post hook err,
     aspects = pre ++ a :: post →
     OnNodeBeforeInit a = Some hook → hook config def = Some err →
     Forall (λ b, ∀ g, OnNodeBeforeInit b = Some g → g config def = None) pre →
     initRuleNodeCtx config chainCtx aspects def flag = Returns (None, Some err))
  ∧ (∀ e, initRuleNodeCtx config chainCtx aspects def flag = Returns (None, e) →
       ∃ pre a post hook err,
         e = Some err ∧ aspects = pre ++ a :: post
         ∧ OnNodeBeforeInit a = Some hook ∧ hook config def = Some err
         ∧ Forall (λ b, ∀ g, OnNodeBeforeInit b = Some g → g config def = None) pre).
Proof.
  split.
  - intros pre a post hook err -> Ha Hhook Hpre. unfold initRuleNodeCtx, nodeBeforeInitAspects.
    rewrite omap_app, runBeforeInit_app.
    assert (Hnone : runBeforeInit (omap OnNodeBeforeInit pre) config def = None).
    { induction Hpre as [|b pre Hb _ IH]; [done|]. simpl.
      destruct (OnNodeBeforeInit b) as [g|] eqn:Hg; [|done]. simpl. by rewrite (Hb g). }
    rewrite Hnone. simpl. rewrite Ha. simpl. by rewrite Hhook.
  - intros e. unfold initRuleNodeCtx.
    destruct (runBeforeInit _ _ _) as [err|] eqn:Hrun.
    + intros [= <-]. destruct (runBeforeInit_Some _ _ _ _ Hrun) as (hs1 & h & hs2 & Heq & Hh & Hhs1).
      unfold nodeBeforeInitAspects in Heq.
      clear Hrun. revert hs1 Heq Hhs1. induction aspects as [|b bs IH]; intros hs1 Heq Hhs1.
      { by destruct hs1. }
      simpl in Heq. destruct (OnNodeBeforeInit b) as [g|] eqn:Hg.
      * destruct hs1 as [|g1 hs1]; simpl in Heq.
        -- injection Heq as -> Heq. exists [], b, bs, h, err. by repeat split.
        -- injection Heq as -> Heq. apply Forall_cons in Hhs1 as [Hg1 Hhs1].
           destruct (IH hs1 Heq Hhs1) as (pre & a & post & hook & err' & He & -> & Ha & Hhook & Hpre).
           exists (b :: pre), a, post, hook, err'. repeat split; try done.
           constructor; [|done]. intros g' Hg'. congruence.
      * destruct (IH hs1 Heq Hhs1) as (pre & a & post & hook & err' & He & -> & Ha & Hhook & Hpre).
        exists (b :: pre), a, post, hook, err'. repeat split; try done.
        constructor; [|done]. intros g' Hg'. congruence.
    + destruct (ComponentsRegistry config) as [NewNode|]; [|done].
      destruct (NewNode (Type' def)) as [node|err]; [|done].
      destruct (processVariables _ _ _) as [cfg [err|]]; [done|].
      by destruct (Node_Init node _) as [node' [err|]].
Qed.

(** What the component is initialised with.  When initialisation succeeds,
    the live component has received the definition's configuration after
    substitution, with two entries always set by the engine, the chain
    context under [$chainCtx] and the definition's header under
    [$selfDefinition], whatever the definition put under these keys; the
    entry [$isInitNetResource] is set to true for a network-resource node
    and left as the definition has it otherwise.  The definition kept in
    the wrapper still holds the configuration before substitution, an empty
    one when the definition had none. *)
Theorem component_configuration config chainCtx aspects def flag ctx :
  initRuleNodeCtx config chainCtx aspects def flag = Returns (Some ctx, None) →
  let given := default ∅ (Configuration' def) in
  let resolved := (processVariables config chainCtx given).1 in
  ∃ node cfg,
    Node ctx = Some node ∧ nodeConfiguration node = Some cfg
    ∧ cfg !! NodeConfigurationKeyChainCtx = Some (VChainCtx (chainId <$> chainCtx))
    ∧ cfg !! NodeConfigurationKeySelfDefinition
      = Some (VRuleNode (Id def) (Type' def) (DebugMode def))
    ∧ cfg !! NodeConfigurationKeyIsInitNetResource
      = (if flag then Some (VBool true) else resolved !! NodeConfigurationKeyIsInitNetResource)
    ∧ (∀ key, key ≠ NodeConfigurationKeyChainCtx → key ≠ NodeConfigurationKeySelfDefinition →
         key ≠ NodeConfigurationKeyIsInitNetResource → cfg !! key = resolved !! key)
    ∧ (SelfDefinition ctx ≫= Configuration') = Some given
    ∧ isInitNetResource ctx = flag.
Proof.
  intros Hinit given resolved. unfold initRuleNodeCtx in Hinit.
  destruct (runBeforeInit _ _ _); [done|].
  destruct (ComponentsRegistry config) as [NewNode|]; [|done].
  destruct (NewNode (Type' def)) as [node|err]; [|done].
  set (def' := match Configuration' def with
               | None => mkRuleNode (Id def) (Type' def) (DebugMode def) (Some ∅)
               | Some _ => def
               end) in Hinit.
  assert (Hgiven : default ∅ (Configuration' def') = given).
  { unfold def', given. destruct (Configuration' def) eqn:Hc; simpl; by rewrite ?Hc. }
  assert (Hhead : Id def' = Id def ∧ Type' def' = Type' def ∧ DebugMode def' = DebugMode def).
  { unfold def'. by destruct (Configuration' def). }
  destruct Hhead as (HId & HType & HDebug).
  rewrite Hgiven in Hinit. fold resolved in Hinit.
  destruct (processVariables config chainCtx given) as [cfg0 [err|]] eqn:Hpv; [done|].
  assert (Hres : resolved = cfg0) by (unfold resolved; by rewrite ?Hpv).
  unfold Node_Init in Hinit.
  destruct (nodeInitCheck node _) as [err|]; [done|].
  injection Hinit as <-. eexists _, _. split; [reflexivity|]. split; [reflexivity|].
  unfold injected. rewrite HId, HType, HDebug, Hres.
  split; [|split; [|split; [|split; [|split]]]].
  - rewrite lookup_insert_ne by done. by rewrite lookup_insert_eq.
  - by rewrite lookup_insert_eq.
  - rewrite !lookup_insert_ne by done. destruct flag; [by rewrite lookup_insert_eq|done].
  - intros key H1 H2 H3. rewrite !lookup_insert_ne by done.
    destruct flag; [by rewrite lookup_insert_ne|done].
  - simpl. unfold def', given. destruct (Configuration' def) eqn:Hc; simpl; by rewrite ?Hc.
  - done.
Qed.

(** Hot reload keeps the identity of the node.  Whatever the new
    definition and however the call ends, [ReloadSelfFromDef] leaves the
    wrapper's chain context and network-resource flag as they were, a
    wrapper that held a component still holds one, a wrapper that held none
    still holds none, and the list of destroyed instances is either what it
    was or longer by exactly the component the wrapper held before. *)
Theorem reload_invariants st def :
  let st' := (ReloadSelfFromDef st def).1 in
  ChainCtx (wrapper st') = ChainCtx (wrapper st)
  ∧ isInitNetResource (wrapper st') = isInitNetResource (wrapper st)
  ∧ (is_Some (Node (wrapper st')) ↔ is_Some (Node (wrapper st)))
  ∧ (st' = st
     ∨ ∃ old, Node (wrapper st) = Some old ∧ destroyed st' = destroyed st ++ [old]
              ∧ (ReloadSelfFromDef st def).2 = Returns None).
Proof.
  intros st'. unfold st', ReloadSelfFromDef.
  set (r := match ChainCtx (wrapper st) with
            | Some c => initRuleNodeCtx _ _ (chainAspects c) _ _
            | None => _
            end).
  destruct r as [[ctx [err|]]|msg] eqn:Hr; [by auto| |by auto].
  unfold Destroy. destruct (Node (wrapper st)) as [old|] eqn:Hold; simpl; [|by rewrite Hold; auto].
  assert (∃ node def', ctx = Some (mkRuleNodeCtx (Some node) (ChainCtx (wrapper st)) (Some def')
                                     (config (wrapper st))
                                     (default [] (chainAspects <$> ChainCtx (wrapper st)))
                                     (isInitNetResource (wrapper st)))) as (node & def' & ->).
  { unfold r in Hr. unfold initRuleNodeCtx in Hr.
    destruct (ChainCtx (wrapper st)) as [c|]; simpl.
    - destruct (runBeforeInit _ _ _); [done|].
      destruct (ComponentsRegistry _) as [NewNode|]; [|done].
      destruct (NewNode (Type' def)) as [node|err]; [|done].
      destruct (processVariables _ _ _) as [cfg [err|]]; [done|].
      destruct (Node_Init node _) as [node' [err|]]; [done|].
      injection Hr as <-. eauto.
    - destruct (runBeforeInit _ _ _); [done|].
      destruct (ComponentsRegistry _) as [NewNode|]; [|done].
      destruct (NewNode (Type' def)) as [node|err]; [|done].
      destruct (processVariables _ _ _) as [cfg [err|]]; [done|].
      destruct (Node_Init node _) as [node' [err|]]; [done|].
      injection Hr as <-. eauto. }
  simpl. split; [done|]. split; [done|]. split; [split; eauto|].
  right. by exists old.
Qed.

(** A wrapper without a component cannot be reloaded.  On a wrapper that
    holds no component (the one initialisation returns when the registry
    does not know the type), [ReloadSelfFromDef] never returns nil and never
    changes anything: it returns the error of the new initialisation or,
    when the new initialisation succeeds, panics on destroying the
    component that is not there. *)
Theorem reload_without_component st def :
  Node (wrapper st) = None →
  let r := initRuleNodeCtx (config (wrapper st)) (ChainCtx (wrapper st))
             (default [] (chainAspects <$> ChainCtx (wrapper st))) def
             (isInitNetResource (wrapper st)) in
  (ReloadSelfFromDef st def).1 = st
  ∧ (ReloadSelfFromDef st def).2 ≠ Returns None
  ∧ (∀ ctx, r = Returns (ctx, None) → (ReloadSelfFromDef st def).2 = Panics nilDereference).
Proof.
  intros Hnone r.
  assert (Hr : ReloadSelfFromDef st def =
               match r with
               | Panics msg => (st, Panics msg)
               | Returns (ctx, None) => (st, Panics nilDereference)
               | Returns (_, Some err) => (st, Returns (Some err))
               end).
  { unfold ReloadSelfFromDef, r, Destroy. rewrite Hnone.
    by destruct (ChainCtx (wrapper st)). }
  rewrite Hr. destruct r as [[ctx [err|]]|msg]; simpl; repeat split; try done.
  all: by intros ? [=].
Qed.

End lifecycle.

(** An instance: with the aspects [other; pass; noDebug; pass] the node
    [logDef], which is in debug mode, is refused by the third aspect, on a
    config without any registry. *)
Lemma before_init_aspect_veto_witness :
  initRuleNodeCtx (H := demo.simpleEngine) zeroConfig (Some demo.chain)
    [demo.otherAspect; demo.passAspect; demo.noDebugAspect; demo.passAspect] demo.logDef false
  = Returns (None, Some "debug mode is not allowed").
Proof.
  destruct (before_init_aspect_veto (H := demo.simpleEngine) zeroConfig (Some demo.chain)
              [demo.otherAspect; demo.passAspect; demo.noDebugAspect; demo.passAspect]
              demo.logDef false) as [Hveto _].
  apply (Hveto [demo.otherAspect; demo.passAspect] demo.noDebugAspect [demo.passAspect]
           (λ _ def, if DebugMode def then Some "debug mode is not allowed" else None));
    [reflexivity..|].
  repeat constructor; intros g [= <-]; reflexivity.
Defined.

(** An instance: the component of the running [log] node was initialised
    with the resolved URL, the chain and the definition's header. *)
Lemma component_configuration_witness :
  ∃ node cfg,
    Node demo.runningWrapper = Some node ∧ nodeConfiguration node = Some cfg
    ∧ cfg !! "url" = Some (VString "http://10.0.0.1/eu")
    ∧ cfg !! "$chainCtx" = Some (VChainCtx (Some "chain01"))
    ∧ cfg !! "$selfDefinition" = Some (VRuleNode "s1" "log" true)
    ∧ (SelfDefinition demo.runningWrapper ≫= Configuration')
      = Some {[ "url" := VString "http://${vars.ip}/${global.region}" ]}.
Proof.
  destruct (component_configuration (H := demo.simpleEngine) demo.engineConfig (Some demo.chain) []
              demo.logDef false demo.runningWrapper)
    as (node & cfg & Hnode & Hcfg & Hchain & Hdef & _ & Hkeys & Hkept & _).
  { vm_compute. reflexivity. }
  exists node, cfg. split; [done|]. split; [done|].
  split; [rewrite Hkeys by done; vm_compute; reflexivity|].
  split; [done|]. split; [done|]. done.
Defined.

(** An instance: the wrapper of a node of an unregistered type is not
    repaired by reloading it from a good definition; the call panics. *)
Lemma reload_without_component_witness :
  ReloadSelfFromDef (H := demo.simpleEngine) (mkNodeState demo.brokenWrapper []) demo.logDef
  = (mkNodeState demo.brokenWrapper [], Panics nilDereference).
Proof.
  destruct (reload_without_component (H := demo.simpleEngine)
              (mkNodeState demo.brokenWrapper []) demo.logDef eq_refl) as (Hst & _ & Hpanic).
  destruct (ReloadSelfFromDef _ _) as [st' out]. simpl in Hst, Hpanic. subst st'.
  f_equal. eapply Hpanic. vm_compute. reflexivity.
Defined.

End engine_props.

(* ===================================================================== *)
(** * Properties of the SSH node and the MQTT client node                *)
(* ===================================================================== *)

Module external_spec.
Import engine external.

Section components.
Context `{ExternalWorld}.

(** ** The client of the MQTT node under concurrent callers *)

Import MqttClientNode.


Lemma ToMqttConfig_idem cfg :
  ToMqttConfig (ToMqttConfig cfg).1 = ((ToMqttConfig cfg).1, (ToMqttConfig cfg).2).
Proof.
  unfold ToMqttConfig. destruct cfg as [? ? ? ? m ? ? ?]; simpl.
  destruct (bool_decide (m < 0)%Z) eqn:Hm; simpl.
  - done.
  - by rewrite Hm.
Qed.

Lemma Forall_failed_snoc past k err :
  Forall failed past → result k = inr err → Forall failed (past ++ [k]).
Proof. intros Hp Hk. apply Forall_app. split; [done|]. repeat constructor. by exists err. Qed.

Lemma runSchedule_steps schedule s s' :
  runSchedule schedule s = Some s' → rtc step s s'.
Proof.
  revert s. induction schedule as [|i schedule IH]; intros s; simpl.
  - intros [= ->]. done.
  - destruct (stepSystem i s) as [s1|] eqn:Hs; [|done]. simpl. intros Hrun.
    eapply rtc_l; [by exists i|]. by apply IH.
Qed.

Lemma Inv_launch x n : quiescent x → Inv x (launch x n).
Proof.
  intros (Hl & Hc & _). split; simpl.
  - intros i p [-> _]%lookup_replicate. done.
  - intros i. rewrite Hl. done.
  - done.
  - intros i p [-> _]%lookup_replicate. done.
  - by left.
  - exists []. rewrite app_nil_r. split; [done|]. intros n' k. by rewrite lookup_nil.
  - done.
Qed.

(** The invariant reads only the client and the history of the node. *)
Lemma consistent_ext x y :
  client x = client y → constructed x = constructed y → consistent x → consistent y.
Proof. unfold consistent. by intros <- <-. Qed.

Lemma fits_ext x0 x y r :
  client x = client y → constructed x = constructed y → fits x0 x r → fits x0 y r.
Proof. unfold fits. by intros <- <-. Qed.

Lemma pcInv_ext x0 x y p :
  client x = client y → constructed x = constructed y → pcInv x0 x p → pcInv x0 y p.
Proof.
  intros Hc Hk. destruct p; simpl; rewrite <-?Hc, <-?Hk; try done.
  - by apply consistent_ext.
  - intros [? ?]. split; [by eapply consistent_ext|by eapply fits_ext].
  - by apply fits_ext.
Qed.

(** While a caller is inside the critical section the others are not. *)
Lemma others_outside x0 s i j p q :
  Inv x0 s → callers s !! i = Some p → holds p = true →
  callers s !! j = Some q → i ≠ j → holds q = false.
Proof.
  intros HI Hp Hh Hq Hne. destruct (holds q) eqn:Hhq; [|done].
  pose proof (inv_lock _ _ HI _ _ Hp Hh) as Hi.
  pose proof (inv_lock _ _ HI _ _ Hq Hhq) as Hj. congruence.
Qed.

(** A caller outside the critical section whose state fitted an unbuilt
    node has returned an error, and keeps fitting when the history grows. *)
Lemma outside_grows x0 x y q :
  holds q = false → client x = None → pcInv x0 x q →
  (∀ n k, constructed x !! n = Some k → constructed y !! n = Some k) → pcInv x0 y q.
Proof.
  intros Hh Hc Hq Hsub. destruct q as [| | | | |[[c|] [err|]]]; simpl in *; try done.
  - congruence.
  - destruct Hq as (n & k & Hk & Hn & Hr). exists n, k. auto.
Qed.

(** Replacing the state of caller [i] keeps the lock discipline as long as
    the caller stays on the same side of the critical section. *)
Lemma lock_kept (cs : list pc) (L : option nat) i p p' :
  cs !! i = Some p → holds p' = holds p →
  (∀ j q, cs !! j = Some q → holds q = true → L = Some j) →
  (∀ j q, <[i:=p']> cs !! j = Some q → holds q = true → L = Some j).
Proof.
  intros Hp Hh Hlock j q [(-> & <- & _)|(Hne & Hq)]%list_lookup_insert_Some Hq'; [|eauto].
  eapply Hlock; [done|congruence].
Qed.

Lemma holder_kept (cs : list pc) (L : option nat) i p p' :
  cs !! i = Some p → holds p' = holds p →
  (∀ j, L = Some j → ∃ q, cs !! j = Some q ∧ holds q = true) →
  (∀ j, L = Some j → ∃ q, <[i:=p']> cs !! j = Some q ∧ holds q = true).
Proof.
  intros Hp Hh Hholder j Hj. destruct (Hholder j Hj) as (q & Hq & Hhq).
  destruct (decide (i = j)) as [<-|Hne].
  - exists p'. rewrite list_lookup_insert_eq by (by eapply lookup_lt_Some).
    split; [done|]. congruence.
  - exists q. by rewrite list_lookup_insert_ne.
Qed.

Lemma Inv_step x0 s s' : Inv x0 s → step s s' → Inv x0 s'.
Proof.
  intros HI [i Hstep]. unfold stepSystem in Hstep.
  destruct (callers s !! i) as [p|] eqn:Hp; simpl in Hstep; [|done].
  destruct (stepCaller i p (node s)) as [[p' x']|] eqn:Hsc; simpl in Hstep; [|done].
  injection Hstep as <-.
  pose proof (lookup_lt_Some _ _ _ Hp) as Hlt.
  pose proof (inv_pc _ _ HI _ _ Hp) as Hpc.
  pose proof HI as [Hlock Hholder Hfree Hpcs Hcfg Hhist Hbuilt].
  destruct p as [| | |[c|err]|r|r]; cbn [stepCaller] in Hsc.
  - (* Lock *)
    destruct (Locker (node s)) eqn:HL; [done|]. injection Hsc as <- <-.
    split; cbn [node callers Locker client constructed Config setLocker setClient].
    + intros j q [(-> & _ & _)|(Hne & Hq)]%list_lookup_insert_Some Hh; [done|].
      specialize (Hlock _ _ Hq Hh). congruence.
    + intros j [= <-]. exists AtCheck. by rewrite list_lookup_insert_eq.
    + done.
    + intros j q [(-> & <- & _)|(Hne & Hq)]%list_lookup_insert_Some.
      * simpl. eapply consistent_ext; [| |by apply Hfree]; done.
      * eapply pcInv_ext; [| |by eapply Hpcs]; done.
    + done.
    + done.
    + done.

  - (* Check *)
    assert (holds p' = true ∧ pcInv x0 (node s) p' ∧ x' = node s) as (Hh' & Hpc' & ->).
    { simpl in Hpc. unfold consistent in Hpc.
      destruct (client (node s)) as [c|] eqn:Hc; injection Hsc as <- <-; simpl.
      - split; [done|]. split; [|done]. split; [|done]. unfold consistent. by rewrite Hc.
      - done. }
    split; cbn [node callers Locker client constructed Config setLocker setClient].
    + by eapply lock_kept.
    + by eapply holder_kept.
    + done.
    + intros j q [(-> & <- & _)|(Hne & Hq)]%list_lookup_insert_Some; eauto.
    + done.
    + done.
    + done.

  - (* Construct *)
    assert (HL : Locker (node s) = Some i) by (by eapply Hlock).
    unfold construct in Hsc. destruct (ToMqttConfig (Config (node s))) as [cfg mqttConfig] eqn:Hto.
    injection Hsc as <- <-. destruct Hpc as [Hnone Hfailed].
    assert (Hused : cfg = (ToMqttConfig (Config x0)).1 ∧ mqttConfig = (ToMqttConfig (Config x0)).2).
    { destruct Hcfg as [Heq|Heq]; rewrite Heq in Hto.
      - by rewrite Hto.
      - rewrite ToMqttConfig_idem in Hto. by injection Hto as <- <-. }
    destruct Hused as [-> ->].
    split; cbn [node callers Locker client constructed Config setLocker setClient].
    + by eapply lock_kept.
    + by eapply holder_kept.
    + congruence.
    + intros j q [(-> & <- & _)|(Hne & Hq)]%list_lookup_insert_Some.
      * simpl. split; [done|]. eexists _, _. split; [done|]. split; [done|]. split; [done|].
        destruct Hhist as (new & -> & _). rewrite length_app. lia.
      * eapply outside_grows; [by eapply (others_outside x0 s i j)|done|by eapply Hpcs|].
        simpl. intros n k Hk. by apply lookup_app_l_Some.
    + by right.
    + destruct Hhist as (new & Hnew & Hres).
      exists (new ++ [mkConstruction initClientTimeout (ToMqttConfig (Config x0)).2
                        (mqtt_NewClient (length (constructed (node s))) initClientTimeout
                                        (ToMqttConfig (Config x0)).2)]).
      split; [by rewrite Hnew, app_assoc|].
      intros n k [Hk|(Hn & Hk)]%lookup_app_Some; [eauto|].
      destruct (n - length new) as [|?] eqn:Hd; [|done].
      injection Hk as <-. rewrite Hnew, length_app.
      replace n with (length new) by lia. done.
    + intros c' Hc'. destruct (Hbuilt c' Hc') as [? _]. congruence.

  - (* Store, after a successful construction *)
    assert (HL : Locker (node s) = Some i) by (by eapply Hlock).
    injection Hsc as <- <-. destruct Hpc as (Hnone & past & k & Hk & Hr & Hpast & Hnew).
    split; cbn [node callers Locker client constructed Config setLocker setClient].
    + by eapply lock_kept.
    + by eapply holder_kept.
    + congruence.
    + intros j q [(-> & <- & _)|(Hne & Hq)]%list_lookup_insert_Some.
      * simpl. split; [|done]. unfold consistent. simpl. eauto.
      * eapply outside_grows; [by eapply (others_outside x0 s i j)|done|by eapply Hpcs|done].
    + done.
    + done.
    + intros c' Hc'. destruct (Hbuilt c' Hc') as [? _]. congruence.

  - (* Store, after a failed construction *)
    injection Hsc as <- <-. destruct Hpc as (Hnone & past & k & Hk & Hr & Hpast & Hnew).
    split; cbn [node callers Locker client constructed Config setLocker setClient].
    + by eapply lock_kept.
    + by eapply holder_kept.
    + done.
    + intros j q [(-> & <- & _)|(Hne & Hq)]%list_lookup_insert_Some; [|eauto].
      simpl. split.
      * unfold consistent. rewrite Hnone, Hk. by eapply Forall_failed_snoc.
      * exists (length past), k. rewrite Hk. split; [by apply list_lookup_middle|]. done.
    + done.
    + done.
    + done.

  - (* Unlock *)
    assert (HL : Locker (node s) = Some i) by (by eapply Hlock).
    injection Hsc as <- <-. destruct Hpc as [Hcons Hfits].
    split; cbn [node callers Locker client constructed Config setLocker setClient].
    + intros j q [(-> & <- & _)|(Hne & Hq)]%list_lookup_insert_Some Hh; [done|].
      specialize (Hlock _ _ Hq Hh). congruence.
    + done.
    + intros _. eapply consistent_ext; [| |done]; done.
    + intros j q [(-> & <- & _)|(Hne & Hq)]%list_lookup_insert_Some.
      * simpl. eapply fits_ext; [| |done]; done.
      * eapply pcInv_ext; [| |by eapply Hpcs]; done.
    + done.
    + done.
    + done.
  - done.
Qed.

Lemma Inv_reachable x n s : quiescent x → rtc step (launch x n) s → Inv x s.
Proof.
  intros Hq Hsteps. revert s Hsteps. apply rtc_ind_r.
  - by apply Inv_launch.
  - intros y z _ Hstep HI. by eapply Inv_step.
Qed.

(** *** Every caller returns *)

Lemma holder_steps i q x : holds q = true → is_Some (stepCaller i q x).
Proof.
  intros Hh. destruct q as [| | |[c|err]| |]; try done; cbn [stepCaller].
  destruct (client x); by eexists.
Qed.

Lemma progress x0 s : Inv x0 s → ¬ allReturned s → ∃ s', step s s'.
Proof.
  intros HI Hnot. unfold allReturned in Hnot.
  apply not_Forall_Exists in Hnot; [|solve_decision].
  apply Exists_exists in Hnot as (p & Hin & Hp).
  apply list_elem_of_lookup in Hin as [i Hi].
  destruct (Locker (node s)) as [j|] eqn:HL.
  - destruct (inv_holder _ _ HI j HL) as (q & Hq & Hh).
    destruct (holder_steps j q (node s) Hh) as [[q' x'] Hstep].
    eexists. exists j. unfold stepSystem. rewrite Hq. simpl. rewrite Hstep. done.
  - destruct (holds p) eqn:Hh.
    { pose proof (inv_lock _ _ HI _ _ Hi Hh). congruence. }
    destruct p; simpl in *; try done.
    eexists. exists i. unfold stepSystem. rewrite Hi. simpl. rewrite HL. done.
Qed.

Lemma sum_list_insert (l : list nat) i a b :
  l !! i = Some a → sum_list (<[i:=b]> l) + a = sum_list l + b.
Proof.
  revert i. induction l as [|c l IH]; intros [|i]; simpl; try done.
  - intros [= ->]. lia.
  - intros Hi. specialize (IH _ Hi). lia.
Qed.

Lemma stepCaller_remaining i p x p' x' :
  stepCaller i p x = Some (p', x') → remaining p' < remaining p.
Proof.
  destruct p as [| | |[c|err]| |]; cbn [stepCaller].
  - destruct (Locker x); [done|]. intros [= <- _]. simpl. lia.
  - destruct (client x); intros [= <- _]; simpl; lia.
  - destruct (construct x). intros [= <- _]. simpl. lia.
  - intros [= <- _]. simpl. lia.
  - intros [= <- _]. simpl. lia.
  - intros [= <- _]. simpl. lia.
  - done.
Qed.

Lemma step_weight s s' : step s s' → weight s' < weight s.
Proof.
  intros [i Hstep]. unfold stepSystem in Hstep.
  destruct (callers s !! i) as [p|] eqn:Hp; simpl in Hstep; [|done].
  destruct (stepCaller i p (node s)) as [[p' x']|] eqn:Hsc; simpl in Hstep; [|done].
  injection Hstep as <-. unfold weight. simpl.
  apply stepCaller_remaining in Hsc.
  rewrite list_fmap_insert.
  pose proof (sum_list_insert (remaining <$> callers s) i (remaining p) (remaining p')) as Hsum.
  rewrite list_lookup_fmap, Hp in Hsum. specialize (Hsum eq_refl). lia.
Qed.

Lemma completes x0 s : Inv x0 s → ∃ s', rtc step s s' ∧ allReturned s'.
Proof.
  remember (weight s) as w eqn:Hw. revert s Hw.
  induction w as [w IH] using lt_wf_ind. intros s -> HI.
  destruct (decide (allReturned s)) as [Hall|Hnot].
  - by exists s.
  - destruct (progress _ _ HI Hnot) as [s1 Hstep].
    destruct (IH (weight s1) (step_weight _ _ Hstep) s1 eq_refl) as (s' & Hsteps & Hall).
    { by eapply Inv_step. }
    exists s'. split; [|done]. by eapply rtc_l.
Qed.

(** *** What the history looks like *)

Lemma history_shape x0 s past k :
  Inv x0 s → constructed (node s) = past ++ [k] → Forall failed past.
Proof.
  intros HI Hk.
  assert (consistent (node s) → Forall failed past) as Hcons.
  { unfold consistent. destruct (client (node s)).
    - intros (past' & k' & Heq & _ & Hpast). rewrite Hk in Heq.
      by apply app_inj_tail in Heq as [-> _].
    - rewrite Hk. by intros [? _]%Forall_app. }
  destruct (Locker (node s)) as [j|] eqn:HL; [|by apply Hcons, (inv_free _ _ HI)].
  destruct (inv_holder _ _ HI j HL) as (q & Hq & Hh).
  pose proof (inv_pc _ _ HI _ _ Hq) as Hpc.
  destruct q; simpl in Hh, Hpc; try done.
  - by apply Hcons.
  - destruct Hpc as [_ Hall]. rewrite Hk in Hall. by apply Forall_app in Hall as [? _].
  - destruct Hpc as (_ & past' & k' & Heq & _ & Hpast & _). rewrite Hk in Heq.
    by apply app_inj_tail in Heq as [-> _].
  - apply Hcons. by destruct Hpc.
Qed.

Lemma stored_on_success x0 s c :
  Inv x0 s → client (node s) = Some c →
  ∃ past k, constructed (node s) = past ++ [k] ∧ result k = inl c.
Proof.
  intros HI Hc.
  assert (consistent (node s) → ∃ past k, constructed (node s) = past ++ [k] ∧ result k = inl c)
    as Hcons.
  { unfold consistent. rewrite Hc. intros (past & k & ? & ? & _). eauto. }
  destruct (Locker (node s)) as [j|] eqn:HL; [|by apply Hcons, (inv_free _ _ HI)].
  destruct (inv_holder _ _ HI j HL) as (q & Hq & Hh).
  pose proof (inv_pc _ _ HI _ _ Hq) as Hpc.
  destruct q; simpl in Hh, Hpc; try done.
  - by apply Hcons.
  - destruct Hpc as [? _]. congruence.
  - destruct Hpc as [? _]. congruence.
  - apply Hcons. by destruct Hpc.
Qed.

Lemma timeouts x0 s :
  quiescent x0 → Inv x0 s →
  Forall (λ k, timeout k = initClientTimeout) (constructed (node s)).
Proof.
  intros (_ & _ & Hold) HI. destruct (inv_history _ _ HI) as (new & -> & Hnew).
  apply Forall_app. split; [done|].
  apply Forall_lookup. intros n k Hk. by rewrite (Hnew _ _ Hk).
Qed.

(** When the first construction after the launch succeeds it is the only
    one, and every caller that has returned holds its client. *)
Lemma first_success x0 s c :
  quiescent x0 → Inv x0 s → client x0 = None →
  mqtt_NewClient (length (constructed x0)) initClientTimeout (ToMqttConfig (Config x0)).2 = inl c →
  length (constructed (node s)) ≤ S (length (constructed x0))
  ∧ ∀ i r, callers s !! i = Some (Returned r) →
      r = (Some c, None) ∧ length (constructed (node s)) = S (length (constructed x0)).
Proof.
  intros (_ & Hcons0 & _) HI Hnone Hfirst.
  destruct (inv_history _ _ HI) as (new & Hnew & Hres).
  unfold consistent in Hcons0. rewrite Hnone in Hcons0.
  assert (Hshort : length new ≤ 1).
  { destruct new as [|k1 [|k2 new]]; simpl; try lia.
    destruct (exists_last (l := k1 :: k2 :: new)) as (past & k & Hlast); [done|].
    assert (Hpast : Forall failed past).
    { eapply (history_shape x0 s (constructed x0 ++ past) k) in HI.
      - by apply Forall_app in HI as [_ ?].
      - by rewrite Hnew, Hlast, app_assoc. }
    destruct past as [|k1' past]; [done|]. injection Hlast as -> _.
    apply Forall_cons in Hpast as [[err Herr] _].
    pose proof (Hres 0 k1' eq_refl) as Hk1. rewrite Nat.add_0_r, Hfirst in Hk1.
    rewrite Hk1 in Herr. simpl in Herr. congruence. }
  split; [rewrite Hnew, length_app; lia|].
  intros i r Hi. pose proof (inv_pc _ _ HI _ _ Hi) as Hfit. simpl in Hfit.
  destruct new as [|k1 [|k2 new]]; [| |simpl in Hshort; lia].
  - (* nothing constructed yet: nobody can have returned *)
    rewrite app_nil_r in Hnew. exfalso.
    destruct r as [[c'|] [err|]]; simpl in Hfit; try done.
    + destruct (stored_on_success _ _ _ HI Hfit) as (past & k & Heq & Hk).
      rewrite Hnew in Heq. rewrite Heq in Hcons0.
      apply Forall_app in Hcons0 as [_ [[err Herr] _]%Forall_cons]. congruence.
    + destruct Hfit as (n & k & Hk & Hn & _). rewrite Hnew in Hk.
      apply lookup_lt_Some in Hk. lia.
  - pose proof (Hres 0 k1 eq_refl) as Hk1. rewrite Nat.add_0_r, Hfirst in Hk1.
    split; [|rewrite Hnew, length_app; simpl; lia].
    destruct r as [[c'|] [err|]]; simpl in Hfit; try done.
    + destruct (stored_on_success _ _ _ HI Hfit) as (past & k & Heq & Hk).
      rewrite Hnew in Heq. apply app_inj_tail in Heq as [_ <-].
      rewrite Hk1 in Hk. simpl in Hk. congruence.
    + destruct Hfit as (n & k & Hk & Hn & Herr). rewrite Hnew in Hk.
      apply lookup_app_Some in Hk as [Hk|[_ Hk]]; [apply lookup_lt_Some in Hk; lia|].
      destruct (n - length (constructed x0)) as [|?]; [|done].
      injection Hk as <-. rewrite Hk1 in Herr. simpl in Herr. congruence.
Qed.

(** C2 (as the code has it): callers of [initClient] on a quiescent node,
    in any number and under any interleaving.  In every state they can
    reach: each construction was started under the 4 second timeout; every
    construction but the last one has failed, so at most one succeeded; a
    stored client is the result of the last, successful, construction; a
    caller that has returned holds the stored client or the error of a
    construction made since the launch, so all callers that received a client
    received the same one.  If the node was built already nothing is
    constructed and every caller returns the existing client.  If it was not
    and the first construction succeeds, that construction is the only one
    and every caller returns its client.  From every such state all callers
    can run on until each one has returned. *)
Theorem initClient_concurrent_callers x n s :
  quiescent x → rtc step (launch x n) s →
  Forall (λ k, timeout k = initClientTimeout) (constructed (node s))
  ∧ (∀ past k, constructed (node s) = past ++ [k] → Forall failed past)
  ∧ (∀ c, client (node s) = Some c →
       ∃ past k, constructed (node s) = past ++ [k] ∧ result k = inl c)
  ∧ (∀ i r, callers s !! i = Some (Returned r) → fits x (node s) r)
  ∧ (∀ i j c c' e e', callers s !! i = Some (Returned (Some c, e)) →
       callers s !! j = Some (Returned (Some c', e')) → c = c')
  ∧ (∀ c, client x = Some c →
       constructed (node s) = constructed x
       ∧ ∀ i r, callers s !! i = Some (Returned r) → r = (Some c, None))
  ∧ (∀ c, client x = None →
       mqtt_NewClient (length (constructed x)) initClientTimeout (ToMqttConfig (Config x)).2 = inl c →
       length (constructed (node s)) ≤ S (length (constructed x))
       ∧ ∀ i r, callers s !! i = Some (Returned r) →
           r = (Some c, None) ∧ length (constructed (node s)) = S (length (constructed x)))
  ∧ ∃ s', rtc step s s' ∧ allReturned s'.
Proof.
  intros Hq Hsteps. pose proof (Inv_reachable _ _ _ Hq Hsteps) as HI.
  split; [by eapply timeouts|].
  split; [intros past k; by apply (history_shape x)|].
  split; [intros c; by apply (stored_on_success x)|].
  split; [intros i r Hi; by apply (inv_pc _ _ HI _ _ Hi)|].
  split; [|split; [|split]].
  - intros i j c c' e e' Hi Hj.
    pose proof (inv_pc _ _ HI _ _ Hi) as Hfi. pose proof (inv_pc _ _ HI _ _ Hj) as Hfj.
    simpl in Hfi, Hfj. destruct e, e'; try done. congruence.
  - intros c Hc. destruct (inv_built _ _ HI c Hc) as [Hclient Hsame]. split; [done|].
    intros i r Hi. pose proof (inv_pc _ _ HI _ _ Hi) as Hfit. simpl in Hfit.
    destruct r as [[c'|] [err|]]; simpl in Hfit; try done.
    + congruence.
    + destruct Hfit as (m & k & Hk & Hm & _). rewrite Hsame in Hk.
      apply lookup_lt_Some in Hk. lia.
  - intros c Hnone Hfirst. by apply first_success.
  - by eapply completes.
Qed.

(** ** [OnMsg] *)

Lemma initClient_returns x :
  Locker x = None →
  ∃ x' r, initClient x = Some (x', r)
          ∧ ((∃ c, r = (Some c, None)) ∨ (∃ err, r = (None, Some err))).
Proof.
  intros HL. unfold initClient. cbn [stepCaller]. rewrite HL. cbn [mbind option_bind].
  cbn [stepCaller setLocker client].
  destruct (client x) as [c|]; cbn [mbind option_bind stepCaller]; [eauto 10|].
  destruct (construct _) as [x1 [c|err]]; cbn [mbind option_bind stepCaller]; eauto 10.
Qed.

Lemma SharedNode_Get_result x x' r :
  SharedNode_Get x = Returns (x', r) →
  (∃ c, r = (Some c, None)) ∨ (∃ err, r = (None, Some err)).
Proof.
  unfold SharedNode_Get. destruct (decide (InstanceId x ≠ "")).
  - destruct (pool_GetInstance _); intros [= <- <-]; eauto.
  - destruct (hasInitInstanceFunc x); [|intros [= <- <-]; eauto].
    destruct (initClient x) as [[x1 r1]|] eqn:Hinit; [|done]. intros [= <- <-].
    unfold initClient in Hinit. cbn [stepCaller] in Hinit.
    destruct (Locker x); [done|]. cbn [mbind option_bind stepCaller setLocker client] in Hinit.
    destruct (client x) as [c|]; cbn [mbind option_bind stepCaller] in Hinit.
    { injection Hinit as _ <-. eauto. }
    destruct (construct _) as [x2 [c|err]]; cbn [mbind option_bind stepCaller] in Hinit;
      injection Hinit as _ <-; eauto.
Qed.

Lemma SharedNode_Get_returns x :
  Locker x = None → ∃ x' r, SharedNode_Get x = Returns (x', r).
Proof.
  intros HL. unfold SharedNode_Get. destruct (decide (InstanceId x ≠ "")).
  - destruct (pool_GetInstance _); eauto.
  - destruct (hasInitInstanceFunc x); [|eauto].
    destruct (initClient_returns x HL) as (x' & r & -> & _). eauto.
Qed.

(** C7: whenever [OnMsg] of the SSH node or of the MQTT client node
    returns, it has made exactly one call of [TellSuccess] or [TellFailure]
    on its context; and it does return, for the SSH node whenever a stored
    client comes with its command template, for the MQTT node whenever the
    topic template is set and nobody holds the lock for good. *)
Theorem OnMsg_tells_exactly_once :
  (∀ (x : SshNode.SshNode) (ctx : RuleContext) (msg : RuleMsg),
     (∀ ctx', SshNode.OnMsg x ctx msg = Returns ctx' → ∃ t, ctx' = ctx ++ [t])
     ∧ ((is_Some (SshNode.client x) → is_Some (SshNode.cmdTemplate x)) →
        ∃ t, SshNode.OnMsg x ctx msg = Returns (ctx ++ [t])))
  ∧ (∀ (x : MqttClientNode) (ctx : RuleContext) (msg : RuleMsg),
       (∀ x' ctx', OnMsg x ctx msg = Returns (x', ctx') → ∃ t, ctx' = ctx ++ [t])
       ∧ (is_Some (topicTemplate x) → Locker x = None →
          ∃ x' t, OnMsg x ctx msg = Returns (x', ctx ++ [t]))).
Proof.
  split.
  - intros x ctx msg. unfold SshNode.OnMsg, TellFailure, TellSuccess.
    destruct (SshNode.client x) as [c|]; [|split; [intros ? [= <-]|]; eauto].
    destruct (decide (SshNode.Cmd (SshNode.Config x) = "")); [split; [intros ? [= <-]|]; eauto|].
    destruct (SshNode.cmdTemplate x) as [template|].
    + destruct (ssh_NewSession c) as [session|err]; [|split; [intros ? [= <-]|]; eauto].
      destruct (ssh_CombinedOutput session _) as [output [err|]];
        (split; [intros ? [= <-]|]; eauto).
    + split; [done|]. intros Hwf. by destruct Hwf as [? ?].
  - intros x ctx msg. unfold OnMsg, TellFailure, TellSuccess. split.
    + intros x' ctx'. destruct (topicTemplate x) as [template|]; [|done].
      destruct (SharedNode_Get x) as [[x1 [[c|] [err|]]]|]; try done.
      * intros [= <- <-]. eauto.
      * destruct (mqtt_Publish _ _ _ _); intros [= <- <-]; eauto.
      * intros [= <- <-]. eauto.
    + intros [template ->] HL.
      destruct (SharedNode_Get_returns x HL) as (x1 & r & Hget). rewrite Hget.
      destruct (SharedNode_Get_result _ _ _ Hget) as [[c ->]|[err ->]]; [|eauto].
      destruct (mqtt_Publish _ _ _ _); eauto.
Qed.

(** What [Init] leaves behind meets the conditions under which [OnMsg]
    returns. *)
Lemma SshNode_Init_template x decoded :
  (is_Some (SshNode.client x) → is_Some (SshNode.cmdTemplate x)) →
  is_Some (SshNode.client (SshNode.Init x decoded).1) →
  is_Some (SshNode.cmdTemplate (SshNode.Init x decoded).1).
Proof.
  intros Hx. unfold SshNode.Init. destruct decoded as [cfg|err]; [|done].
  destruct (_ && _); [|done].
  destruct (ssh_Dial _ _ _ _); simpl; eauto.
Qed.

Lemma MqttClientNode_Init_template x now decoded x' :
  Init x now decoded = Returns (x', None) → is_Some (topicTemplate x').
Proof.
  unfold Init. destruct decoded as [cfg|err]; [|done].
  destruct (SharedNode_Init _ _ _) as [[x1 e]|]; [|done].
  intros [= <-]. by eexists.
Qed.

End components.

(** C2, an instance on a network where connecting succeeds: three callers
    run [initClient] on a fresh node, the second and third waiting for the
    lock the first one holds; one client is constructed and all three return
    it. *)
Lemma initClient_concurrent_callers_witness :
  ∃ s, MqttClientNode.runSchedule (H := demo_external.online) [0; 0; 0; 0; 0; 2; 2; 2; 1; 1; 1]
         (MqttClientNode.launch demo_external.mqttNode 3) = Some s
       ∧ MqttClientNode.allReturned s
       ∧ length (MqttClientNode.constructed (MqttClientNode.node s)) = 1
       ∧ ∀ i r, MqttClientNode.callers s !! i = Some (MqttClientNode.Returned r) → r = (Some 0, None).
Proof.
  eexists. split; [vm_compute; reflexivity|].
  split; [repeat constructor|]. split; [reflexivity|].
  intros i r Hi.
  edestruct (initClient_concurrent_callers (H := demo_external.online) demo_external.mqttNode 3)
    as (_ & _ & _ & _ & _ & _ & Hfirst & _).
  { split; [reflexivity|]. split; constructor. }
  { apply (runSchedule_steps (H := demo_external.online)
             [0; 0; 0; 0; 0; 2; 2; 2; 1; 1; 1]). vm_compute. reflexivity. }
  destruct (Hfirst 0 eq_refl eq_refl) as [_ Hret]. by destruct (Hret i r Hi).
Defined.

(** C2 as stated fails when construction fails: two callers on a network
    where connecting fails construct twice, and no client is stored. *)
Lemma initClient_two_constructions_counterexample :
  ∃ s, rtc (MqttClientNode.step (H := demo_external.offline))
         (MqttClientNode.launch demo_external.mqttNode 2) s
       ∧ MqttClientNode.allReturned s
       ∧ length (MqttClientNode.constructed (MqttClientNode.node s)) = 2
       ∧ MqttClientNode.client (MqttClientNode.node s) = None.
Proof.
  eexists. split.
  - apply (runSchedule_steps (H := demo_external.offline) [0; 0; 0; 0; 0; 1; 1; 1; 1; 1]).
    vm_compute. reflexivity.
  - split; [repeat constructor|]. split; reflexivity.
Qed.

(** C7, instances: on a network where connecting fails the MQTT node tells
    one failure; on one where it succeeds, one success. *)
Lemma OnMsg_tells_exactly_once_witness :
  (∃ x' err, MqttClientNode.OnMsg (H := demo_external.offline) demo_external.mqttNode []
               demo_external.message = Returns (x', [Failure demo_external.message err]))
  ∧ (∃ x', MqttClientNode.OnMsg (H := demo_external.online) demo_external.mqttNode []
             demo_external.message = Returns (x', [Success demo_external.message])).
Proof.
  split.
  - destruct (OnMsg_tells_exactly_once (H := demo_external.offline)) as [_ Hmqtt].
    destruct (Hmqtt demo_external.mqttNode [] demo_external.message) as [_ Hret].
    destruct (Hret ltac:(by eexists) eq_refl) as (x' & t & Heq).
    exists x'. vm_compute in Heq. vm_compute. injection Heq as <- <-. eauto.
  - eexists. vm_compute. reflexivity.
Defined.

End external_spec.

(* ===================================================================== *)
(** * Further properties of the SSH node and the MQTT client node        *)
(* ===================================================================== *)

Module external_props.
Import engine external.

Section ssh_node.
Context `{ExternalWorld}.
Import SshNode.

(** A nil error from [Init] of the SSH node means a connected node: the
    configuration was decoded, host, port, user name and password are all
    set, the dial succeeded and its client is stored, and the command
    template is the configured command.  In every other case [Init] returns
    an error. *)
Theorem SshNode_Init_nil_error x decoded x' :
  Init x decoded = (x', None) →
  ∃ cfg c,
    decoded = inl cfg ∧ Config x' = cfg
    ∧ Host cfg ≠ "" ∧ Port cfg ≠ 0%Z ∧ Username cfg ≠ "" ∧ Password cfg ≠ ""
    ∧ ssh_Dial (Host cfg) (Port cfg) (Username cfg) (Password cfg) = inl c
    ∧ client x' = Some c ∧ cmdTemplate x' = Some (Cmd cfg).
Proof.
  unfold Init. destruct decoded as [cfg|err]; [|done].
  destruct (bool_decide (Host cfg ≠ "")) eqn:Hh; [|done].
  destruct (bool_decide (Port cfg ≠ 0%Z)) eqn:Hp; [|done].
  destruct (bool_decide (Username cfg ≠ "")) eqn:Hu; [|done].
  destruct (bool_decide (Password cfg ≠ "")) eqn:Hw; [|done].
  simpl. destruct (ssh_Dial _ _ _ _) as [c|err] eqn:Hdial; [|done].
  intros [= <-]. exists cfg, c.
  apply bool_decide_eq_true_1 in Hh, Hp, Hu, Hw. by repeat split.
Qed.

(** An incomplete configuration given to a node that is already connected:
    [Init] answers "ssh config can not empty" and replaces the
    configuration, but keeps the old client and the old command template.
    Messages are then still served, with the command of the old template,
    as long as the new configuration has a command at all. *)
Theorem SshNode_Init_incomplete x cfg c template :
  client x = Some c → cmdTemplate x = Some template →
  bool_decide (Host cfg ≠ "") && bool_decide (Port cfg ≠ 0%Z)
    && bool_decide (Username cfg ≠ "") && bool_decide (Password cfg ≠ "") = false →
  let x' := (Init x (inl cfg)).1 in
  (Init x (inl cfg)).2 = Some SshConfigEmptyErr
  ∧ Config x' = cfg ∧ client x' = Some c ∧ cmdTemplate x' = Some template
  ∧ (Cmd cfg ≠ "" → ∀ ctx msg,
       OnMsg x' ctx msg
       = match ssh_NewSession c with
         | inl session =>
             let '(output, err) := ssh_CombinedOutput session (Execute template msg) in
             let out := mkRuleMsg output TEXT (MsgType msg) (Metadata msg) in
             Returns (ctx ++ [match err with Some e => Failure out e | None => Success out end])
         | inr e => Returns (ctx ++ [Failure msg e])
         end).
Proof.
  intros Hc Ht Hinc x'. unfold x', Init. rewrite Hinc. simpl.
  split; [done|]. split; [done|]. split; [done|]. split; [done|].
  intros Hcmd ctx msg. unfold OnMsg. simpl. rewrite Hc, Ht.
  destruct (decide (Cmd cfg = "")); [done|].
  destruct (ssh_NewSession c) as [session|e]; [|done].
  by destruct (ssh_CombinedOutput session _) as [output [e|]].
Qed.

(** What [OnMsg] of the SSH node passes on.  Whenever it returns, either it
    has run no command and tells a failure with the message as it came, or
    it has run the command rendered from the template on a new session and
    tells the message with the command's combined output as data and the
    data type forced to [TEXT], message type and metadata unchanged, as a
    success when the command succeeded and as a failure, with the
    command's error, when it did not. *)
Theorem SshNode_OnMsg_message x ctx msg ctx' :
  OnMsg x ctx msg = Returns ctx' →
  (∃ err, ctx' = ctx ++ [Failure msg err]
          ∧ (client x = None ∧ err = SshClientNotInitErr
             ∨ Cmd (Config x) = "" ∧ err = SshCmdEmptyErr
             ∨ ∃ c, client x = Some c ∧ ssh_NewSession c = inr err))
  ∨ (∃ c template session output err,
       client x = Some c ∧ cmdTemplate x = Some template
       ∧ ssh_NewSession c = inl session
       ∧ ssh_CombinedOutput session (Execute template msg) = (output, err)
       ∧ let out := mkRuleMsg output TEXT (MsgType msg) (Metadata msg) in
         ctx' = ctx ++ [match err with Some e => Failure out e | None => Success out end]).
Proof.
  unfold OnMsg, TellFailure, TellSuccess.
  destruct (client x) as [c|]; [|intros [= <-]; left; eauto 10].
  destruct (decide (Cmd (Config x) = "")); [intros [= <-]; left; eauto 10|].
  destruct (cmdTemplate x) as [template|]; [|done].
  destruct (ssh_NewSession c) as [session|e] eqn:Hs; [|intros [= <-]; left; eauto 10].
  destruct (ssh_CombinedOutput session _) as [output err] eqn:Hout.
  intros Hret. right. exists c, template, session, output, err.
  repeat split; try done. destruct err; by injection Hret as <-.
Qed.

End ssh_node.

Section mqtt_node.
Context `{ExternalWorld}.
Import MqttClientNode.

(** [time.Duration] arithmetic: within the range of [int64] nothing wraps,
    and one step above it the value comes back from the negative end. *)
Lemma int64_small z : (- 2 ^ 63 ≤ z < 2 ^ 63)%Z → gotime.int64 z = z.
Proof. intros Hz. unfold gotime.int64. rewrite Z.mod_small; lia. Qed.

Lemma int64_wrap z : (2 ^ 63 ≤ z < 2 ^ 63 + 2 ^ 64)%Z → gotime.int64 z = (z - 2 ^ 64)%Z.
Proof.
  intros Hz. unfold gotime.int64.
  replace (z + 2 ^ 63)%Z with (z + 2 ^ 63 - 2 ^ 64 + 1 * 2 ^ 64)%Z by lia.
  rewrite Z_mod_plus_full, Z.mod_small; lia.
Qed.

(** Every client is built from the node's own configuration.  Callers of
    [initClient] on a quiescent node, in any number and interleaving, only
    ever add constructions to the history, and each of them was started
    with the connection settings of the node's configuration: its server,
    credentials, QOS, clean-session flag and client id, and its reconnect
    interval as a [time.Duration], a negative interval being replaced by 60
    seconds first.  The interval in seconds is then never negative, and up
    to 9223372036 seconds the duration handed to the MQTT library is that
    many seconds; from 9223372037 seconds on the multiplication by
    [time.Second] wraps around, and up to 18446744073 seconds the library
    is handed a negative duration.  The node's configuration is left as it
    was or with the one replacement made. *)
Theorem constructions_use_node_config x n s :
  quiescent x → rtc step (launch x n) s →
  let cfg := Config x in
  let interval := if bool_decide (MaxReconnectInterval cfg < 0)%Z then 60%Z
                  else MaxReconnectInterval cfg in
  (∃ new, constructed (node s) = constructed x ++ new
          ∧ ∀ k, k ∈ new →
              usedConfig k = mkMqttConfig (Server cfg) (Username cfg) (Password cfg) (QOS cfg)
                                          (gotime.seconds interval) (CleanSession cfg)
                                          (ClientID cfg))
  ∧ (0 ≤ interval)%Z
  ∧ ((interval ≤ 9223372036)%Z →
     gotime.seconds interval = (interval * 1000000000)%Z ∧ (0 ≤ gotime.seconds interval)%Z)
  ∧ ((9223372037 ≤ interval ≤ 18446744073)%Z → (gotime.seconds interval < 0)%Z)
  ∧ (Config (node s) = cfg
     ∨ Config (node s) = mkMqttClientNodeConfiguration (Server cfg) (Username cfg) (Password cfg)
                           (Topic cfg) interval (QOS cfg) (CleanSession cfg) (ClientID cfg)).
Proof.
  intros Hq Hsteps cfg interval.
  pose proof (external_spec.Inv_reachable _ _ _ Hq Hsteps) as HI.
  assert (Hcfg : ToMqttConfig cfg
                 = (mkMqttClientNodeConfiguration (Server cfg) (Username cfg) (Password cfg)
                      (Topic cfg) interval (QOS cfg) (CleanSession cfg) (ClientID cfg),
                    mkMqttConfig (Server cfg) (Username cfg) (Password cfg) (QOS cfg)
                      (gotime.seconds interval) (CleanSession cfg) (ClientID cfg))).
  { unfold ToMqttConfig, interval. destruct cfg as [? ? ? ? m ? ? ?]. simpl.
    by destruct (bool_decide (m < 0)%Z). }
  assert (Hpos : (0 ≤ interval)%Z) by (unfold interval; case_bool_decide; lia).
  split; [|split; [|split; [|split]]].
  - destruct (inv_history _ _ HI) as (new & Hnew & Hks). exists new. split; [done|].
    intros k [i Hi]%list_elem_of_lookup_1. rewrite (Hks i k Hi). fold cfg. by rewrite Hcfg.
  - done.
  - intros Hle. unfold gotime.seconds, gotime.Second.
    rewrite (int64_small interval) by lia. rewrite int64_small by lia. lia.
  - intros [Hlo Hhi]. unfold gotime.seconds, gotime.Second.
    rewrite (int64_small interval) by lia. rewrite int64_wrap by lia. lia.
  - destruct (inv_config _ _ HI) as [Hc|Hc]; [by left|right].
    rewrite Hc. fold cfg. by rewrite Hcfg.
Qed.

Lemma setLocker_free x : Locker x = None → setLocker (setLocker x (Some 0)) None = x.
Proof. destruct x. simpl. by intros ->. Qed.

(** [initClient] run alone on a node whose lock is free. *)
Lemma initClient_alone x :
  Locker x = None →
  initClient x
  = Some (match client x with
          | Some c => (x, (Some c, None))
          | None =>
              let '(cfg, mqttConfig) := ToMqttConfig (Config x) in
              let r := mqtt_NewClient (length (constructed x)) initClientTimeout mqttConfig in
              let history := constructed x ++ [mkConstruction initClientTimeout mqttConfig r] in
              (mkMqttClientNode (InstanceId x) (hasInitInstanceFunc x) None cfg (topicTemplate x)
                 (match r with inl c => Some c | inr _ => None end) history,
               match r with inl c => (Some c, None) | inr err => (None, Some err) end)
          end).
Proof.
  intros HL. unfold initClient. cbn [stepCaller]. rewrite HL. cbn [mbind option_bind].
  cbn [stepCaller setLocker client].
  destruct (client x) as [c|] eqn:Hc; cbn [mbind option_bind stepCaller].
  { by rewrite setLocker_free. }
  unfold construct, setLocker.
  cbn [Config constructed InstanceId hasInitInstanceFunc topicTemplate client Locker].
  destruct (ToMqttConfig (Config x)) as [cfg mc]. cbv zeta.
  destruct (mqtt_NewClient _ _ mc) as [c|err];
    cbn [mbind option_bind stepCaller setClient setLocker Config constructed InstanceId
         hasInitInstanceFunc topicTemplate client Locker];
    by rewrite ?Hc.
Qed.

(** [Init] of the MQTT node reports decoding errors only.  With a decoded
    configuration and the lock free it returns nil and sets the topic
    template, whether or not the client could be built: when it is asked to
    build the client at once and the broker cannot be reached, the failed
    construction is in the history, no client is stored, and the error is
    dropped. *)
Theorem MqttClientNode_Init_drops_error x now cfg :
  Locker x = None →
  ∃ x', Init x now (inl cfg) = Returns (x', None)
        ∧ topicTemplate x' = Some (Topic cfg)
        ∧ (∀ err, now = true → poolReference (Server cfg) = "" → client x = None →
             mqtt_NewClient (length (constructed x)) initClientTimeout (ToMqttConfig cfg).2 = inr err →
             client x' = None
             ∧ constructed x'
               = constructed x ++ [mkConstruction initClientTimeout (ToMqttConfig cfg).2 (inr err)]).
Proof.
  intros HL. unfold Init, SharedNode_Init. cbn [Config Server InstanceId hasInitInstanceFunc Locker
    topicTemplate client constructed].
  destruct (decide (poolReference (Server cfg) = "")) as [Hpool|Hpool].
  - destruct now.
    + rewrite initClient_alone by done. cbn [client Config constructed].
      assert (Htopic : Topic (ToMqttConfig cfg).1 = Topic cfg).
      { unfold ToMqttConfig. by destruct (bool_decide _). }
      destruct (client x) as [c|] eqn:Hc.
      { eexists. split; [reflexivity|]. split; [done|]. by intros. }
      destruct (ToMqttConfig cfg) as [cfg' mc] eqn:Hcfg. simpl in Htopic. cbv zeta.
      destruct (mqtt_NewClient _ _ mc) as [c|err] eqn:Hnew.
      * eexists. split; [reflexivity|]. split; [simpl; by rewrite <-Htopic|]. simpl.
        intros err _ _ _ Herr. congruence.
      * eexists. split; [reflexivity|]. split; [simpl; by rewrite <-Htopic|]. simpl.
        intros err' _ _ _ Herr. split; [done|]. congruence.
    + eexists. split; [reflexivity|]. split; [done|]. by intros.
  - eexists. split; [reflexivity|]. split; [done|]. intros. done.
Qed.

(** What [OnMsg] of the MQTT node passes on: always the message as it
    came.  It tells a success exactly when a client was obtained and the
    publication of the message's data, under the topic rendered from the
    template and with the configured QOS, succeeded; otherwise it tells a
    failure with the error of obtaining the client or of publishing. *)
Theorem MqttClientNode_OnMsg_message x ctx msg x' ctx' :
  OnMsg x ctx msg = Returns (x', ctx') →
  ∃ template, topicTemplate x = Some template
    ∧ ((∃ c, ctx' = ctx ++ [Success msg]
             ∧ SharedNode_Get x = Returns (x', (Some c, None))
             ∧ mqtt_Publish c (Execute template msg) (QOS (Config x')) (Data msg) = None)
       ∨ (∃ c err, ctx' = ctx ++ [Failure msg err]
                   ∧ SharedNode_Get x = Returns (x', (Some c, None))
                   ∧ mqtt_Publish c (Execute template msg) (QOS (Config x')) (Data msg) = Some err)
       ∨ (∃ c err, ctx' = ctx ++ [Failure msg err]
                   ∧ SharedNode_Get x = Returns (x', (c, Some err)))).
Proof.
  unfold OnMsg, TellFailure, TellSuccess.
  destruct (topicTemplate x) as [template|]; [|done]. intros Hret. exists template.
  split; [done|].
  destruct (SharedNode_Get x) as [[x1 [[c|] [err|]]]|]; try done.
  - injection Hret as <- <-. right. right. eauto.
  - destruct (mqtt_Publish _ _ _ _) as [err|] eqn:Hpub; injection Hret as <- <-.
    + right. left. eauto.
    + left. eauto.
  - injection Hret as <- <-. right. right. eauto.
Qed.

(** The client is built on demand and then kept.  On a node that builds its
    own client (it refers to no pooled instance, [Init] has run, the lock is
    free): once a client is stored, [OnMsg] leaves the node exactly as it
    is, so no message ever builds a second client; while none is stored,
    every message makes one more attempt, which is added to the history,
    and tells a failure with the error of that attempt when it fails. *)
Theorem MqttClientNode_OnMsg_client x ctx msg :
  InstanceId x = "" → hasInitInstanceFunc x = true → Locker x = None →
  is_Some (topicTemplate x) →
  (∀ c, client x = Some c → ∃ t, OnMsg x ctx msg = Returns (x, ctx ++ [t]))
  ∧ (client x = None →
     ∃ x' t k, OnMsg x ctx msg = Returns (x', ctx ++ [t])
       ∧ constructed x' = constructed x ++ [k]
       ∧ timeout k = initClientTimeout
       ∧ result k = mqtt_NewClient (length (constructed x)) initClientTimeout (usedConfig k)
       ∧ InstanceId x' = "" ∧ hasInitInstanceFunc x' = true ∧ Locker x' = None
       ∧ topicTemplate x' = topicTemplate x
       ∧ match result k with
         | inl c => client x' = Some c
         | inr err => client x' = None ∧ t = Failure msg err
         end).
Proof.
  intros Hid Hinit HL [template Ht]. unfold OnMsg, SharedNode_Get. rewrite Ht.
  destruct (decide (InstanceId x ≠ "")) as [Hne|_]; [done|].
  rewrite Hinit, (initClient_alone x HL). split.
  - intros c ->. destruct (mqtt_Publish _ _ _ _); eauto.
  - intros ->. destruct (ToMqttConfig (Config x)) as [cfg mc].
    cbv zeta. destruct (mqtt_NewClient _ _ mc) as [c|err] eqn:Hnew.
    + destruct (mqtt_Publish _ _ _ _); eexists _, _, _;
        (split; [reflexivity|]); simpl; by repeat split.
    + eexists _, _, _. split; [reflexivity|]. simpl. by repeat split.
Qed.

End mqtt_node.

(** An instance: [Init] with the default configuration connects. *)
Lemma SshNode_Init_nil_error_witness :
  ∃ x', SshNode.Init (H := demo_external.online) SshNode.New
          (inl (SshNode.mkSshConfiguration "127.0.0.1" 22 "root" "password" "ls")) = (x', None)
        ∧ SshNode.client x' = Some 1 ∧ SshNode.cmdTemplate x' = Some "ls".
Proof.
  eexists. split; [reflexivity|].
  destruct (SshNode_Init_nil_error (H := demo_external.online) SshNode.New
              (inl (SshNode.mkSshConfiguration "127.0.0.1" 22 "root" "password" "ls")) _ eq_refl)
    as (cfg & c & _ & _ & _ & _ & _ & _ & _ & Hc & Ht).
  done.
Defined.

(** An instance: a connected node running [ls] is given a configuration
    without a password and the command [rm]; it goes on running [ls]. *)
Lemma SshNode_Init_incomplete_witness :
  let x := SshNode.mkSshNode (SshNode.mkSshConfiguration "127.0.0.1" 22 "root" "password" "ls")
             (Some 1) (Some "ls") in
  let cfg := SshNode.mkSshConfiguration "127.0.0.1" 22 "root" "" "rm" in
  SshNode.Init (H := demo_external.online) x (inl cfg)
  = (SshNode.mkSshNode cfg (Some 1) (Some "ls"), Some SshNode.SshConfigEmptyErr)
  ∧ SshNode.OnMsg (H := demo_external.online) (SshNode.mkSshNode cfg (Some 1) (Some "ls")) []
      demo_external.message
    = Returns [Success (mkRuleMsg "ls" "TEXT" "ACTIVITY_EVENT" ∅)].
Proof.
  intros x cfg.
  destruct (SshNode_Init_incomplete (H := demo_external.online) x cfg 1 "ls" eq_refl eq_refl eq_refl)
    as (_ & _ & _ & _ & Hmsg).
  split; [reflexivity|]. exact (Hmsg ltac:(discriminate) [] demo_external.message).
Defined.

(** An instance: a connected node tells the output of its command. *)
Lemma SshNode_OnMsg_message_witness :
  SshNode.OnMsg (H := demo_external.online)
    (SshNode.mkSshNode (SshNode.mkSshConfiguration "127.0.0.1" 22 "root" "password" "ls")
       (Some 1) (Some "ls")) [] demo_external.message
  = Returns [Success (mkRuleMsg "ls" "TEXT" "ACTIVITY_EVENT" ∅)].
Proof.
  destruct (SshNode_OnMsg_message (H := demo_external.online)
              (SshNode.mkSshNode (SshNode.mkSshConfiguration "127.0.0.1" 22 "root" "password" "ls")
                 (Some 1) (Some "ls")) [] demo_external.message
              [Success (mkRuleMsg "ls" "TEXT" "ACTIVITY_EVENT" ∅)] eq_refl) as [_|_];
    reflexivity.
Defined.

(** An instance: two callers on a network where connecting fails leave two
    constructions, both made with the node's settings. *)
Lemma constructions_use_node_config_witness :
  ∃ s, MqttClientNode.runSchedule (H := demo_external.offline) [0; 0; 0; 0; 0; 1; 1; 1; 1; 1]
         (MqttClientNode.launch demo_external.mqttNode 2) = Some s
       ∧ length (MqttClientNode.constructed (MqttClientNode.node s)) = 2
       ∧ ∀ k, k ∈ MqttClientNode.constructed (MqttClientNode.node s) →
           MqttClientNode.usedConfig k = mkMqttConfig "127.0.0.1:1883" "" "" 0 60000000000 false "".
Proof.
  eexists. split; [vm_compute; reflexivity|]. split; [reflexivity|].
  intros k Hk.
  edestruct (constructions_use_node_config (H := demo_external.offline) demo_external.mqttNode 2)
    as [(new & Hnew & Hks) _].
  { split; [reflexivity|]. split; constructor. }
  { apply (external_spec.runSchedule_steps (H := demo_external.offline)
             [0; 0; 0; 0; 0; 1; 1; 1; 1; 1]). vm_compute. reflexivity. }
  simpl in Hnew. rewrite Hnew in Hk. exact (Hks k Hk).
Defined.

(** An instance: asked to connect at once on a network where connecting
    fails, [Init] returns nil all the same. *)
Lemma MqttClientNode_Init_drops_error_witness :
  ∃ x', MqttClientNode.Init (H := demo_external.offline) MqttClientNode.New true
          (inl (MqttClientNode.Config MqttClientNode.New)) = Returns (x', None)
        ∧ MqttClientNode.client x' = None
        ∧ length (MqttClientNode.constructed x') = 1.
Proof.
  destruct (MqttClientNode_Init_drops_error (H := demo_external.offline) MqttClientNode.New true
              (MqttClientNode.Config MqttClientNode.New) eq_refl) as (x' & Hinit & _ & Hdrop).
  exists x'. split; [done|].
  destruct (Hdrop "context deadline exceeded" eq_refl eq_refl eq_refl eq_refl) as [-> ->]. done.
Defined.

(** An instance: on a network where publishing works the message is told
    as it came. *)
Lemma MqttClientNode_OnMsg_message_witness :
  ∃ x', MqttClientNode.OnMsg (H := demo_external.online) demo_external.mqttNode []
          demo_external.message = Returns (x', [Success demo_external.message])
        ∧ MqttClientNode.SharedNode_Get (H := demo_external.online) demo_external.mqttNode
          = Returns (x', (Some 0, None)).
Proof.
  eexists. split; [vm_compute; reflexivity|].
  edestruct (MqttClientNode_OnMsg_message (H := demo_external.online) demo_external.mqttNode []
               demo_external.message) as (template & _ & [(c & _ & Hget & _)|[Hf|Hf]]).
  { vm_compute. reflexivity. }
  - vm_compute in Hget. injection Hget as <-. vm_compute. reflexivity.
  - destruct Hf as (c & err & Hf & _). vm_compute in Hf. discriminate Hf.
  - destruct Hf as (c & err & Hf & _). vm_compute in Hf. discriminate Hf.
Defined.

(** An instance: the first message builds the client. *)
Lemma MqttClientNode_OnMsg_client_witness :
  ∃ x' t, MqttClientNode.OnMsg (H := demo_external.online) demo_external.mqttNode []
            demo_external.message = Returns (x', [t])
          ∧ MqttClientNode.client x' = Some 0.
Proof.
  destruct (MqttClientNode_OnMsg_client (H := demo_external.online) demo_external.mqttNode []
              demo_external.message eq_refl eq_refl eq_refl ltac:(by eexists)) as [_ Hbuild].
  destruct (Hbuild eq_refl) as (x' & t & k & Hrun & Hk & _ & Hres & _ & _ & _ & _ & Hclient).
  exists x', t. split; [done|]. rewrite Hres in Hclient. exact Hclient.
Defined.

End external_props.

(* ===================================================================== *)
(** * Properties of the REST endpoint                                    *)
(* ===================================================================== *)

Module rest_spec.
Import engine endpoint rest.

Section rest_methods.
Context `{RestWorld}.

(** ** Running calls *)

Lemma bind_Ok {A B} (m : M A) (k : A → M B) w a w' :
  m w = Ok a w' → bind m k w = k a w'.
Proof. unfold bind. by intros ->. Qed.

Lemma bind_Panic {A B} (m : M A) (k : A → M B) w msg w' :
  m w = Panic msg w' → bind m k w = Panic msg w'.
Proof. unfold bind. by intros ->. Qed.

Lemma bind_ret {A B} (a : A) (k : A → M B) w : bind (ret a) k w = k a w.
Proof. done. Qed.

Lemma getRest_Ok a r w : endpoints w !! a = Some r → getRest a w = Ok r w.
Proof. unfold getRest. by intros ->. Qed.

Lemma modifyRest_Ok a f r w :
  endpoints w !! a = Some r → modifyRest a f w = Ok tt (putRest a (f r) w).
Proof. unfold modifyRest. by intros ->. Qed.

Lemma getRouter_Ok p ro w : routers w !! p = Some ro → getRouter p w = Ok ro w.
Proof. unfold getRouter. by intros ->. Qed.

Lemma modifyRouter_Ok p f ro w :
  routers w !! p = Some ro → modifyRouter p f w = Ok tt (putRouter p (f ro) w).
Proof. unfold modifyRouter. by intros ->. Qed.

Lemma putRest_lookup a r w : endpoints (putRest a r w) !! a = Some r.
Proof. apply lookup_insert_eq. Qed.

Lemma putRest_lookup_ne a b r w : a ≠ b → endpoints (putRest a r w) !! b = endpoints w !! b.
Proof. intros. by apply lookup_insert_ne. Qed.

Lemma putRest_putRest a r r' w : putRest a r (putRest a r' w) = putRest a r w.
Proof. unfold putRest. simpl. by rewrite insert_insert_eq. Qed.

Lemma putRest_id a r w : endpoints w !! a = Some r → putRest a r w = w.
Proof. intros Hr. unfold putRest. rewrite insert_id by done. by destruct w. Qed.

Lemma putRouter_lookup p ro w : routers (putRouter p ro w) !! p = Some ro.
Proof. apply lookup_insert_eq. Qed.

Lemma putRouter_putRouter p ro ro' w : putRouter p ro (putRouter p ro' w) = putRouter p ro w.
Proof. unfold putRouter. simpl. by rewrite insert_insert_eq. Qed.

Lemma GetId_Ok p ro w : routers w !! p = Some ro → GetId p w = Ok (id ro) w.
Proof. intros Hro. unfold GetId. by rewrite (bind_Ok _ _ _ _ _ (getRouter_Ok _ _ _ Hro)). Qed.

Lemma GetParams_Ok p ro w : routers w !! p = Some ro → GetParams p w = Ok (params ro) w.
Proof. intros Hro. unfold GetParams. by rewrite (bind_Ok _ _ _ _ _ (getRouter_Ok _ _ _ Hro)). Qed.

Lemma IsDisable_Ok p ro w : routers w !! p = Some ro → IsDisable p w = Ok (disable ro) w.
Proof. intros Hro. unfold IsDisable. by rewrite (bind_Ok _ _ _ _ _ (getRouter_Ok _ _ _ Hro)). Qed.

Lemma FromToString_Ok p ro w :
  routers w !! p = Some ro →
  FromToString p w = Ok (match from ro with Some f => fromPath f | None => "" end) w.
Proof. intros Hro. unfold FromToString. by rewrite (bind_Ok _ _ _ _ _ (getRouter_Ok _ _ _ Hro)). Qed.

Lemma SetId_Ok p v ro w :
  routers w !! p = Some ro →
  SetId p v w = Ok tt (putRouter p (mkRouter v (params ro) (disable ro) (from ro)) w).
Proof. intros Hro. unfold SetId. by rewrite (modifyRouter_Ok _ _ _ _ Hro). Qed.

Lemma SetParams_Ok p v ro w :
  routers w !! p = Some ro →
  SetParams p v w = Ok tt (putRouter p (mkRouter (id ro) v (disable ro) (from ro)) w).
Proof. intros Hro. unfold SetParams. by rewrite (modifyRouter_Ok _ _ _ _ Hro). Qed.

Lemma Disable_Ok p v ro w :
  routers w !! p = Some ro →
  Disable p v w = Ok tt (putRouter p (mkRouter (id ro) (params ro) v (from ro)) w).
Proof. intros Hro. unfold Disable. by rewrite (modifyRouter_Ok _ _ _ _ Hro). Qed.

Lemma Printf_Ok a r line w :
  endpoints w !! a = Some r → Printf a line w = Ok tt (logged (Logger r) line w).
Proof.
  intros Hr. unfold Printf. rewrite (bind_Ok _ _ _ _ _ (getRest_Ok _ _ _ Hr)).
  unfold logged. by destruct (Logger r).
Qed.

Lemma logged_endpoints b line w : endpoints (logged b line w) = endpoints w.
Proof. by destruct b. Qed.

Lemma logged_routers b line w : routers (logged b line w) = routers w.
Proof. by destruct b. Qed.

Lemma logged_pool b line w : pool (logged b line w) = pool w.
Proof. by destruct b. Qed.

(** ** A self-hosted endpoint and its surface *)

Lemma inited_selfHosted r : selfHosted r → selfHosted (inited r) ∧ SharedNode_IsInit (inited r) = true.
Proof.
  intros [Hid Hor]. unfold inited, SharedNode_IsInit.
  case_bool_decide as Hn.
  - split; [by split|]. by apply bool_decide_eq_true.
  - destruct r; simpl in *. split; [split; [done|by left]|done].
Qed.

Lemma checkIsInitSharedNode_self a r w :
  endpoints w !! a = Some r → selfHosted r →
  checkIsInitSharedNode a w = Ok None (putRest a (inited r) w).
Proof.
  intros Hr [Hid Hor]. unfold checkIsInitSharedNode, inited.
  rewrite (bind_Ok _ _ _ _ _ (getRest_Ok _ _ _ Hr)).
  destruct (SharedNode_IsInit r) eqn:Hinit.
  - by rewrite putRest_id.
  - unfold SharedNode_Init.
    rewrite (bind_Ok _ _ _ _ _ (modifyRest_Ok _ _ _ _ Hr)).
    destruct Hor as [Hn|Hp].
    + unfold SharedNode_IsInit in Hinit. by rewrite bool_decide_eq_true_2 in Hinit.
    + rewrite Hp. by destruct (decide _).
Qed.

Lemma SharedNode_Get_self fuel a r s w :
  endpoints w !! a = Some r → InstanceId r = "" → SharedNode_IsInit r = true →
  router r = Some s →
  SharedNode_Get (S fuel) a w = Ok (inl a) w.
Proof.
  intros Hr Hid Hinit Hs. cbn [SharedNode_Get].
  rewrite (bind_Ok _ _ _ _ _ (getRest_Ok _ _ _ Hr)), Hid.
  destruct (decide _) as [|_]; [done|]. by rewrite Hinit, Hs.
Qed.

Lemma Router_self fuel a r s w :
  endpoints w !! a = Some r → selfHosted r → router r = Some s →
  Router (S (S fuel)) a w = Ok a (putRest a (inited r) w).
Proof.
  intros Hr Hself Hs. cbn [Router].
  rewrite (bind_Ok _ _ _ _ _ (checkIsInitSharedNode_self _ _ _ Hr Hself)).
  destruct (inited_selfHosted r Hself) as [[Hid2 _] Hinit2].
  assert (Hs2 : router (inited r) = Some s).
  { unfold inited. by destruct (SharedNode_IsInit r). }
  by rewrite (bind_Ok _ _ _ _ _ (SharedNode_Get_self _ _ _ _ _ (putRest_lookup _ _ _) Hid2 Hinit2 Hs2)).
Qed.

Lemma setGlobalOPTIONS_Ok a r s w :
  endpoints w !! a = Some r → router r = Some s →
  setGlobalOPTIONS a w = Ok tt (putRest a (setRouter (Some (mkSurface (handles s) true)) r) w).
Proof.
  intros Hr Hs. unfold setGlobalOPTIONS.
  rewrite (bind_Ok _ _ _ _ _ (getRest_Ok _ _ _ Hr)), Hs.
  by rewrite (modifyRest_Ok _ _ _ _ Hr).
Qed.

Lemma newRouter_self fuel a r w :
  endpoints w !! a = Some r → selfHosted r →
  newRouter (S (S (S fuel))) a w = Ok tt (putRest a (freshRouter r) w).
Proof.
  intros Hr Hself. cbn [newRouter]. unfold freshRouter.
  rewrite (bind_Ok _ _ _ _ _ (modifyRest_Ok _ _ _ _ Hr)).
  rewrite (bind_Ok _ _ _ _ _ (getRest_Ok _ _ _ (putRest_lookup _ _ _))).
  replace (Config' (setRouter (Some newSurface) r)) with (Config' r) by done.
  destruct (AllowCors (Config' r)); [|done].
  set (r1 := setRouter (Some newSurface) r).
  assert (Hself1 : selfHosted r1) by (by destruct Hself).
  assert (Hs2 : router (inited r1) = Some newSurface).
  { unfold inited. by destruct (SharedNode_IsInit r1). }
  rewrite (bind_Ok _ _ _ _ _ (Router_self fuel _ _ _ _ (putRest_lookup _ _ _) Hself1 eq_refl)).
  rewrite putRest_putRest.
  rewrite (bind_Ok _ _ _ _ _ (setGlobalOPTIONS_Ok _ _ _ _ (putRest_lookup _ _ _) Hs2)).
  rewrite putRest_putRest.
  unfold AddInterceptors. rewrite (modifyRest_Ok _ _ _ _ (putRest_lookup _ _ _)).
  by rewrite putRest_putRest.
Qed.

Lemma inited_fields r :
  InstanceId (inited r) = InstanceId r ∧ Config' (inited r) = Config' r
  ∧ Logger (inited r) = Logger r ∧ HttpServer (inited r) = HttpServer r
  ∧ router (inited r) = router r ∧ started (inited r) = started r
  ∧ RouterStorage (inited r) = RouterStorage r.
Proof. unfold inited. by destruct (SharedNode_IsInit r). Qed.

Lemma freshRouter_fields r :
  InstanceId (freshRouter r) = InstanceId r ∧ Config' (freshRouter r) = Config' r
  ∧ Logger (freshRouter r) = Logger r ∧ HttpServer (freshRouter r) = HttpServer r
  ∧ router (freshRouter r) = Some (mkSurface [] (AllowCors (Config' r)))
  ∧ started (freshRouter r) = started r
  ∧ RouterStorage (freshRouter r) = RouterStorage r.
Proof.
  unfold freshRouter, inited.
  destruct (AllowCors (Config' r)), (SharedNode_IsInit (setRouter (Some newSurface) r));
    by destruct r.
Qed.

Lemma freshRouter_selfHosted r : selfHosted r → selfHosted (freshRouter r).
Proof.
  intros Hself. unfold freshRouter.
  assert (Hself1 : selfHosted (setRouter (Some newSurface) r)) by (by destruct Hself).
  destruct (AllowCors (Config' r)); [|done].
  destruct (inited_selfHosted _ Hself1) as [[Hid Hor] _]. by split.
Qed.

Lemma ensureRouter_fields r :
  InstanceId (ensureRouter r) = InstanceId r ∧ Config' (ensureRouter r) = Config' r
  ∧ Logger (ensureRouter r) = Logger r ∧ HttpServer (ensureRouter r) = HttpServer r
  ∧ is_Some (router (ensureRouter r))
  ∧ started (ensureRouter r) = started r
  ∧ RouterStorage (ensureRouter r) = RouterStorage r.
Proof.
  unfold ensureRouter. destruct (router r) eqn:Hs.
  - rewrite Hs. naive_solver.
  - destruct (freshRouter_fields r) as (? & ? & ? & ? & -> & ? & ?). naive_solver.
Qed.

Lemma ensureRouter_selfHosted r : selfHosted r → selfHosted (ensureRouter r).
Proof. unfold ensureRouter. destruct (router r); [done|]. apply freshRouter_selfHosted. Qed.

(** The router is there after [ensureRouter], whatever the fuel above three. *)
Lemma ensure_router_run fuel a r w :
  endpoints w !! a = Some r → selfHosted r →
  (match router r with
   | None => newRouter (S (S (S fuel))) a
   | Some _ => ret tt
   end) w = Ok tt (putRest a (ensureRouter r) w).
Proof.
  intros Hr Hself. unfold ensureRouter. destruct (router r).
  - by rewrite putRest_id.
  - by apply newRouter_self.
Qed.

(** ** Registering a route *)

Lemma upperChar_idem c : gostrings.upperChar (gostrings.upperChar c) = gostrings.upperChar c.
Proof. by destruct c as [[] [] [] [] [] [] [] []]. Qed.

Lemma ToUpper_idem s : gostrings.ToUpper (gostrings.ToUpper s) = gostrings.ToUpper s.
Proof. induction s as [|c s IH]; simpl; [done|]. by rewrite upperChar_idem, IH. Qed.

Lemma storeRoute_Ok a r item ro method w :
  endpoints w !! a = Some r → routers w !! item = Some ro →
  storeRoute a method item w
  = Ok (routePath ro) (putRest a (withRoute method item ro r) (putRouter item (registered method ro) w)).
Proof.
  intros Hr Hro. unfold storeRoute.
  rewrite (bind_Ok _ _ _ _ _ (FromToString_Ok _ _ _ Hro)).
  rewrite (bind_Ok _ _ _ _ _ (GetId_Ok _ _ _ Hro)).
  unfold registered, withRoute, registeredId, routePath.
  destruct (decide (id ro = "")) as [Hid|Hid].
  - rewrite (bind_Ok _ _ _ _ _ (SetId_Ok _ _ _ _ Hro)).
    rewrite (bind_Ok _ _ _ _ _ (SetParams_Ok _ _ _ _ (putRouter_lookup _ _ _))).
    rewrite putRouter_putRouter.
    rewrite (bind_Ok _ _ _ _ _ (GetId_Ok _ _ _ (putRouter_lookup _ _ _))).
    by rewrite (bind_Ok _ _ _ _ _ (modifyRest_Ok a _ r (putRouter _ _ w) Hr)).
  - rewrite bind_ret.
    rewrite (bind_Ok _ _ _ _ _ (SetParams_Ok _ _ _ _ Hro)).
    rewrite (bind_Ok _ _ _ _ _ (GetId_Ok _ _ _ (putRouter_lookup _ _ _))).
    by rewrite (bind_Ok _ _ _ _ _ (modifyRest_Ok a _ r (putRouter _ _ w) Hr)).
Qed.

Lemma putRouter_putRest p ro a r w :
  putRouter p ro (putRest a r w) = putRest a r (putRouter p ro w).
Proof. done. Qed.

Lemma Handle'_run a r s method path item isWait w :
  endpoints w !! a = Some r → router r = Some s →
  Handle' a method path item isWait w
  = match httprouter_Handle (handles s) method path with
    | Some msg => Panic msg w
    | None => Ok tt (putRest a (withHandle (mkHandle method path item isWait) r) w)
    end.
Proof.
  intros Hr Hs. unfold Handle'. rewrite (bind_Ok _ _ _ _ _ (getRest_Ok _ _ _ Hr)), Hs.
  destruct (httprouter_Handle _ _ _); [done|].
  rewrite (modifyRest_Ok _ _ _ _ Hr). unfold withHandle, surfaceOf. by rewrite Hs.
Qed.

(** [addRouter] with one route on a self-hosted endpoint. *)
Lemma addRouter_self fuel a r item ro method w :
  endpoints w !! a = Some r → selfHosted r → routers w !! item = Some ro →
  let M := gostrings.ToUpper method in
  let r2 := ensureRouter (withRoute M item ro r) in
  let h := handleOf M item ro in
  addRouter (S (S (S (S fuel)))) a method [item] w
  = match httprouter_Handle (handles (surfaceOf r2)) (hMethod h) (hPath h) with
    | Some msg => Panic msg (putRest a r2 (putRouter item (registered M ro) w))
    | None => Ok None (putRest a (withHandle h r2) (putRouter item (registered M ro) w))
    end.
Proof.
  intros Hr Hself Hro M r2 h. cbn [addRouter]. fold M.
  rewrite (bind_Ok _ _ _ _ _ (getRest_Ok _ _ _ Hr)).
  set (r0 := match RouterStorage r with None => setRouterStorage (Some ∅) r | Some _ => r end).
  assert (Hpre : (match RouterStorage r with
                  | None => modifyRest a (setRouterStorage (Some ∅))
                  | Some _ => ret tt
                  end) w = Ok tt (putRest a r0 w)).
  { unfold r0. destruct (RouterStorage r).
    - by rewrite putRest_id.
    - by apply modifyRest_Ok. }
  rewrite (bind_Ok _ _ _ _ _ Hpre).
  rewrite (bind_Ok _ _ _ _ _ (storeRoute_Ok a r0 item ro M _ (putRest_lookup _ _ _) Hro)).
  rewrite putRouter_putRest, putRest_putRest.
  assert (Hwith : withRoute M item ro r0 = withRoute M item ro r).
  { unfold r0, withRoute. destruct r as [? ? ? ? ? ? ? [st|] ?]; done. }
  rewrite Hwith. set (r1 := withRoute M item ro r).
  assert (Hself1 : selfHosted r1) by (by destruct Hself).
  rewrite (bind_Ok _ _ _ _ _ (getRest_Ok _ _ _ (putRest_lookup _ _ _))).
  destruct (decide (InstanceId r1 ≠ "")) as [Hne|_]; [by destruct Hself1|].
  rewrite (bind_Ok _ _ _ _ _ (ensure_router_run _ _ _ _ (putRest_lookup _ _ _) Hself1)).
  rewrite putRest_putRest. fold r2.
  set (W := putRest a r2 (putRouter item (registered M ro) w)).
  assert (HroW : routers W !! item = Some (registered M ro)) by apply lookup_insert_eq.
  rewrite (bind_Ok _ _ _ _ _ (getRouter_Ok _ _ _ HroW)).
  destruct (ensureRouter_fields r1) as (_ & _ & _ & _ & [s Hs] & _).
  change (router r2 = Some s) in Hs.
  pose proof (Handle'_run a r2 s (hMethod h) (hPath h) item (hWait h) W (putRest_lookup _ _ _) Hs)
    as Hrun.
  change (Handle' a M (convertPathParams (routePath ro)) item _)
    with (Handle' a (hMethod h) (hPath h) item (hWait h)).
  unfold surfaceOf at 1. rewrite Hs. change (default newSurface (Some s)) with s.
  destruct (httprouter_Handle (handles s) (hMethod h) (hPath h)) as [msg|].
  - by rewrite (bind_Panic _ _ _ _ _ Hrun).
  - rewrite (bind_Ok _ _ _ _ _ Hrun). unfold W. by rewrite putRest_putRest.
Qed.

(** [AddRouter] on a self-hosted endpoint: the panic of a refused
    registration is recovered into the error. *)
Lemma AddRouter_self fuel a r item ro param rest w :
  endpoints w !! a = Some r → selfHosted r → routers w !! item = Some ro →
  let M := gostrings.ToUpper param in
  let r2 := ensureRouter (withRoute M item ro r) in
  let h := handleOf M item ro in
  AddRouter (S (S (S (S fuel)))) a (Some item) (param :: rest) w
  = match httprouter_Handle (handles (surfaceOf r2)) (hMethod h) (hPath h) with
    | Some msg => Ok ("", Some ("addRouter err :" +:+ msg))
                     (putRest a r2 (putRouter item (registered M ro) w))
    | None => Ok (registeredId M ro, None)
                 (putRest a (withHandle h r2) (putRouter item (registered M ro) w))
    end.
Proof.
  intros Hr Hself Hro M r2 h. unfold AddRouter, recover.
  pose proof (addRouter_self fuel a r item ro (gostrings.ToUpper param) w Hr Hself Hro) as Hadd.
  cbv zeta in Hadd. rewrite ToUpper_idem in Hadd. fold M in Hadd. fold r2 h in Hadd.
  destruct (httprouter_Handle (handles (surfaceOf r2)) (hMethod h) (hPath h)) as [msg|].
  - by rewrite (bind_Panic _ _ _ _ _ Hadd).
  - rewrite (bind_Ok _ _ _ _ _ Hadd).
    set (W := putRest a (withHandle h r2) (putRouter item (registered M ro) w)).
    assert (HroW : routers W !! item = Some (registered M ro)) by apply lookup_insert_eq.
    by rewrite (bind_Ok _ _ _ _ _ (GetId_Ok _ _ _ HroW)).
Qed.

(** C9: registering a route gives it the id [METHOD:path], the method in
    upper case and the path trimmed, exactly when it has no id yet, and
    leaves an id it has as it is; the route is stored under that id, in
    place of whatever the storage held there (the other entries stay, and
    when the id was stored already the storage keeps its size).  This is
    what the first half of the loop body does on every endpoint, and what
    [addRouter] and [AddRouter] leave on a self-hosted endpoint whether the
    HTTP router then accepts the route or refuses it. *)
Theorem route_registration_id a r item ro method w :
  endpoints w !! a = Some r → routers w !! item = Some ro →
  let path := gostrings.TrimSpace (match from ro with Some f => fromPath f | None => "" end) in
  let idFor := λ M, if decide (id ro = "") then M +:+ ":" +:+ path else id ro in
  let storedAs := λ M (w' : World),
    routers w' !! item = Some (mkRouter (idFor M) [M] (disable ro) (from ro))
    ∧ ∃ r', endpoints w' !! a = Some r'
        ∧ RouterStorage r' = Some (<[idFor M := item]> (default ∅ (RouterStorage r)))
        ∧ (∀ key, key ≠ idFor M →
             default ∅ (RouterStorage r') !! key = default ∅ (RouterStorage r) !! key)
        ∧ (is_Some (default ∅ (RouterStorage r) !! idFor M) →
             size (default ∅ (RouterStorage r')) = size (default ∅ (RouterStorage r))) in
  (∃ w', storeRoute a method item w = Ok path w' ∧ storedAs method w')
  ∧ (∀ fuel, selfHosted r →
       let M := gostrings.ToUpper method in
       ∃ w', (addRouter (4 + fuel) a method [item] w = Ok None w'
              ∨ ∃ msg, addRouter (4 + fuel) a method [item] w = Panic msg w')
             ∧ storedAs M w'
             ∧ ∃ res, AddRouter (4 + fuel) a (Some item) [method] w = Ok res w'
                      ∧ (res = (idFor M, None) ∨ ∃ err, res = ("", Some err))).
Proof.
  intros Hr Hro path idFor storedAs.
  assert (Hstored : ∀ M r' w',
            RouterStorage r' = RouterStorage (withRoute M item ro r) →
            endpoints w' !! a = Some r' →
            routers w' !! item = Some (registered M ro) → storedAs M w').
  { intros M r' w' Hst Hr' Hro'. split; [done|]. exists r'. split; [done|].
    rewrite Hst. split; [done|]. split.
    - intros key Hkey. simpl. by rewrite lookup_insert_ne.
    - simpl. intros Hp. by apply map_size_insert_Some. }
  split.
  - eexists. split; [by apply storeRoute_Ok|].
    apply (Hstored method (withRoute method item ro r)); [done|apply putRest_lookup|].
    apply lookup_insert_eq.
  - intros fuel Hself M.
    pose proof (addRouter_self fuel a r item ro method w Hr Hself Hro) as Hadd.
    pose proof (AddRouter_self fuel a r item ro method [] w Hr Hself Hro) as HAdd.
    cbv zeta in Hadd, HAdd. fold M in Hadd, HAdd.
    set (r2 := ensureRouter (withRoute M item ro r)) in *.
    assert (Hst2 : RouterStorage r2 = RouterStorage (withRoute M item ro r)).
    { by destruct (ensureRouter_fields (withRoute M item ro r)) as (_ & _ & _ & _ & _ & _ & ?). }
    destruct (httprouter_Handle _ _ _) as [msg|].
    + eexists. split; [right; by exists msg|]. split.
      * apply (Hstored M r2); [done|apply putRest_lookup|apply lookup_insert_eq].
      * eexists. split; [exact HAdd|]. right. by eexists.
    + eexists. split; [by left|]. split.
      * apply (Hstored M (withHandle (handleOf M item ro) r2));
          [done|apply putRest_lookup|apply lookup_insert_eq].
      * eexists. split; [exact HAdd|]. by left.
Qed.

(** ** Restarting *)

Lemma SharedNode_Get_ensure fuel a r w :
  endpoints w !! a = Some r → selfHosted r → SharedNode_IsInit r = true →
  SharedNode_Get (S (S (S (S fuel)))) a w = Ok (inl a) (putRest a (ensureRouter r) w).
Proof.
  intros Hr Hself Hinit. cbn [SharedNode_Get].
  rewrite (bind_Ok _ _ _ _ _ (getRest_Ok _ _ _ Hr)).
  destruct (decide (InstanceId r ≠ "")) as [Hne|_]; [by destruct Hself|].
  rewrite Hinit.
  by rewrite (bind_Ok _ _ _ _ _ (ensure_router_run _ _ _ _ Hr Hself)).
Qed.

Lemma startServer_run a r w :
  endpoints w !! a = Some r → started r = false →
  let r2 := setHttpServer (Some (Server (Config' r))) r in
  startServer a w
  = match net_Listen (listenAddr r2) with
    | Some err => Ok (Some err) (putRest a r2 w)
    | None => Ok None (logged (Logger r) (startLine r) (putRest a (setStarted true r2) w))
    end.
Proof.
  intros Hr Hst r2. unfold startServer.
  rewrite (bind_Ok _ _ _ _ _ (getRest_Ok _ _ _ Hr)), Hst.
  rewrite (bind_Ok _ _ _ _ _ (modifyRest_Ok _ _ _ _ Hr)).
  rewrite (bind_Ok _ _ _ _ _ (getRest_Ok _ _ _ (putRest_lookup _ _ _))).
  fold r2. destruct (net_Listen (listenAddr r2)); [done|].
  rewrite (bind_Ok _ _ _ _ _ (modifyRest_Ok _ _ _ _ (putRest_lookup _ _ _))).
  rewrite putRest_putRest. unfold startLine.
  replace (Config' r2) with (Config' r) by done.
  destruct (_ && _);
    by rewrite (bind_Ok _ _ _ _ _ (Printf_Ok _ _ _ _ (putRest_lookup _ _ _))).
Qed.

Lemma Start_self fuel a r w :
  endpoints w !! a = Some r → selfHosted r → started r = false →
  Start (S (S (S (S fuel)))) a w
  = match net_Listen (listenAddr (withServer r)) with
    | Some err => Ok (Some err) (putRest a (withServer r) w)
    | None => Ok None (logged (Logger r) (startLine r) (putRest a (setStarted true (withServer r)) w))
    end.
Proof.
  intros Hr Hself Hst. unfold Start.
  rewrite (bind_Ok _ _ _ _ _ (checkIsInitSharedNode_self _ _ _ Hr Hself)).
  destruct (inited_selfHosted r Hself) as [Hself1 Hinit1].
  rewrite (bind_Ok _ _ _ _ _ (SharedNode_Get_ensure fuel _ _ _ (putRest_lookup _ _ _) Hself1 Hinit1)).
  rewrite putRest_putRest.
  destruct (inited_fields r) as (_ & Hc1 & Hl1 & _ & _ & Hst1 & _).
  destruct (ensureRouter_fields (inited r)) as (_ & Hc2 & Hl2 & _ & _ & Hst2 & _).
  rewrite (startServer_run a (ensureRouter (inited r)) _ (putRest_lookup _ _ _)) by congruence.
  cbv zeta. unfold withServer, startLine. rewrite !Hc2, !Hc1, Hl2, Hl1.
  destruct (net_Listen _); by rewrite ?putRest_putRest.
Qed.

Lemma putRouter_id p ro w : routers w !! p = Some ro → putRouter p ro w = w.
Proof. intros Hro. unfold putRouter. rewrite insert_id by done. by destruct w. Qed.

Lemma HasRouter_Ok a r w :
  endpoints w !! a = Some r →
  ∀ routerId, HasRouter a routerId w
  = Ok (match RouterStorage r with
        | Some storage => bool_decide (is_Some (storage !! routerId))
        | None => false
        end) w.
Proof. intros Hr routerId. unfold HasRouter. by rewrite (bind_Ok _ _ _ _ _ (getRest_Ok _ _ _ Hr)). Qed.

(** One round of the replay loop on a self-hosted endpoint whose router is
    there: the route is registered again under its id with its replay
    method; if the HTTP router refuses it the error goes to [Printf]. *)
Lemma replay_round fuel a r s m key0 p ro l w :
  endpoints w !! a = Some r → selfHosted r → router r = Some s → RouterStorage r = Some m →
  routers w !! p = Some ro → id ro ≠ "" → m !! id ro = None →
  let M := replayMethod ro in
  let ro' := mkRouter (id ro) [M] (disable ro) (from ro) in
  let h := handleOf M p ro in
  let rS := setRouterStorage (Some (<[id ro := p]> m)) r in
  replay (S (S (S (S fuel)))) a ((key0, p) :: l) w
  = match httprouter_Handle (handles s) (hMethod h) (hPath h) with
    | Some msg =>
        replay (S (S (S (S fuel)))) a l
          (logged (Logger r) (replayErrorLine ro msg) (putRest a rS (putRouter p ro' w)))
    | None => replay (S (S (S (S fuel)))) a l (putRest a (withHandle h rS) (putRouter p ro' w))
    end.
Proof.
  intros Hr Hself Hs Hm Hro Hid Hfree M ro' h rS. cbn [replay].
  rewrite (bind_Ok _ _ _ _ _ (GetParams_Ok _ _ _ Hro)).
  set (ro1 := mkRouter (id ro) (match params ro with [] => ["GET"] | _ => params ro end)
                       (disable ro) (from ro)).
  assert (Hpre : (if decide (length (params ro) = 0) then SetParams p ["GET"] else ret tt) w
                 = Ok tt (putRouter p ro1 w)).
  { unfold ro1. destruct (params ro) as [|param rest] eqn:Hparams; simpl.
    - by rewrite (SetParams_Ok _ _ _ _ Hro).
    - rewrite <-Hparams. unfold ret. f_equal. symmetry. apply putRouter_id.
      rewrite Hro. by destruct ro. }
  rewrite (bind_Ok _ _ _ _ _ Hpre).
  set (w1 := putRouter p ro1 w).
  assert (Hro1 : routers w1 !! p = Some ro1) by apply lookup_insert_eq.
  assert (Hr1 : endpoints w1 !! a = Some r) by done.
  rewrite (bind_Ok _ _ _ _ _ (GetId_Ok _ _ _ Hro1)).
  rewrite (bind_Ok _ _ _ _ _ (HasRouter_Ok _ _ _ Hr1 _)).
  rewrite Hm. change (id ro1) with (id ro). rewrite Hfree.
  rewrite bool_decide_eq_false_2 by (by intros [? ?]). cbn [negb].
  assert (∃ param rest, params ro1 = param :: rest ∧ gostrings.ToUpper param = M)
    as (param & rest & Hparams & HM).
  { unfold ro1, M, replayMethod. simpl. destruct (params ro) as [|param rest]; eauto. }
  pose proof (AddRouter_self fuel a r p ro1 param rest w1 Hr1 Hself Hro1) as HAdd.
  cbv zeta in HAdd. rewrite HM in HAdd.
  assert (Hreg : registeredId M ro1 = id ro).
  { unfold registeredId. change (id ro1) with (id ro).
    destruct (decide (id ro = "")) as [Heq|]; [by destruct Hid|done]. }
  assert (Hwith : ensureRouter (withRoute M p ro1 r) = rS).
  { unfold ensureRouter, withRoute. rewrite Hreg, Hm.
    change (router (setRouterStorage _ r)) with (router r). by rewrite Hs. }
  rewrite Hwith in HAdd.
  assert (Hro' : registered M ro1 = ro') by (unfold registered; by rewrite Hreg).
  rewrite Hro' in HAdd. unfold w1 in HAdd. rewrite putRouter_putRouter in HAdd.
  change (handleOf M p ro1) with h in HAdd.
  replace (surfaceOf rS) with s in HAdd by (unfold surfaceOf; simpl; by rewrite Hs).
  destruct (httprouter_Handle (handles s) (hMethod h) (hPath h)) as [msg|].
  - set (W := putRest a rS (putRouter p ro' w)) in *.
    assert (HroW : routers W !! p = Some ro') by apply lookup_insert_eq.
    erewrite (bind_Ok _ _ w1 tt); [reflexivity|].
    rewrite (bind_Ok _ _ _ _ _ (GetParams_Ok _ _ _ Hro1)), Hparams.
    rewrite (bind_Ok _ _ _ _ _ HAdd). cbn [snd].
    rewrite (bind_Ok _ _ _ _ _ (FromToString_Ok _ _ _ HroW)).
    by rewrite (Printf_Ok a rS _ W (putRest_lookup _ _ _)).
  - erewrite (bind_Ok _ _ w1 tt); [reflexivity|].
    rewrite (bind_Ok _ _ _ _ _ (GetParams_Ok _ _ _ Hro1)), Hparams.
    by rewrite (bind_Ok _ _ _ _ _ HAdd).
Qed.

(** What one round leaves, whichever way the registration went. *)
Lemma replay_round_facts fuel a r s m key0 p ro l w :
  endpoints w !! a = Some r → selfHosted r → router r = Some s → RouterStorage r = Some m →
  routers w !! p = Some ro → id ro ≠ "" → m !! id ro = None →
  let h := handleOf (replayMethod ro) p ro in
  ∃ W1 r1 s1,
    replay (S (S (S (S fuel)))) a ((key0, p) :: l) w = replay (S (S (S (S fuel)))) a l W1
    ∧ endpoints W1 !! a = Some r1 ∧ selfHosted r1 ∧ router r1 = Some s1
    ∧ Logger r1 = Logger r ∧ started r1 = started r ∧ GlobalOPTIONS s1 = GlobalOPTIONS s
    ∧ RouterStorage r1 = Some (<[id ro := p]> m)
    ∧ routers W1 = <[p := mkRouter (id ro) [replayMethod ro] (disable ro) (from ro)]> (routers w)
    ∧ pool W1 = pool w
    ∧ (∀ b, b ≠ a → endpoints W1 !! b = endpoints w !! b)
    ∧ ((handles s1 = handles s ++ [h] ∧ log W1 = log w)
       ∨ (handles s1 = handles s
          ∧ ∃ msg, log W1 = log w ++ (if Logger r then [replayErrorLine ro msg] else []))).
Proof.
  intros Hr Hself Hs Hm Hro Hid Hfree h.
  pose proof (replay_round fuel a r s m key0 p ro l w Hr Hself Hs Hm Hro Hid Hfree) as Hround.
  cbv zeta in Hround. fold h in Hround.
  set (rS := setRouterStorage (Some (<[id ro := p]> m)) r) in *.
  assert (HselfS : selfHosted rS) by (by destruct Hself).
  destruct (httprouter_Handle (handles s) (hMethod h) (hPath h)) as [msg|].
  - eexists _, rS, s. split; [exact Hround|].
    rewrite logged_endpoints, logged_routers, logged_pool.
    split; [apply putRest_lookup|]. do 8 (split; [done|]).
    split; [intros b Hb; simpl; by rewrite lookup_insert_ne|].
    right. split; [done|]. exists msg. unfold logged. destruct (Logger r); simpl; [done|].
    by rewrite app_nil_r.
  - eexists _, (withHandle h rS), _. split; [exact Hround|].
    split; [apply putRest_lookup|].
    split; [by destruct Hself|].
    split; [reflexivity|].
    unfold surfaceOf. change (router rS) with (router r). rewrite Hs. simpl.
    do 6 (split; [done|]).
    split; [intros b Hb; simpl; by rewrite lookup_insert_ne|].
    by left.
Qed.

(** The replay loop as a whole, over routes stored under their ids. *)
Lemma replay_all fuel a l :
  ∀ w r s m,
  endpoints w !! a = Some r → selfHosted r → router r = Some s → RouterStorage r = Some m →
  NoDup (l.*1) →
  (∀ k p, (k, p) ∈ l → k ≠ "" ∧ m !! k = None ∧ ∃ ro, routers w !! p = Some ro ∧ id ro = k) →
  ∃ w' r' s',
    replay (S (S (S (S fuel)))) a l w = Ok tt w'
    ∧ endpoints w' !! a = Some r' ∧ selfHosted r' ∧ router r' = Some s'
    ∧ Logger r' = Logger r ∧ started r' = started r ∧ GlobalOPTIONS s' = GlobalOPTIONS s
    ∧ RouterStorage r' = Some (list_to_map l ∪ m)
    ∧ (∀ k p ro, (k, p) ∈ l → routers w !! p = Some ro →
         routers w' !! p = Some (mkRouter k [replayMethod ro] (disable ro) (from ro))
         ∧ (handleOf (replayMethod ro) p ro ∈ handles s'
            ∨ ∃ msg, Logger r = true → replayErrorLine ro msg ∈ log w'))
    ∧ (∀ p, p ∉ l.*2 → routers w' !! p = routers w !! p)
    ∧ (∀ h, h ∈ handles s' →
         h ∈ handles s
         ∨ ∃ k p ro, (k, p) ∈ l ∧ routers w !! p = Some ro ∧ h = handleOf (replayMethod ro) p ro)
    ∧ (∀ h, h ∈ handles s → h ∈ handles s')
    ∧ (∃ more, log w' = log w ++ more ∧ (Logger r = false → more = []))
    ∧ pool w' = pool w
    ∧ (∀ b, b ≠ a → endpoints w' !! b = endpoints w !! b).
Proof.
  induction l as [|[k p] l IH]; intros w r s m Hr Hself Hs Hm Hnd Hl.
  - exists w, r, s. cbn [replay]. split; [done|]. do 6 (split; [done|]).
    split; [by rewrite Hm, list_to_map_nil, (left_id_L ∅ (∪))|].
    split; [by intros k p ro ?%elem_of_nil|].
    split; [done|]. split; [by left|]. split; [done|].
    split; [exists []; by rewrite app_nil_r|]. done.
  - apply NoDup_cons in Hnd as [Hk Hnd].
    destruct (Hl k p) as (Hkne & Hfree & ro & Hro & Hid); [left|]. subst k.
    assert (Hp : p ∉ l.*2).
    { intros [[k' p'] [-> Hin]]%list_elem_of_fmap. simpl in *.
      destruct (Hl k' p') as (_ & _ & ro' & Hro' & Hid'); [by right|].
      apply Hk. apply list_elem_of_fmap. exists (k', p'). split; [|done]. simpl. congruence. }
    destruct (replay_round_facts fuel a r s m (id ro) p ro l w Hr Hself Hs Hm Hro Hkne Hfree)
      as (W1 & r1 & s1 & Hround & Hr1 & Hself1 & Hs1 & HL1 & Hst1 & HG1 & Hm1 & Hrs1 & Hpool1
          & Hother1 & Hcases).
    assert (Hl1 : ∀ k' p', (k', p') ∈ l →
              k' ≠ "" ∧ <[id ro := p]> m !! k' = None
              ∧ ∃ ro', routers W1 !! p' = Some ro' ∧ id ro' = k').
    { intros k' p' Hin. destruct (Hl k' p') as (? & ? & ro' & Hro' & ?); [by right|].
      split; [done|]. split.
      - rewrite lookup_insert_ne; [done|]. intros <-. apply Hk.
        apply list_elem_of_fmap. by exists (id ro, p').
      - exists ro'. split; [|done]. rewrite Hrs1, lookup_insert_ne; [done|].
        intros <-. apply Hp. apply list_elem_of_fmap. by exists (k', p). }
    destruct (IH W1 r1 s1 _ Hr1 Hself1 Hs1 Hm1 Hnd Hl1)
      as (w' & r' & s' & Hrun & Hr' & Hself' & Hs' & HL' & Hst' & HG' & Hm' & Hdone & Hframe
          & Hhandles & Hkeep & (more & Hlog & Hquiet) & Hpool & Hother).
    assert (Hsame : ∀ p', p' ∉ l.*2 ∨ p' ≠ p → p' ≠ p → routers W1 !! p' = routers w !! p').
    { intros p' _ Hne. by rewrite Hrs1, lookup_insert_ne. }
    exists w', r', s'. split; [by rewrite Hround|].
    split; [done|]. split; [done|]. split; [done|].
    split; [congruence|]. split; [congruence|]. split; [congruence|].
    split.
    { rewrite Hm'. f_equal. rewrite list_to_map_cons. simpl.
      rewrite <-insert_union_l. rewrite insert_union_r; [done|].
      by apply not_elem_of_list_to_map_1. }
    split.
    { intros k' p' ro' [[= -> ->]|Hin]%elem_of_cons Hro'.
      - assert (ro' = ro) as -> by congruence. split.
        + rewrite Hframe by done. by rewrite Hrs1, lookup_insert_eq.
        + destruct Hcases as [[Hh _]|[_ [msg Hmsg]]].
          * left. apply Hkeep. rewrite Hh. apply elem_of_app. right. by apply list_elem_of_singleton.
          * right. exists msg. intros HL. rewrite Hlog, Hmsg, HL.
            apply elem_of_app. left. apply elem_of_app. right. by apply list_elem_of_singleton.
      - assert (Hne : p' ≠ p).
        { intros ->. apply Hp. apply list_elem_of_fmap. by exists (k', p). }
        destruct (Hdone k' p' ro' Hin) as [Hfinal Hhl].
        { by rewrite Hrs1, lookup_insert_ne. }
        split; [done|]. destruct Hhl as [?|[msg Hmsg]]; [by left|].
        right. exists msg. by rewrite <-HL1. }
    split.
    { intros p' Hp'. rewrite fmap_cons in Hp'. apply not_elem_of_cons in Hp' as [Hne Hp'].
      rewrite Hframe by done. by rewrite Hrs1, lookup_insert_ne. }
    split.
    { intros h Hh. destruct (Hhandles h Hh) as [Hin|(k' & p' & ro' & Hin & Hro' & ->)].
      - destruct Hcases as [[Heq _]|[Heq _]]; rewrite Heq in Hin; [|by left].
        apply elem_of_app in Hin as [?|Heq'%list_elem_of_singleton]; [by left|]. subst h.
        right. exists (id ro), p, ro. split; [left|]. done.
      - right. exists k', p', ro'. split; [by right|]. split; [|done].
        rewrite Hrs1, lookup_insert_ne in Hro'; [done|].
        intros <-. apply Hp. apply list_elem_of_fmap. by exists (k', p). }
    split.
    { intros h Hh. apply Hkeep.
      destruct Hcases as [[Heq _]|[Heq _]]; rewrite Heq; [|done].
      apply elem_of_app. by left. }
    split.
    { destruct Hcases as [[_ Heq]|[_ [msg Heq]]].
      - exists more. rewrite Hlog, Heq. split; [done|]. intros HL. apply Hquiet. congruence.
      - exists ((if Logger r then [replayErrorLine ro msg] else []) ++ more).
        rewrite Hlog, Heq, app_assoc. split; [done|]. intros HL. rewrite HL. simpl.
        apply Hquiet. congruence. }
    split; [congruence|].
    intros b Hb. rewrite Hother by done. by apply Hother1.
Qed.

Lemma filter_elements {A} (P Q : A → Prop) `{∀ x, Decision (P x)} `{∀ x, Decision (Q x)}
    (l : list A) :
  (∀ x, x ∈ l → (P x ↔ Q x)) → filter P l = filter Q l.
Proof.
  induction l as [|x l IH]; intros HPQ; [done|].
  assert (Hl : filter P l = filter Q l).
  { apply IH. intros y Hy. apply HPQ. by right. }
  destruct (decide (P x)) as [HP|HP].
  - rewrite filter_cons_True by done. rewrite (filter_cons_True Q) by (apply HPQ; [left|done]).
    by rewrite Hl.
  - rewrite filter_cons_False by done.
    rewrite (filter_cons_False Q); [done|]. intros HQ. apply HP. apply HPQ; [left|done].
Qed.

Lemma filter_none {A} (P : A → Prop) `{∀ x, Decision (P x)} (l : list A) :
  (∀ x, x ∈ l → ¬ P x) → filter P l = [].
Proof.
  induction l as [|x l IH]; intros HP; [done|].
  rewrite filter_cons_False by (apply HP; left). apply IH. intros y Hy. apply HP. by right.
Qed.

Lemma filter_all {A} (P : A → Prop) `{∀ x, Decision (P x)} (l : list A) :
  (∀ x, x ∈ l → P x) → filter P l = l.
Proof.
  induction l as [|x l IH]; intros HP; [done|].
  rewrite filter_cons_True by (apply HP; left). f_equal. apply IH. intros y Hy. apply HP. by right.
Qed.

(** One round of the replay loop, by what the HTTP router answers. *)
Lemma replay_round_outcome fuel a r s m key0 p ro l w :
  endpoints w !! a = Some r → selfHosted r → router r = Some s → RouterStorage r = Some m →
  routers w !! p = Some ro → id ro ≠ "" → m !! id ro = None →
  let h := handleOf (replayMethod ro) p ro in
  ∃ W1 r1 s1 new,
    replay (S (S (S (S fuel)))) a ((key0, p) :: l) w = replay (S (S (S (S fuel)))) a l W1
    ∧ endpoints W1 !! a = Some r1 ∧ selfHosted r1 ∧ router r1 = Some s1
    ∧ Logger r1 = Logger r
    ∧ RouterStorage r1 = Some (<[id ro := p]> m)
    ∧ routers W1 = <[p := mkRouter (id ro) [replayMethod ro] (disable ro) (from ro)]> (routers w)
    ∧ handles s1 = handles s ++ new
    ∧ match httprouter_Handle (handles s) (hMethod h) (hPath h) with
      | None => new = [h] ∧ log W1 = log w
      | Some msg => new = []
                    ∧ log W1 = log w ++ (if Logger r then [replayErrorLine ro msg] else [])
      end.
Proof.
  intros Hr Hself Hs Hm Hro Hid Hfree h.
  pose proof (replay_round fuel a r s m key0 p ro l w Hr Hself Hs Hm Hro Hid Hfree) as Hround.
  cbv zeta in Hround. fold h in Hround.
  set (rS := setRouterStorage (Some (<[id ro := p]> m)) r) in *.
  assert (HselfS : selfHosted rS) by (by destruct Hself).
  destruct (httprouter_Handle (handles s) (hMethod h) (hPath h)) as [msg|].
  - eexists _, rS, s, []. split; [exact Hround|].
    rewrite logged_endpoints, logged_routers.
    split; [apply putRest_lookup|]. do 5 (split; [done|]).
    split; [by rewrite app_nil_r|]. split; [done|].
    unfold logged. destruct (Logger r); simpl; [done|]. by rewrite app_nil_r.
  - eexists _, (withHandle h rS), _, [h]. split; [exact Hround|].
    split; [apply putRest_lookup|].
    split; [by destruct Hself|].
    split; [reflexivity|].
    unfold surfaceOf. change (router rS) with (router r). rewrite Hs. simpl.
    done.
Qed.

(** The replay loop, route by route: what the HTTP router answered for a
    route on the handles registered before it decides whether the route has
    its handle or its line in the log. *)
Lemma replay_trace fuel a l :
  ∀ w r s m,
  endpoints w !! a = Some r → selfHosted r → router r = Some s → RouterStorage r = Some m →
  NoDup (l.*1) →
  (∀ k p, (k, p) ∈ l → k ≠ "" ∧ m !! k = None ∧ ∃ ro, routers w !! p = Some ro ∧ id ro = k) →
  ∃ w' r' s' added more,
    replay (S (S (S (S fuel)))) a l w = Ok tt w'
    ∧ endpoints w' !! a = Some r' ∧ router r' = Some s'
    ∧ handles s' = handles s ++ added
    ∧ (∀ h, h ∈ added → hRouter h ∈ l.*2)
    ∧ log w' = log w ++ more
    ∧ (∀ pre k p post ro, l = pre ++ (k, p) :: post → routers w !! p = Some ro →
         let h := handleOf (replayMethod ro) p ro in
         match httprouter_Handle (handles s ++ filter (λ h', hRouter h' ∈ pre.*2) added)
                                 (hMethod h) (hPath h) with
         | None => h ∈ added
         | Some msg => (∀ h', h' ∈ added → hRouter h' ≠ p)
                       ∧ (Logger r = true → replayErrorLine ro msg ∈ log w')
         end).
Proof.
  induction l as [|[k0 p0] l IH]; intros w r s m Hr Hself Hs Hm Hnd Hl.
  - exists w, r, s, [], []. cbn [replay]. split; [done|]. split; [done|]. split; [done|].
    split; [by rewrite app_nil_r|]. split; [by intros h ?%elem_of_nil|].
    split; [by rewrite app_nil_r|].
    intros pre k p post ro Heq. by destruct pre.
  - apply NoDup_cons in Hnd as [Hk Hnd].
    destruct (Hl k0 p0) as (Hkne & Hfree & ro0 & Hro0 & Hid); [left|]. subst k0.
    assert (Hp : p0 ∉ l.*2).
    { intros [[k' p'] [-> Hin]]%list_elem_of_fmap. simpl in *.
      destruct (Hl k' p') as (_ & _ & ro' & Hro' & Hid'); [by right|].
      apply Hk. apply list_elem_of_fmap. exists (k', p'). split; [|done]. simpl. congruence. }
    destruct (replay_round_outcome fuel a r s m (id ro0) p0 ro0 l w Hr Hself Hs Hm Hro0 Hkne Hfree)
      as (W1 & r1 & s1 & new & Hround & Hr1 & Hself1 & Hs1 & HL1 & Hm1 & Hrs1 & Hnew & Hcase).
    set (h0 := handleOf (replayMethod ro0) p0 ro0) in *.
    assert (Hnew0 : ∀ h, h ∈ new → hRouter h = p0).
    { intros h Hh. destruct (httprouter_Handle (handles s) (hMethod h0) (hPath h0)).
      - destruct Hcase as [-> _]. by apply elem_of_nil in Hh.
      - destruct Hcase as [-> _]. by apply list_elem_of_singleton in Hh as ->. }
    assert (Hl1 : ∀ k' p', (k', p') ∈ l →
              k' ≠ "" ∧ <[id ro0 := p0]> m !! k' = None
              ∧ ∃ ro', routers W1 !! p' = Some ro' ∧ id ro' = k').
    { intros k' p' Hin. destruct (Hl k' p') as (? & ? & ro' & Hro' & ?); [by right|].
      split; [done|]. split.
      - rewrite lookup_insert_ne; [done|]. intros <-. apply Hk.
        apply list_elem_of_fmap. by exists (id ro0, p').
      - exists ro'. split; [|done]. rewrite Hrs1, lookup_insert_ne; [done|].
        intros <-. apply Hp. apply list_elem_of_fmap. by exists (k', p0). }
    destruct (IH W1 r1 s1 _ Hr1 Hself1 Hs1 Hm1 Hnd Hl1)
      as (w' & r' & s' & added & more & Hrun & Hr' & Hs' & Hadded & Hin & Hlog & Htrace).
    assert (Hlog1 : ∃ more1, log W1 = log w ++ more1).
    { destruct (httprouter_Handle (handles s) (hMethod h0) (hPath h0)).
      - destruct Hcase as [_ ->]. eauto.
      - destruct Hcase as [_ ->]. exists []. by rewrite app_nil_r. }
    destruct Hlog1 as [more1 Hlog1].
    exists w', r', s', (new ++ added), (more1 ++ more).
    split; [by rewrite Hround|]. split; [done|]. split; [done|].
    split; [by rewrite Hadded, Hnew, app_assoc|].
    split.
    { intros h [Hh|Hh]%elem_of_app.
      - rewrite (Hnew0 h Hh). rewrite fmap_cons. left.
      - rewrite fmap_cons. right. by apply Hin. }
    split; [by rewrite Hlog, Hlog1, app_assoc|].
    intros pre k p post ro Heq Hro h.
    destruct pre as [|[k1 p1] pre].
    + simpl in Heq. injection Heq as <- <- <-.
      assert (ro = ro0) as -> by congruence.
      rewrite (filter_none (λ h', hRouter h' ∈ ([] : list (string * nat)).*2))
        by (intros x _ Hx; by apply elem_of_nil in Hx).
      rewrite app_nil_r. subst h. fold h0.
      destruct (httprouter_Handle (handles s) (hMethod h0) (hPath h0)) as [msg|].
      * destruct Hcase as [-> Hlogw]. split.
        -- intros h' Hh' Heq. simpl in Hh'. apply Hp. rewrite <-Heq. by apply Hin.
        -- intros HL. rewrite Hlog, Hlogw, HL.
           apply elem_of_app. left. apply elem_of_app. right. by apply list_elem_of_singleton.
      * destruct Hcase as [-> _]. left.
    + simpl in Heq. injection Heq as <- <- ->.
      assert (Hne : p ≠ p0).
      { intros ->. apply Hp. rewrite fmap_app, fmap_cons. apply elem_of_app. right. left. }
      assert (Hro1 : routers W1 !! p = Some ro) by (by rewrite Hrs1, lookup_insert_ne).
      pose proof (Htrace pre k p post ro eq_refl Hro1) as Hthis. cbv zeta in Hthis. fold h in Hthis.
      assert (Hbefore : handles s ++ filter (λ h', hRouter h' ∈ ((id ro0, p0) :: pre).*2)
                                            (new ++ added)
                        = handles s1 ++ filter (λ h', hRouter h' ∈ pre.*2) added).
      { rewrite filter_app, Hnew, app_assoc. f_equal.
        - f_equal. apply filter_all. intros x Hx. rewrite (Hnew0 x Hx). rewrite fmap_cons. left.
        - apply filter_elements. intros x Hx. rewrite fmap_cons. split.
          + intros [Heq|?]%elem_of_cons; [|done]. simpl in Heq.
            exfalso. apply Hp. rewrite <-Heq. by apply Hin.
          + intros ?. by right. }
      rewrite Hbefore.
      destruct (httprouter_Handle _ (hMethod h) (hPath h)) as [msg|].
      * destruct Hthis as [Hnone Hline]. split.
        -- intros h' [Hh'|Hh']%elem_of_app; [|by apply Hnone].
           rewrite (Hnew0 h' Hh'). congruence.
        -- intros HL. apply Hline. congruence.
      * apply elem_of_app. by right.
Qed.

Lemma cleared_facts r :
  selfHosted r →
  selfHosted (cleared r) ∧ started (cleared r) = false
  ∧ RouterStorage (cleared r) = Some ∅ ∧ Logger (cleared r) = Logger r
  ∧ Config' (cleared r) = Config' r
  ∧ (router (cleared r) = None ∨ router (cleared r) = Some (mkSurface [] (AllowCors (Config' r)))).
Proof.
  intros Hself. unfold cleared. destruct (router r) eqn:Hs.
  - pose proof (freshRouter_selfHosted r Hself) as Hself'.
    destruct (freshRouter_fields r) as (? & ? & ? & ? & ? & ? & ?).
    split; [by destruct Hself'|]. naive_solver.
  - split; [by destruct Hself|]. simpl. rewrite Hs. naive_solver.
Qed.

Lemma withServer_facts r :
  selfHosted r →
  (router r = None ∨ router r = Some (mkSurface [] (AllowCors (Config' r)))) →
  selfHosted (setStarted true (withServer r))
  ∧ router (setStarted true (withServer r)) = Some (mkSurface [] (AllowCors (Config' r)))
  ∧ RouterStorage (setStarted true (withServer r)) = RouterStorage r
  ∧ Logger (setStarted true (withServer r)) = Logger r
  ∧ started (setStarted true (withServer r)) = true
  ∧ listenAddr (withServer r) = serverAddr r.
Proof.
  intros Hself Hrouter. unfold withServer.
  destruct (inited_selfHosted r Hself) as [Hself1 _].
  destruct (inited_fields r) as (Hi1 & Hc1 & Hl1 & _ & Hr1 & _ & Hs1).
  pose proof (ensureRouter_selfHosted _ Hself1) as Hself2.
  destruct (ensureRouter_fields (inited r)) as (Hi2 & Hc2 & Hl2 & _ & _ & _ & Hs2).
  split; [by destruct Hself2|]. split; [|split; [|split; [|split]]].
  - simpl. unfold ensureRouter. rewrite Hr1. destruct Hrouter as [Hnone|Hsome].
    + rewrite Hnone.
      destruct (freshRouter_fields (inited r)) as (_ & Hc3 & _ & _ & -> & _). by rewrite Hc1.
    + rewrite Hsome. by rewrite Hr1.
  - simpl. congruence.
  - simpl. congruence.
  - done.
  - unfold serverAddr, listenAddr. simpl. by rewrite Hc2, Hc1.
Qed.

Lemma replayMethod_default ro : params ro = [] → replayMethod ro = "GET".
Proof. unfold replayMethod. by intros ->. Qed.

(** C3 (as the code has it): [Restart] on a self-hosted endpoint whose
    routes are stored under their ids.  It returns an error exactly when the
    server cannot listen again, and then that error.  Otherwise it returns
    nil and: the route storage holds exactly the routes that were enabled,
    under their ids; each of them has its replay method (its first recorded
    parameter in upper case, [GET] when none was recorded) as its only
    parameter and is otherwise as it was; every other router is untouched;
    the new surface holds only handles of replayed routes, so nothing of the
    old surface and no disabled route.  The routes are replayed in the order
    of the range over the storage, and for each of them the answer of the
    HTTP router, asked on the handles of the routes replayed before it,
    decides: if the router accepts the route, its handle is on the new
    surface; if it refuses, no handle of the new surface belongs to the
    route and, when a logger is configured, the error line with the
    router's message is in the log; without a logger nothing is logged.
    On a shared endpoint [Restart] is the pooled instance's [Restart], or
    the error of looking that instance up. *)
Theorem Restart_replays_enabled fuel a r w :
  endpoints w !! a = Some r →
  (selfHosted r → storageWf w (default ∅ (RouterStorage r)) →
   let old := filter (λ kv, isEnabled w kv.2 = true) (default ∅ (RouterStorage r)) in
   (∀ err, net_Listen (serverAddr r) = Some err →
      ∃ w', Restart (5 + fuel) a w = Ok (Some err) w')
   ∧ (net_Listen (serverAddr r) = None →
      ∃ w' r' s',
        Restart (5 + fuel) a w = Ok None w'
        ∧ endpoints w' !! a = Some r' ∧ router r' = Some s' ∧ started r' = true
        ∧ RouterStorage r' = Some old
        ∧ (∀ k p, old !! k = Some p →
             ∃ ro, routers w !! p = Some ro ∧ disable ro = false
               ∧ routers w' !! p = Some (mkRouter k [replayMethod ro] false (from ro))
               ∧ (params ro = [] → replayMethod ro = "GET"))
        ∧ (∀ pre k p post, rangeOrder (map_to_list old) = pre ++ (k, p) :: post →
             ∃ ro, routers w !! p = Some ro
               ∧ let h := handleOf (replayMethod ro) p ro in
                 match httprouter_Handle (filter (λ h', hRouter h' ∈ pre.*2) (handles s'))
                                         (hMethod h) (hPath h) with
                 | None => h ∈ handles s'
                 | Some msg => (∀ h', h' ∈ handles s' → hRouter h' ≠ p)
                               ∧ (Logger r = true → replayErrorLine ro msg ∈ log w')
                 end)
        ∧ (∀ p, (∀ k, old !! k ≠ Some p) → routers w' !! p = routers w !! p)
        ∧ (∀ h, h ∈ handles s' →
             ∃ k p ro, old !! k = Some p ∧ routers w !! p = Some ro
                       ∧ h = handleOf (replayMethod ro) p ro)
        ∧ (Logger r = false → log w' = log w)
        ∧ pool w' = pool w
        ∧ (∀ b, b ≠ a → endpoints w' !! b = endpoints w !! b)))
  ∧ (InstanceId r ≠ "" →
     Restart (2 + fuel) a w
     = match pool w !! InstanceId r with
       | Some shared => Restart (1 + fuel) shared w
       | None => Ok (Some ("node resources not found id=" +:+ InstanceId r)) w
       end).
Proof.
  intros Hr. split.
  - intros Hself Hwf old.
    (* up to [Start] *)
    assert (Hhead : ∀ k : option error → M (option error),
              Restart (5 + fuel) a w
              = bind (Start (S (S (S (S fuel)))) a)
                     (λ err, match err with
                             | Some err => ret (Some err)
                             | None => replay (S (S (S (S fuel)))) a (rangeOrder (map_to_list old));;
                                       ret None
                             end) (putRest a (cleared r) w)).
    { intros _. cbn [Restart Nat.add].
      rewrite (bind_Ok _ _ _ _ _ (getRest_Ok _ _ _ Hr)).
      destruct (decide (InstanceId r ≠ "")) as [Hne|_]; [by destruct Hself|].
      set (rA := match router r with Some _ => freshRouter r | None => r end).
      assert (Hpre : (match router r with
                      | Some _ => newRouter (S (S (S (S fuel)))) a
                      | None => ret tt
                      end) w = Ok tt (putRest a rA w)).
      { unfold rA. destruct (router r).
        - by apply newRouter_self.
        - by rewrite putRest_id. }
      rewrite (bind_Ok _ _ _ _ _ Hpre).
      rewrite (bind_Ok _ _ _ _ _ (getRest_Ok _ _ _ (putRest_lookup _ _ _))).
      assert (HstA : RouterStorage rA = RouterStorage r).
      { unfold rA. destruct (router r); [|done].
        by destruct (freshRouter_fields r) as (_ & _ & _ & _ & _ & _ & ?). }
      rewrite HstA.
      assert (Hen : enabledRoutes (default ∅ (RouterStorage r)) (putRest a rA w)
                    = Ok old (putRest a rA w)).
      { unfold enabledRoutes. rewrite bool_decide_eq_true_2; [done|].
        intros k p Hk. destruct (Hwf k p Hk) as (_ & ro & Hro & _). by exists ro. }
      rewrite (bind_Ok _ _ _ _ _ Hen).
      rewrite (bind_Ok _ _ _ _ _ (modifyRest_Ok _ _ _ _ (putRest_lookup _ _ _))), putRest_putRest.
      rewrite (bind_Ok _ _ _ _ _ (modifyRest_Ok _ _ _ _ (putRest_lookup _ _ _))), putRest_putRest.
      done. }
    rewrite (Hhead (λ _, ret None)). clear Hhead.
    destruct (cleared_facts r Hself) as (HselfB & HstartB & HstB & HlogB & HcfgB & HrouterB).
    pose proof (Start_self fuel a (cleared r) _ (putRest_lookup _ _ w) HselfB HstartB) as HStart.
    assert (HrouterB' : router (cleared r) = None
                        ∨ router (cleared r) = Some (mkSurface [] (AllowCors (Config' (cleared r)))))
      by (by rewrite HcfgB).
    destruct (withServer_facts (cleared r) HselfB HrouterB')
      as (HselfC & HrouterC & HstC & HlogC & HstartedC & Haddr).
    assert (Haddr' : listenAddr (withServer (cleared r)) = serverAddr r).
    { rewrite Haddr. unfold serverAddr, listenAddr.
      change (Config' (setHttpServer ?x ?y)) with (Config' y).
      change (HttpServer (setHttpServer ?x ?y)) with x.
      by rewrite HcfgB. }
    rewrite Haddr' in HStart. clear Haddr.
    split.
    + intros err Herr. rewrite Herr in HStart. eexists.
      by rewrite (bind_Ok _ _ _ _ _ HStart).
    + intros Hlisten. rewrite Hlisten in HStart.
      rewrite (bind_Ok _ _ _ _ _ HStart), putRest_putRest.
      set (rC := setStarted true (withServer (cleared r))) in *.
      set (W1 := logged (Logger (cleared r)) (startLine (cleared r)) (putRest a rC w)).
      assert (HrC : endpoints W1 !! a = Some rC).
      { unfold W1. rewrite logged_endpoints. apply putRest_lookup. }
      assert (HroutersW1 : routers W1 = routers w) by (unfold W1; by rewrite logged_routers).
      assert (Hold : ∀ k p, (k, p) ∈ rangeOrder (map_to_list old) ↔ old !! k = Some p).
      { intros k p. rewrite rangeOrder_perm. apply elem_of_map_to_list. }
      assert (Hentry : ∀ k p, old !! k = Some p →
                k ≠ "" ∧ ∃ ro, routers w !! p = Some ro ∧ id ro = k ∧ disable ro = false).
      { intros k p [Hk Hen]%map_lookup_filter_Some. simpl in Hen.
        destruct (Hwf k p Hk) as (Hne & ro & Hro & Hid). split; [done|].
        exists ro. split; [done|]. split; [done|].
        unfold isEnabled in Hen. rewrite Hro in Hen. by destruct (disable ro). }
      destruct (replay_all fuel a (rangeOrder (map_to_list old)) W1 rC _ ∅ HrC HselfC HrouterC)
        as (w' & r' & s' & Hrun & Hr' & _ & Hs' & HL' & Hst' & _ & Hm' & Hdone & Hframe
            & Hhandles & _ & (more & Hlog & Hquiet) & Hpool & Hother).
      { by rewrite HstC. }
      { rewrite rangeOrder_perm. apply NoDup_fst_map_to_list. }
      { intros k p Hin%Hold. destruct (Hentry k p Hin) as (Hne & ro & Hro & Hid & _).
        split; [done|]. split; [done|]. exists ro. by rewrite HroutersW1. }
      destruct (replay_trace fuel a (rangeOrder (map_to_list old)) W1 rC _ ∅ HrC HselfC HrouterC)
        as (w2 & r2 & s2 & added & more2 & Hrun2 & Hr2 & Hs2 & Hadded & _ & _ & Htrace).
      { by rewrite HstC. }
      { rewrite rangeOrder_perm. apply NoDup_fst_map_to_list. }
      { intros k p Hin%Hold. destruct (Hentry k p Hin) as (Hne & ro & Hro & Hid & _).
        split; [done|]. split; [done|]. exists ro. by rewrite HroutersW1. }
      rewrite Hrun in Hrun2. injection Hrun2 as <-.
      rewrite Hr' in Hr2. injection Hr2 as <-.
      rewrite Hs' in Hs2. injection Hs2 as <-.
      simpl in Hadded. subst added.
      exists w', r', s'. rewrite (bind_Ok _ _ _ _ _ Hrun).
      split; [done|]. split; [done|]. split; [done|]. split; [congruence|].
      split.
      { rewrite Hm', (right_id_L ∅ (∪)). f_equal.
        rewrite (list_to_map_proper _ (map_to_list old)).
        - apply list_to_map_to_list.
        - rewrite rangeOrder_perm. apply NoDup_fst_map_to_list.
        - apply rangeOrder_perm. }
      split.
      { intros k p Hk. destruct (Hentry k p Hk) as (_ & ro & Hro & Hid & Hen).
        exists ro. split; [done|]. split; [done|].
        destruct (Hdone k p ro) as [Hfinal Hhl]; [by apply Hold|by rewrite HroutersW1|].
        rewrite Hen in Hfinal. split; [done|]. apply replayMethod_default. }
      split.
      { intros pre k p post Hsplit.
        assert (Hk : old !! k = Some p).
        { apply Hold. rewrite Hsplit. apply elem_of_app. right. left. }
        destruct (Hentry k p Hk) as (_ & ro & Hro & _ & _).
        exists ro. split; [done|].
        assert (HroW1 : routers W1 !! p = Some ro) by (by rewrite HroutersW1).
        pose proof (Htrace pre k p post ro Hsplit HroW1) as Hthis.
        cbv zeta in Hthis. cbv zeta.
        destruct (httprouter_Handle _ _ _) as [msg|]; [|done].
        destruct Hthis as [Hnone Hline]. split; [done|].
        intros HL. apply Hline. by rewrite HlogC, HlogB. }
      split.
      { intros p Hp. rewrite Hframe, HroutersW1; [done|].
        intros [[k p'] [-> Hin%Hold]]%list_elem_of_fmap. by apply (Hp k). }
      split.
      { intros h Hh. destruct (Hhandles h Hh) as [Hnil|(k & p & ro & Hin%Hold & Hro & ->)].
        - by apply elem_of_nil in Hnil.
        - exists k, p, ro. by rewrite <-HroutersW1. }
      split.
      { intros HL. rewrite Hlog, Hquiet by (by rewrite HlogC, HlogB).
        rewrite app_nil_r. unfold W1, logged. by rewrite HlogB, HL. }
      split.
      { rewrite Hpool. unfold W1. by rewrite logged_pool. }
      intros b Hb. rewrite Hother by done. unfold W1. rewrite logged_endpoints.
      by apply putRest_lookup_ne.
  - intros Hshared. cbn [Restart Nat.add].
    rewrite (bind_Ok _ _ _ _ _ (getRest_Ok _ _ _ Hr)).
    destruct (decide (InstanceId r ≠ "")) as [_|Hne]; [|done].
    cbn [SharedNode_Get]. unfold bind at 1.
    rewrite (bind_Ok _ _ _ _ _ (getRest_Ok _ _ _ Hr)).
    destruct (decide (InstanceId r ≠ "")) as [_|Hne]; [|done].
    by destruct (pool w !! InstanceId r).
Qed.

(** ** The shape of the route storage *)

(** A check of [storageWf] that can be computed. *)
Lemma storageWf_check w storage :
  map_Forall (λ key p, key ≠ "" ∧ id <$> routers w !! p = Some key) storage →
  storageWf w storage.
Proof.
  intros Hall key p Hkey. destruct (Hall key p Hkey) as [Hne Hid]. split; [done|].
  destruct (routers w !! p) as [ro|]; [|done]. exists ro. split; [done|].
  by injection Hid.
Qed.

Lemma RouterKey_nonempty method path : RouterKey method path ≠ "".
Proof. unfold RouterKey. destruct method; [discriminate|discriminate]. Qed.

(** Storing a route keeps the storage in that shape, and so does removing
    one; an endpoint starts with it. *)
Lemma storeRoute_storageWf a r item ro method w path w' :
  endpoints w !! a = Some r → routers w !! item = Some ro →
  storageWf w (default ∅ (RouterStorage r)) →
  storeRoute a method item w = Ok path w' →
  ∃ r', endpoints w' !! a = Some r' ∧ storageWf w' (default ∅ (RouterStorage r')).
Proof.
  intros Hr Hro Hwf Hrun.
  rewrite (storeRoute_Ok a r item ro method w Hr Hro) in Hrun.
  injection Hrun as _ <-. eexists. split; [apply putRest_lookup|].
  intros key p. simpl. intros Hkey.
  assert (Hnew : registeredId method ro ≠ "").
  { unfold registeredId. destruct (decide (id ro = "")); [apply RouterKey_nonempty|done]. }
  destruct (decide (key = registeredId method ro)) as [->|Hne].
  - rewrite lookup_insert_eq in Hkey. injection Hkey as <-. split; [done|].
    exists (registered method ro). split; [apply lookup_insert_eq|done].
  - rewrite lookup_insert_ne in Hkey by done.
    destruct (Hwf key p Hkey) as (Hk & ro' & Hro' & Hid). split; [done|].
    destruct (decide (p = item)) as [->|Hp].
    + exists (registered method ro). split; [apply lookup_insert_eq|].
      rewrite Hro in Hro'. injection Hro' as <-. simpl. unfold registeredId.
      destruct (decide (id ro = "")); [congruence|done].
    + exists ro'. split; [|done]. by rewrite lookup_insert_ne.
Qed.

Lemma RemoveRouter_storageWf a routerId w res w' b rb :
  RemoveRouter a routerId w = Ok res w' →
  endpoints w !! b = Some rb → storageWf w (default ∅ (RouterStorage rb)) →
  endpoints w' !! b = Some rb ∧ storageWf w' (default ∅ (RouterStorage rb)).
Proof.
  unfold RemoveRouter, bind, getRest, IsDisable, Disable, bind, getRouter, modifyRouter, ret.
  destruct (endpoints w !! a) as [r|]; [|done].
  destruct (RouterStorage r) as [st|]; [|by intros [= _ <-]].
  destruct (st !! _) as [p|]; [|by intros [= _ <-]].
  destruct (routers w !! p) as [ro|] eqn:Hro; [|done].
  destruct (disable ro); simpl; [by intros [= _ <-]|].
  rewrite Hro. intros [= _ <-] Hb Hwf. split; [done|].
  intros key q Hkey. destruct (Hwf key q Hkey) as (Hne & ro' & Hro' & Hid). split; [done|].
  simpl. destruct (decide (q = p)) as [->|Hq].
  - rewrite lookup_insert_eq. eexists. split; [done|]. simpl. congruence.
  - rewrite lookup_insert_ne by done. by exists ro'.
Qed.

(** ** Removing a route *)

(** C10: on an endpoint whose route storage is nil (no route was ever
    registered on it), [RemoveRouter] returns nil for every route id and
    changes nothing. *)
Theorem RemoveRouter_nil_storage w a r routerId :
  endpoints w !! a = Some r → RouterStorage r = None →
  RemoveRouter a routerId w = Ok None w.
Proof.
  intros Hr Hnil. unfold RemoveRouter.
  rewrite (bind_Ok _ _ _ _ _ (getRest_Ok _ _ _ Hr)). by rewrite Hnil.
Qed.

(** C4 (as the code has it): [RemoveRouter] looks the id up with its
    surrounding blanks trimmed.  On an endpoint whose route storage is
    initialised: if the trimmed id is stored and its router enabled, the
    router is marked disabled, the call returns nil, the storage keeps the
    entry, and every handle registered for that router answers "not found"
    from then on; if the trimmed id is stored with a disabled router, or not
    stored, the call returns the error "router: <id> not found" and changes
    nothing.  No call of [RemoveRouter], whatever it returns, changes the
    route storage of any endpoint. *)
Theorem RemoveRouter_disables w a r storage routerId :
  endpoints w !! a = Some r → RouterStorage r = Some storage →
  let key := gostrings.TrimSpace routerId in
  (∀ p ro, storage !! key = Some p → routers w !! p = Some ro → disable ro = false →
     let w' := putRouter p (mkRouter (id ro) (params ro) true (from ro)) w in
     RemoveRouter a routerId w = Ok None w'
     ∧ (endpoints w' !! a ≫= RouterStorage) = Some storage
     ∧ ∀ h, hRouter h = p → handler h w' = Ok NotFound404 w')
  ∧ (∀ p ro, storage !! key = Some p → routers w !! p = Some ro → disable ro = true →
       RemoveRouter a routerId w = Ok (Some ("router: " +:+ key +:+ " not found")) w)
  ∧ (storage !! key = None →
       RemoveRouter a routerId w = Ok (Some ("router: " +:+ key +:+ " not found")) w)
  ∧ (∀ b res w', RemoveRouter b routerId w = Ok res w' → endpoints w' = endpoints w).
Proof.
  intros Hr Hst key. split; [|split; [|split]].
  - intros p ro Hp Hro Hen w'. split; [|split].
    + unfold RemoveRouter. fold key.
      rewrite (bind_Ok _ _ _ _ _ (getRest_Ok _ _ _ Hr)), Hst, Hp.
      rewrite (bind_Ok _ _ _ _ _ (IsDisable_Ok _ _ _ Hro)), Hen. simpl.
      by rewrite (bind_Ok _ _ _ _ _ (Disable_Ok _ true _ _ Hro)).
    + unfold w'. simpl. by rewrite Hr.
    + intros h Hh. unfold handler, w'. rewrite Hh.
      by rewrite (bind_Ok _ _ _ _ _ (IsDisable_Ok _ _ _ (putRouter_lookup _ _ _))).
  - intros p ro Hp Hro Hdis. unfold RemoveRouter. fold key.
    rewrite (bind_Ok _ _ _ _ _ (getRest_Ok _ _ _ Hr)), Hst, Hp.
    by rewrite (bind_Ok _ _ _ _ _ (IsDisable_Ok _ _ _ Hro)), Hdis.
  - intros Hp. unfold RemoveRouter. fold key.
    by rewrite (bind_Ok _ _ _ _ _ (getRest_Ok _ _ _ Hr)), Hst, Hp.
  - intros b res w'. unfold RemoveRouter, bind, getRest, IsDisable, Disable, bind, getRouter,
      modifyRouter, ret.
    destruct (endpoints w !! b) as [rb|]; [|done].
    destruct (RouterStorage rb) as [sb|]; [|by intros [= _ <-]].
    destruct (sb !! _) as [p|]; [|by intros [= _ <-]].
    destruct (routers w !! p) as [ro|] eqn:Hro; [|done].
    destruct (disable ro); simpl; [by intros [= _ <-]|].
    rewrite Hro. by intros [= _ <-].
Qed.

End rest_methods.

(** ** Instances *)

(** C9, instance: on the fresh endpoint the router for [/api/v1/msg],
    registered with method [get], is stored under [GET:/api/v1/msg]; the
    router with the caller's id [ a ] keeps it. *)
Lemma route_registration_id_witness :
  (∃ w', AddRouter (H := demo_rest.world) 4 0 (Some 1) ["get"] (demo_rest.freshWorld true)
         = Ok ("GET:/api/v1/msg", None) w'
         ∧ (endpoints w' !! 0 ≫= RouterStorage) = Some {[ "GET:/api/v1/msg" := 1 ]})
  ∧ (∃ w', AddRouter (H := demo_rest.world) 4 0 (Some 3) ["put"] (demo_rest.freshWorld true)
           = Ok (" a ", None) w'
           ∧ (endpoints w' !! 0 ≫= RouterStorage) = Some {[ " a " := 3 ]}).
Proof.
  split.
  - destruct (route_registration_id (H := demo_rest.world) 0 (demo_rest.freshRest true) 1
                (demo_rest.route "" "/api/v1/msg") "get" (demo_rest.freshWorld true)
                eq_refl eq_refl) as [_ Hadd].
    destruct (Hadd 0 ltac:(split; [|right]; reflexivity)) as (w' & _ & [_ (r' & Hr' & Hst & _)] & res & HAdd & Hres).
    exists w'. split.
    + change (4 + 0) with 4 in HAdd. rewrite HAdd. f_equal.
      destruct Hres as [->|[err ->]]; [done|]. vm_compute in HAdd. discriminate.
    + by rewrite Hr'.
  - destruct (route_registration_id (H := demo_rest.world) 0 (demo_rest.freshRest true) 3
                (demo_rest.route " a " "/a") "put" (demo_rest.freshWorld true)
                eq_refl eq_refl) as [_ Hadd].
    destruct (Hadd 0 ltac:(split; [|right]; reflexivity)) as (w' & _ & [_ (r' & Hr' & Hst & _)] & res & HAdd & Hres).
    exists w'. split.
    + change (4 + 0) with 4 in HAdd. rewrite HAdd. f_equal.
      destruct Hres as [->|[err ->]]; [done|]. vm_compute in HAdd. discriminate.
    + by rewrite Hr'.
Defined.

(** C10, instance: nothing was registered on the fresh endpoint, and
    removing a route from it returns nil. *)
Lemma RemoveRouter_nil_storage_witness :
  RemoveRouter 0 "GET:/api/v1/msg" (demo_rest.freshWorld true)
  = Ok None (demo_rest.freshWorld true).
Proof.
  exact (RemoveRouter_nil_storage (demo_rest.freshWorld true) 0 (demo_rest.freshRest true)
           "GET:/api/v1/msg" eq_refl eq_refl).
Defined.

(** C4, instance: once the four routers are registered, removing
    [POST:/api/v1/status] returns nil, keeps the three other entries and
    this one, and a second removal reports that the route is not found. *)
Lemma RemoveRouter_disables_witness :
  RemoveRouter 0 "POST:/api/v1/status" (demo_rest.registeredWorld true)
  = Ok None (demo_rest.servingWorld true)
  ∧ (endpoints (demo_rest.servingWorld true) !! 0 ≫= RouterStorage)
    = (endpoints (demo_rest.registeredWorld true) !! 0 ≫= RouterStorage)
  ∧ (size <$> (endpoints (demo_rest.servingWorld true) !! 0 ≫= RouterStorage)) = Some 4
  ∧ RemoveRouter 0 "POST:/api/v1/status" (demo_rest.servingWorld true)
    = Ok (Some "router: POST:/api/v1/status not found") (demo_rest.servingWorld true).
Proof.
  set (w := demo_rest.registeredWorld true).
  set (r := default (demo_rest.freshRest true) (endpoints w !! 0)).
  set (st := default ∅ (RouterStorage r)).
  assert (Hr : endpoints w !! 0 = Some r) by (vm_compute; reflexivity).
  assert (Hst : RouterStorage r = Some st) by (vm_compute; reflexivity).
  destruct (RemoveRouter_disables w 0 r st "POST:/api/v1/status" Hr Hst) as (Hen & _ & _ & _).
  destruct (Hen 2 (mkRouter "POST:/api/v1/status" ["POST"] false
                     (Some (mkFrom " /api/v1/status " (Some true)))))
    as (Hrun & Hkept & _); [vm_compute; reflexivity..|].
  split; [|split; [|split]].
  - rewrite Hrun. vm_compute. reflexivity.
  - vm_compute. reflexivity.
  - vm_compute. reflexivity.
  - vm_compute. reflexivity.
Defined.

(** C4 as stated fails in two ways.  On the fresh endpoint, whose storage
    is nil, the id is absent and the call returns nil, not an error.  And
    the router registered under the caller's id [ a ] is present and
    enabled, yet removing [ a ] reports it as not found and leaves it
    enabled, since the lookup trims the id. *)
Lemma RemoveRouter_not_found_counterexample :
  RemoveRouter 0 "GET:/api/v1/msg" (demo_rest.freshWorld true)
  = Ok None (demo_rest.freshWorld true)
  ∧ default ∅ (endpoints (demo_rest.registeredWorld true) !! 0 ≫= RouterStorage) !! " a "
    = Some 3
  ∧ (disable <$> routers (demo_rest.registeredWorld true) !! 3) = Some false
  ∧ RemoveRouter 0 " a " (demo_rest.registeredWorld true)
    = Ok (Some "router: a not found") (demo_rest.registeredWorld true).
Proof. split; [|split; [|split]]; vm_compute; reflexivity. Qed.

(** C3, instance: the endpoint holds four routes, one of them removed and
    one that the HTTP router refuses.  A restart returns nil; the storage
    then holds the three enabled routes; the two well-formed ones are the
    handles of the new surface, the removed one is not among them, and the
    refusal of the last one is in the log. *)
Lemma Restart_replays_enabled_witness :
  ∃ w' r' s',
    Restart (H := demo_rest.world) 5 0 (demo_rest.servingWorld true) = Ok None w'
    ∧ endpoints w' !! 0 = Some r' ∧ router r' = Some s'
    ∧ RouterStorage r' = Some {[ "GET:/api/v1/msg" := 1; " a " := 3; "bad" := 4 ]}
    ∧ (∀ h, h ∈ handles s' → hRouter h = 1 ∨ hRouter h = 3 ∨ hRouter h = 4)
    ∧ mkHandle "GET" "/api/v1/msg" 1 true ∈ handles s'
    ∧ mkHandle "PUT" "/a" 3 true ∈ handles s'
    ∧ "rest add router path:=api error:addRouter err :path must begin with '/' in path 'api'"
      ∈ log w'.
Proof.
  set (w := demo_rest.servingWorld true).
  set (r := default (demo_rest.freshRest true) (endpoints w !! 0)).
  assert (Hr : endpoints w !! 0 = Some r) by (vm_compute; reflexivity).
  destruct (Restart_replays_enabled (H := demo_rest.world) 0 0 r w Hr) as [Hself _].
  destruct Hself as [_ Hok].
  { split; [|right]; vm_compute; reflexivity. }
  { apply storageWf_check. apply (bool_decide_unpack _). vm_compute. exact I. }
  destruct (Hok eq_refl)
    as (w' & r' & s' & Hrun & Hr' & Hs' & _ & Hst & Hdone & _ & _ & Hhandles & _).
  exists w', r', s'. split; [done|]. split; [done|]. split; [done|].
  assert (Hw' : Restart (H := demo_rest.world) 5 0 w = Ok None w') by done.
  vm_compute in Hw'. injection Hw' as <-.
  split; [rewrite Hst; vm_compute; reflexivity|].
  vm_compute in Hr'. injection Hr' as <-. vm_compute in Hs'. injection Hs' as <-.
  split.
  { intros h [->|[->|[]%elem_of_nil]%elem_of_cons]%elem_of_cons; simpl; auto. }
  split; [repeat constructor|]. split; [repeat constructor|]. repeat constructor.
Defined.

(** C3 as stated fails on an endpoint without a logger: the same restart
    returns nil, the refused route has no handle on the new surface, and
    nothing is logged. *)
Lemma Restart_unlogged_counterexample :
  ∃ w' r' s',
    Restart (H := demo_rest.world) 5 0 (demo_rest.servingWorld false) = Ok None w'
    ∧ endpoints w' !! 0 = Some r' ∧ router r' = Some s'
    ∧ (default ∅ (RouterStorage r') !! "bad") = Some 4
    ∧ (∀ h, h ∈ handles s' → hRouter h ≠ 4)
    ∧ log (demo_rest.servingWorld false) = [] ∧ log w' = [].
Proof.
  eexists _, _, _. split; [vm_compute; reflexivity|].
  split; [vm_compute; reflexivity|]. split; [reflexivity|].
  split; [vm_compute; reflexivity|]. split; [|split; vm_compute; reflexivity].
  intros h [->|[->|[]%elem_of_nil]%elem_of_cons]%elem_of_cons; simpl; discriminate.
Qed.

End rest_spec.

(* ===================================================================== *)
(** * Further properties of the REST endpoint                            *)
(* ===================================================================== *)

Module rest_props.
Import engine endpoint rest rest_spec.

Section routes.
Context `{RestWorld}.

(** ** Registering several routes *)

Lemma storeRoute_missing a method item w :
  routers w !! item = None → storeRoute a method item w = Panic nilDereference w.
Proof. intros Hno. unfold storeRoute, FromToString, bind, getRouter. by rewrite Hno. Qed.

Lemma withRoute_fields method item ro r :
  InstanceId (withRoute method item ro r) = InstanceId r
  ∧ NodeType (withRoute method item ro r) = NodeType r
  ∧ Config' (withRoute method item ro r) = Config' r
  ∧ router (withRoute method item ro r) = router r
  ∧ started (withRoute method item ro r) = started r.
Proof. done. Qed.

(** On a shared endpoint [addRouter] registers the first router of its
    list and nothing else: whatever follows the first router is ignored,
    since the call returns from inside the loop with the result of the
    pooled instance's [addRouter]. *)
Theorem addRouter_shared_first_only fuel a r method item others w :
  endpoints w !! a = Some r → InstanceId r ≠ "" →
  addRouter fuel a method (item :: others) w = addRouter fuel a method [item] w.
Proof.
  intros Hr Hshared. destruct fuel as [|fuel]; [done|]. cbn [addRouter].
  rewrite !(bind_Ok _ _ _ _ _ (getRest_Ok _ _ _ Hr)).
  set (r0 := match RouterStorage r with None => setRouterStorage (Some ∅) r | Some _ => r end).
  assert (Hpre : (match RouterStorage r with
                  | None => modifyRest a (setRouterStorage (Some ∅))
                  | Some _ => ret tt
                  end) w = Ok tt (putRest a r0 w)).
  { unfold r0. destruct (RouterStorage r).
    - by rewrite putRest_id.
    - by apply modifyRest_Ok. }
  rewrite !(bind_Ok _ _ _ _ _ Hpre).
  destruct (routers (putRest a r0 w) !! item) as [ro|] eqn:Hro.
  - rewrite !(bind_Ok _ _ _ _ _ (storeRoute_Ok a r0 item ro _ _ (putRest_lookup _ _ _) Hro)).
    rewrite !(bind_Ok _ _ _ _ _ (getRest_Ok _ _ _ (putRest_lookup _ _ _))).
    assert (Hid : InstanceId (withRoute (gostrings.ToUpper method) item ro r0) = InstanceId r).
    { unfold r0. by destruct (RouterStorage r). }
    destruct (decide (InstanceId (withRoute (gostrings.ToUpper method) item ro r0) ≠ "")) as [_|Hne];
      [done|]. by rewrite Hid in Hne.
  - by rewrite !(bind_Panic _ _ _ _ _ (storeRoute_missing _ _ _ _ Hro)).
Qed.

(** On a self-hosted endpoint [addRouter] registers the routers of its list
    one after the other.  The first one is stored and handed to the HTTP
    router; if it is accepted the call goes on with the rest of the list as
    a call of its own would, and if it is refused the call panics there:
    the refused route stays in the storage without a handle and the routers
    after it are never touched. *)
Theorem addRouter_one_by_one fuel a r item ro others method w :
  endpoints w !! a = Some r → selfHosted r → routers w !! item = Some ro →
  let M := gostrings.ToUpper method in
  let r2 := ensureRouter (withRoute M item ro r) in
  let h := handleOf M item ro in
  addRouter (4 + fuel) a method (item :: others) w
  = match httprouter_Handle (handles (surfaceOf r2)) (hMethod h) (hPath h) with
    | Some msg => Panic msg (putRest a r2 (putRouter item (registered M ro) w))
    | None => addRouter (4 + fuel) a method others
                (putRest a (withHandle h r2) (putRouter item (registered M ro) w))
    end.
Proof.
  intros Hr Hself Hro M r2 h. cbn [addRouter Nat.add]. fold M.
  rewrite (bind_Ok _ _ _ _ _ (getRest_Ok _ _ _ Hr)).
  set (r0 := match RouterStorage r with None => setRouterStorage (Some ∅) r | Some _ => r end).
  assert (Hpre : (match RouterStorage r with
                  | None => modifyRest a (setRouterStorage (Some ∅))
                  | Some _ => ret tt
                  end) w = Ok tt (putRest a r0 w)).
  { unfold r0. destruct (RouterStorage r).
    - by rewrite putRest_id.
    - by apply modifyRest_Ok. }
  rewrite (bind_Ok _ _ _ _ _ Hpre).
  rewrite (bind_Ok _ _ _ _ _ (storeRoute_Ok a r0 item ro M _ (putRest_lookup _ _ _) Hro)).
  rewrite putRouter_putRest, putRest_putRest.
  assert (Hwith : withRoute M item ro r0 = withRoute M item ro r).
  { unfold r0, withRoute. destruct r as [? ? ? ? ? ? ? [st|] ?]; done. }
  rewrite Hwith. set (r1 := withRoute M item ro r).
  assert (Hself1 : selfHosted r1) by (by destruct Hself).
  rewrite (bind_Ok _ _ _ _ _ (getRest_Ok _ _ _ (putRest_lookup _ _ _))).
  destruct (decide (InstanceId r1 ≠ "")) as [Hne|_]; [by destruct Hself1|].
  rewrite (bind_Ok _ _ _ _ _ (ensure_router_run _ _ _ _ (putRest_lookup _ _ _) Hself1)).
  rewrite putRest_putRest. fold r2.
  set (W := putRest a r2 (putRouter item (registered M ro) w)).
  assert (HroW : routers W !! item = Some (registered M ro)) by apply lookup_insert_eq.
  rewrite (bind_Ok _ _ _ _ _ (getRouter_Ok _ _ _ HroW)).
  destruct (ensureRouter_fields r1) as (_ & _ & _ & _ & [s Hs] & _ & Hst2).
  change (router r2 = Some s) in Hs. change (RouterStorage r2 = RouterStorage r1) in Hst2.
  pose proof (Handle'_run a r2 s (hMethod h) (hPath h) item (hWait h) W (putRest_lookup _ _ _) Hs)
    as Hrun.
  change (Handle' a M (convertPathParams (routePath ro)) item _)
    with (Handle' a (hMethod h) (hPath h) item (hWait h)).
  replace (surfaceOf r2) with s by (unfold surfaceOf; by rewrite Hs).
  destruct (httprouter_Handle (handles s) (hMethod h) (hPath h)) as [msg|].
  - by rewrite (bind_Panic _ _ _ _ _ Hrun).
  - rewrite (bind_Ok _ _ _ _ _ Hrun). unfold W. rewrite putRest_putRest.
    set (W' := putRest a _ _).
    assert (Hr' : endpoints W' !! a
                  = Some (withHandle (mkHandle (hMethod h) (hPath h) item (hWait h)) r2))
      by apply putRest_lookup.
    rewrite (bind_Ok _ _ _ _ _ (getRest_Ok _ _ _ Hr')).
    change (RouterStorage (withHandle _ r2)) with (RouterStorage r2). rewrite Hst2.
    done.
Qed.

(** ** A route from registration to removal *)

(** The round trip of an enabled router whose id has no surrounding
    blanks.  When [AddRouter] registers a router that is not disabled on a
    self-hosted endpoint and the id it returns is one that [TrimSpace]
    leaves as it is, the route is served under the handle of its method and
    path.  [RemoveRouter] with that id returns nil; from then on the same
    handle answers "not found", although handle and storage entry are still
    there, and a second [RemoveRouter] reports that the route is not found.
    (A router registered while disabled is not served, and an id with
    surrounding blanks is not found by [RemoveRouter]: both are
    preconditions here.) *)
Theorem route_round_trip fuel a r item ro param w routeId w1 :
  endpoints w !! a = Some r → selfHosted r → routers w !! item = Some ro →
  disable ro = false →
  AddRouter (4 + fuel) a (Some item) [param] w = Ok (routeId, None) w1 →
  gostrings.TrimSpace routeId = routeId →
  let h := handleOf (gostrings.ToUpper param) item ro in
  ∃ r1 s1 w2,
    endpoints w1 !! a = Some r1 ∧ router r1 = Some s1 ∧ h ∈ handles s1
    ∧ handler h w1 = Ok (Processed item (negb (hWait h))) w1
    ∧ RemoveRouter a routeId w1 = Ok None w2
    ∧ handler h w2 = Ok NotFound404 w2
    ∧ endpoints w2 = endpoints w1
    ∧ RemoveRouter a routeId w2 = Ok (Some ("router: " +:+ routeId +:+ " not found")) w2.
Proof.
  intros Hr Hself Hro Hen HAdd Htrim h.
  pose proof (AddRouter_self fuel a r item ro param [] w Hr Hself Hro) as Hrun.
  cbv zeta in Hrun. change (S (S (S (S fuel)))) with (4 + fuel) in Hrun.
  rewrite Hrun in HAdd. fold h in HAdd.
  set (M := gostrings.ToUpper param) in *.
  set (r2 := ensureRouter (withRoute M item ro r)) in *.
  destruct (httprouter_Handle _ _ _) as [msg|]; [done|].
  injection HAdd as <- <-.
  set (w1 := putRest a (withHandle h r2) (putRouter item (registered M ro) w)).
  assert (Hr1 : endpoints w1 !! a = Some (withHandle h r2)) by apply putRest_lookup.
  assert (Hro1 : routers w1 !! item = Some (registered M ro)) by apply lookup_insert_eq.
  assert (Hst : RouterStorage (withHandle h r2)
                = Some (<[registeredId M ro := item]> (default ∅ (RouterStorage r)))).
  { change (RouterStorage (withHandle h r2)) with (RouterStorage r2). unfold r2.
    by destruct (ensureRouter_fields (withRoute M item ro r)) as (_ & _ & _ & _ & _ & _ & ->). }
  set (gone := mkRouter (registeredId M ro) [M] true (from ro)).
  exists (withHandle h r2), (mkSurface (handles (surfaceOf r2) ++ [h]) (GlobalOPTIONS (surfaceOf r2))),
    (putRouter item gone w1).
  split; [done|]. split; [done|]. split; [apply elem_of_app; right; by constructor|].
  split.
  { unfold handler. change (hRouter h) with item.
    rewrite (bind_Ok _ _ _ _ _ (IsDisable_Ok _ _ _ Hro1)). simpl. by rewrite Hen. }
  split.
  { unfold RemoveRouter. rewrite Htrim.
    rewrite (bind_Ok _ _ _ _ _ (getRest_Ok _ _ _ Hr1)), Hst, lookup_insert_eq.
    rewrite (bind_Ok _ _ _ _ _ (IsDisable_Ok _ _ _ Hro1)). simpl. rewrite Hen. simpl.
    by rewrite (bind_Ok _ _ _ _ _ (Disable_Ok _ true _ _ Hro1)). }
  split.
  { unfold handler. change (hRouter h) with item.
    by rewrite (bind_Ok _ _ _ _ _ (IsDisable_Ok _ _ _ (putRouter_lookup _ _ _))). }
  split; [done|].
  unfold RemoveRouter. rewrite Htrim.
  assert (Hr2 : endpoints (putRouter item gone w1) !! a = Some (withHandle h r2)) by done.
  rewrite (bind_Ok _ _ _ _ _ (getRest_Ok _ _ _ Hr2)), Hst, lookup_insert_eq.
  by rewrite (bind_Ok _ _ _ _ _ (IsDisable_Ok _ _ _ (putRouter_lookup _ _ _))).
Qed.

(** [deleteRouter] removes exactly the entry stored under the trimmed id:
    afterwards [HasRouter] answers false for the trimmed id and as before
    for every other id, the routers themselves are untouched, and on an
    endpoint whose storage is nil the call changes nothing.  An id stored
    with surrounding blanks is therefore out of its reach. *)
Theorem deleteRouter_lookup a r routerId w :
  endpoints w !! a = Some r →
  ∃ w', deleteRouter a routerId w = Ok tt w'
    ∧ routers w' = routers w ∧ log w' = log w ∧ pool w' = pool w
    ∧ (∀ b, b ≠ a → endpoints w' !! b = endpoints w !! b)
    ∧ (RouterStorage r = None → w' = w)
    ∧ HasRouter a (gostrings.TrimSpace routerId) w' = Ok false w'
    ∧ (∀ key, key ≠ gostrings.TrimSpace routerId →
         ∃ has, HasRouter a key w = Ok has w ∧ HasRouter a key w' = Ok has w').
Proof.
  intros Hr. unfold deleteRouter. rewrite (bind_Ok _ _ _ _ _ (getRest_Ok _ _ _ Hr)).
  destruct (RouterStorage r) as [storage|] eqn:Hst.
  - rewrite (modifyRest_Ok _ _ _ _ Hr). eexists. split; [reflexivity|].
    split; [done|]. split; [done|]. split; [done|].
    split; [intros b Hb; simpl; by rewrite lookup_insert_ne|]. split; [done|].
    split.
    + rewrite (HasRouter_Ok _ _ _ (putRest_lookup _ _ _)). simpl.
      rewrite lookup_delete_eq. by rewrite bool_decide_eq_false_2 by (by intros [? ?]).
    + intros key Hkey. eexists. split; [by apply HasRouter_Ok|].
      rewrite (HasRouter_Ok _ _ _ (putRest_lookup _ _ _)). simpl. rewrite Hst.
      by rewrite lookup_delete_ne.
  - exists w. split; [done|]. repeat split; try done.
    + by rewrite (HasRouter_Ok _ _ _ Hr), Hst.
    + intros key _. eexists. split; by apply HasRouter_Ok.
Qed.

(** The route storage keeps its shape: if every entry of an endpoint's
    storage is stored under the non-empty id of its router, the same holds
    after [AddRouter] on a self-hosted endpoint (whether the route was
    accepted or refused), after [RemoveRouter] and after [deleteRouter]. *)
Theorem route_storage_invariant fuel a r w :
  endpoints w !! a = Some r → storageWf w (default ∅ (RouterStorage r)) →
  (∀ item ro param rest res w',
     selfHosted r → routers w !! item = Some ro →
     AddRouter (4 + fuel) a (Some item) (param :: rest) w = Ok res w' →
     ∃ r', endpoints w' !! a = Some r' ∧ storageWf w' (default ∅ (RouterStorage r')))
  ∧ (∀ routerId res w',
       RemoveRouter a routerId w = Ok res w' →
       endpoints w' !! a = Some r ∧ storageWf w' (default ∅ (RouterStorage r)))
  ∧ (∀ routerId w',
       deleteRouter a routerId w = Ok tt w' →
       ∃ r', endpoints w' !! a = Some r' ∧ storageWf w' (default ∅ (RouterStorage r'))).
Proof.
  intros Hr Hwf. split; [|split].
  - intros item ro param rest res w' Hself Hro HAdd.
    pose proof (AddRouter_self fuel a r item ro param rest w Hr Hself Hro) as Hrun.
    cbv zeta in Hrun. change (S (S (S (S fuel)))) with (4 + fuel) in Hrun. rewrite Hrun in HAdd.
    set (M := gostrings.ToUpper param) in *.
    destruct (storeRoute_storageWf a r item ro M w _ _ Hr Hro Hwf
                (storeRoute_Ok a r item ro M w Hr Hro)) as (r1 & Hr1 & Hwf1).
    rewrite putRest_lookup in Hr1. injection Hr1 as <-.
    assert (Hst : RouterStorage (ensureRouter (withRoute M item ro r))
                  = RouterStorage (withRoute M item ro r)).
    { by destruct (ensureRouter_fields (withRoute M item ro r)) as (_ & _ & _ & _ & _ & _ & ->). }
    destruct (httprouter_Handle _ _ _) as [msg|]; injection HAdd as _ <-.
    + eexists. split; [apply putRest_lookup|]. by rewrite Hst.
    + eexists. split; [apply putRest_lookup|].
      change (RouterStorage (withHandle _ ?x)) with (RouterStorage x). by rewrite Hst.
  - intros routerId res w' Hrun. by apply (RemoveRouter_storageWf a routerId w res).
  - intros routerId w'. unfold deleteRouter.
    rewrite (bind_Ok _ _ _ _ _ (getRest_Ok _ _ _ Hr)).
    destruct (RouterStorage r) as [storage|] eqn:Hst.
    + rewrite (modifyRest_Ok _ _ _ _ Hr). intros [= <-]. eexists. split; [apply putRest_lookup|].
      simpl. intros key p [_ Hkey]%lookup_delete_Some. by apply (Hwf key p).
    + intros [= <-]. exists r. by rewrite Hst.
Qed.

(** ** The shortcuts *)

(** The shortcuts cannot report a failed registration, and they do not
    catch a panic.  For each of [GET], [HEAD], [OPTIONS], [POST], [PUT],
    [PATCH] and [DELETE] and one router: on a self-hosted endpoint whose
    HTTP router refuses the route, the shortcut panics where [AddRouter]
    with the same method returns the error "addRouter err :..."; on a
    shared endpoint whose pooled instance cannot be found, the shortcut
    returns the endpoint as if nothing had happened where [AddRouter]
    returns the error "node resources not found id=...".  In both cases the
    route is left in the endpoint's storage, registered with no HTTP router. *)
Theorem shortcuts_hide_failures fuel a r item ro w shortcut method :
  (shortcut, method) ∈ [(GET, "GET"); (HEAD, "HEAD"); (OPTIONS, "OPTIONS"); (POST, "POST");
                        (PUT, "PUT"); (PATCH, "PATCH"); (DELETE, "DELETE")] →
  endpoints w !! a = Some r → routers w !! item = Some ro →
  let stored := putRouter item (registered method ro) w in
  (selfHosted r →
   let r2 := ensureRouter (withRoute method item ro r) in
   let h := handleOf method item ro in
   ∀ msg, httprouter_Handle (handles (surfaceOf r2)) (hMethod h) (hPath h) = Some msg →
     shortcut (4 + fuel) a [item] w = Panic msg (putRest a r2 stored)
     ∧ AddRouter (4 + fuel) a (Some item) [method] w
       = Ok ("", Some ("addRouter err :" +:+ msg)) (putRest a r2 stored))
  ∧ (InstanceId r ≠ "" → pool w !! InstanceId r = None →
     let w1 := putRest a (withRoute method item ro r) stored in
     shortcut (2 + fuel) a [item] w = Ok a w1
     ∧ AddRouter (2 + fuel) a (Some item) [method] w
       = Ok (registeredId method ro, Some ("node resources not found id=" +:+ InstanceId r)) w1).
Proof.
  intros Hin Hr Hro stored.
  assert (Hupper : gostrings.ToUpper method = method).
  { repeat (apply elem_of_cons in Hin as [[= _ ->]|Hin]; [reflexivity|]).
    by apply elem_of_nil in Hin. }
  assert (Hshortcut : ∀ fuel', shortcut fuel' a [item] = (addRouter fuel' a method [item];; ret a)).
  { repeat (apply elem_of_cons in Hin as [[= -> ->]|Hin]; [reflexivity|]).
    by apply elem_of_nil in Hin. }
  split.
  - intros Hself r2 h msg Hrefused.
    pose proof (addRouter_self fuel a r item ro method w Hr Hself Hro) as Hadd.
    pose proof (AddRouter_self fuel a r item ro method [] w Hr Hself Hro) as HAdd.
    cbv zeta in Hadd, HAdd. rewrite Hupper in Hadd, HAdd. fold r2 h in Hadd, HAdd.
    rewrite Hrefused in Hadd, HAdd. split; [|exact HAdd].
    rewrite Hshortcut. by rewrite (bind_Panic _ _ _ _ _ Hadd).
  - intros Hshared Hpool w1.
    assert (Hadd : addRouter (2 + fuel) a method [item] w
                   = Ok (Some ("node resources not found id=" +:+ InstanceId r)) w1).
    { cbn [addRouter Nat.add]. rewrite Hupper.
      rewrite (bind_Ok _ _ _ _ _ (getRest_Ok _ _ _ Hr)).
      set (r0 := match RouterStorage r with None => setRouterStorage (Some ∅) r | Some _ => r end).
      assert (Hpre : (match RouterStorage r with
                      | None => modifyRest a (setRouterStorage (Some ∅))
                      | Some _ => ret tt
                      end) w = Ok tt (putRest a r0 w)).
      { unfold r0. destruct (RouterStorage r).
        - by rewrite putRest_id.
        - by apply modifyRest_Ok. }
      rewrite (bind_Ok _ _ _ _ _ Hpre).
      rewrite (bind_Ok _ _ _ _ _ (storeRoute_Ok a r0 item ro method _ (putRest_lookup _ _ _) Hro)).
      rewrite putRouter_putRest, putRest_putRest.
      assert (Hwith : withRoute method item ro r0 = withRoute method item ro r).
      { unfold r0, withRoute. destruct r as [? ? ? ? ? ? ? [st|] ?]; done. }
      rewrite Hwith. fold stored. fold w1.
      assert (Hr1 : endpoints w1 !! a = Some (withRoute method item ro r)) by apply putRest_lookup.
      rewrite (bind_Ok _ _ _ _ _ (getRest_Ok _ _ _ Hr1)).
      change (InstanceId (withRoute method item ro r)) with (InstanceId r).
      destruct (decide (InstanceId r ≠ "")) as [_|Hne]; [|done].
      cbn [SharedNode_Get]. unfold bind at 1.
      rewrite (bind_Ok _ _ _ _ _ (getRest_Ok _ _ _ Hr1)).
      change (InstanceId (withRoute method item ro r)) with (InstanceId r).
      destruct (decide (InstanceId r ≠ "")) as [_|Hne]; [|done].
      change (pool w1) with (pool w). by rewrite Hpool. }
    split.
    + rewrite Hshortcut. by rewrite (bind_Ok _ _ _ _ _ Hadd).
    + unfold AddRouter, recover. rewrite Hupper.
      rewrite (bind_Ok _ _ _ _ _ Hadd).
      assert (Hro1 : routers w1 !! item = Some (registered method ro)) by apply lookup_insert_eq.
      by rewrite (bind_Ok _ _ _ _ _ (GetId_Ok _ _ _ Hro1)).
Qed.

(** ** The surface and the server *)

(** [newRouter] on a self-hosted endpoint throws every handle away and
    keeps the route storage: the endpoint gets an empty surface, whose
    global OPTIONS handler is set exactly when CORS is allowed, and the
    storage, the server and the started flag stay as they are.  With CORS
    allowed every call also adds one interceptor to those the endpoint has
    already. *)
Theorem newRouter_resets_surface fuel a r w :
  endpoints w !! a = Some r → selfHosted r →
  ∃ r', newRouter (3 + fuel) a w = Ok tt (putRest a r' w)
    ∧ router r' = Some (mkSurface [] (AllowCors (Config' r)))
    ∧ interceptors r' = (if AllowCors (Config' r) then S (interceptors r) else interceptors r)
    ∧ RouterStorage r' = RouterStorage r ∧ started r' = started r
    ∧ HttpServer r' = HttpServer r ∧ Config' r' = Config' r.
Proof.
  intros Hr Hself. exists (freshRouter r). split; [by apply newRouter_self|].
  destruct (freshRouter_fields r) as (_ & Hc & _ & Hh & Hro & Hs & Hst).
  split; [done|]. split; [|done].
  unfold freshRouter, inited. destruct (AllowCors (Config' r)); [|done].
  by destruct (SharedNode_IsInit _).
Qed.

Lemma inited_id r : SharedNode_IsInit r = true → inited r = r.
Proof. unfold inited. by intros ->. Qed.

Lemma ensureRouter_id r s : router r = Some s → ensureRouter r = r.
Proof. unfold ensureRouter. by intros ->. Qed.

Lemma withServer_inited r :
  SharedNode_IsInit (withServer r) = true ∧ is_Some (router (withServer r))
  ∧ HttpServer (withServer r) = Some (Server (Config' r))
  ∧ Config' (withServer r) = Config' r ∧ started (withServer r) = started r.
Proof.
  unfold withServer.
  destruct (ensureRouter_fields (inited r)) as (_ & Hc & _ & _ & Hro & Hs & _).
  destruct (inited_fields r) as (_ & Hc' & _ & _ & _ & Hs' & _).
  split; [|split; [done|]; split; [done|]; split; [simpl; congruence|simpl; congruence]].
  unfold SharedNode_IsInit. apply bool_decide_eq_true_2.
  change (NodeType (setHttpServer _ ?x)) with (NodeType x).
  assert (Hn : NodeType (inited r) ≠ "").
  { unfold inited, SharedNode_IsInit. case_bool_decide; [done|]. simpl. discriminate. }
  unfold ensureRouter. destruct (router (inited r)); [done|].
  unfold freshRouter. destruct (AllowCors _); [|done]. simpl.
  unfold inited, SharedNode_IsInit. simpl. by rewrite bool_decide_eq_true_2.
Qed.

Lemma withServer_idem r : withServer (withServer r) = withServer r.
Proof.
  destruct (withServer_inited r) as (Hinit & [s Hs] & Hsrv & Hc & _).
  unfold withServer at 1. rewrite (inited_id _ Hinit), (ensureRouter_id _ _ Hs), Hc.
  destruct (withServer r). simpl in *. by rewrite Hsrv.
Qed.

(** [Start] listens once.  On a self-hosted endpoint that is not started:
    when listening succeeds, [Start] returns nil, the endpoint is started,
    and every later [Start] returns nil without listening again or changing
    anything; when listening fails, [Start] returns the error of
    [net.Listen], the endpoint stays not started, nothing is logged, and a
    later [Start] tries the same address again. *)
Theorem Start_listens_once fuel a r w :
  endpoints w !! a = Some r → selfHosted r → started r = false →
  ∃ w1, Start (4 + fuel) a w = Ok (net_Listen (listenAddr (withServer r))) w1
    ∧ Started a w1 = Ok (bool_decide (net_Listen (listenAddr (withServer r)) = None)) w1
    ∧ routers w1 = routers w ∧ pool w1 = pool w
    ∧ (net_Listen (listenAddr (withServer r)) = None →
       ∀ fuel', Start (4 + fuel') a w1 = Ok None w1)
    ∧ (∀ err, net_Listen (listenAddr (withServer r)) = Some err →
       log w1 = log w
       ∧ ∀ fuel', Start (4 + fuel') a w1 = Ok (Some err) w1).
Proof.
  intros Hr Hself Hstopped.
  pose proof (Start_self fuel a r w Hr Hself Hstopped) as Hrun.
  change (S (S (S (S fuel)))) with (4 + fuel) in Hrun.
  destruct (withServer_inited r) as (Hinit & [s Hs] & Hsrv & Hc & Hst).
  assert (Hself2 : selfHosted (withServer r)).
  { unfold withServer. by apply ensureRouter_selfHosted, inited_selfHosted. }
  destruct (net_Listen (listenAddr (withServer r))) as [err|] eqn:Hlisten.
  - eexists. split; [exact Hrun|].
    set (w1 := putRest a (withServer r) w).
    assert (Hr1 : endpoints w1 !! a = Some (withServer r)) by apply putRest_lookup.
    split.
    { unfold Started. rewrite (bind_Ok _ _ _ _ _ (getRest_Ok _ _ _ Hr1)).
      rewrite Hst, Hstopped. done. }
    split; [done|]. split; [done|]. split; [done|].
    intros err' [= <-]. split; [done|]. intros fuel'.
    pose proof (Start_self fuel' a (withServer r) w1 Hr1 Hself2 ltac:(congruence)) as Hagain.
    rewrite withServer_idem, Hlisten in Hagain. unfold w1 in Hagain at 2.
    rewrite putRest_putRest in Hagain. exact Hagain.
  - eexists. split; [exact Hrun|].
    set (r1 := setStarted true (withServer r)).
    set (w1 := logged (Logger r) (startLine r) (putRest a r1 w)).
    assert (Hr1 : endpoints w1 !! a = Some r1).
    { unfold w1. rewrite logged_endpoints. apply putRest_lookup. }
    split.
    { unfold Started. by rewrite (bind_Ok _ _ _ _ _ (getRest_Ok _ _ _ Hr1)). }
    split; [unfold w1; by rewrite logged_routers|].
    split; [unfold w1; by rewrite logged_pool|].
    split; [|done]. intros _ fuel'. unfold Start. change (4 + fuel') with (S (S (S (S fuel')))).
    assert (Hself1 : selfHosted r1) by done.
    rewrite (bind_Ok _ _ _ _ _ (checkIsInitSharedNode_self _ _ _ Hr1 Hself1)).
    rewrite (inited_id r1 Hinit), (putRest_id _ _ _ Hr1).
    rewrite (bind_Ok _ _ _ _ _ (SharedNode_Get_self _ a r1 s w1 Hr1 (proj1 Hself1) Hinit Hs)).
    unfold startServer. by rewrite (bind_Ok _ _ _ _ _ (getRest_Ok _ _ _ Hr1)).
Qed.

(** [Start] on a shared endpoint starts the pooled instance, not the
    endpoint itself.  When the endpoint's shared node is initialised and
    refers to a pooled instance that is not started, [Start] is that
    instance's [startServer]: the instance gets the server and, when
    listening succeeds, is started, while the endpoint's own started flag
    and server stay as they are, and [GetServer] on the endpoint yields the
    instance's server.  When the instance cannot be found, [Start] returns
    "node resources not found id=..." and changes nothing. *)
Theorem Start_shared fuel a r w :
  endpoints w !! a = Some r → InstanceId r ≠ "" → SharedNode_IsInit r = true →
  (∀ b rb, pool w !! InstanceId r = Some b → endpoints w !! b = Some rb → b ≠ a →
     started rb = false → HttpServer r = None →
     let rb2 := setHttpServer (Some (Server (Config' rb))) rb in
     ∃ w1, Start (2 + fuel) a w = Ok (net_Listen (listenAddr rb2)) w1
       ∧ endpoints w1 !! a = Some r
       ∧ Started a w1 = Ok (started r) w1
       ∧ Started b w1 = Ok (bool_decide (net_Listen (listenAddr rb2) = None)) w1
       ∧ GetServer (2 + fuel) a w1 = Ok (Some (Server (Config' rb))) w1)
  ∧ (pool w !! InstanceId r = None →
     Start (2 + fuel) a w = Ok (Some ("node resources not found id=" +:+ InstanceId r)) w).
Proof.
  intros Hr Hshared Hinit.
  assert (Hcheck : checkIsInitSharedNode a w = Ok None w).
  { unfold checkIsInitSharedNode. rewrite (bind_Ok _ _ _ _ _ (getRest_Ok _ _ _ Hr)).
    by rewrite Hinit. }
  assert (Hget : ∀ fuel' w', endpoints w' !! a = Some r → pool w' = pool w →
            SharedNode_Get (S fuel') a w'
            = Ok (match pool w !! InstanceId r with
                  | Some shared => inl shared
                  | None => inr ("node resources not found id=" +:+ InstanceId r)
                  end) w').
  { intros fuel' w' Hr' Hpool. cbn [SharedNode_Get].
    rewrite (bind_Ok _ _ _ _ _ (getRest_Ok _ _ _ Hr')).
    destruct (decide (InstanceId r ≠ "")) as [_|Hne]; [|done].
    rewrite Hpool. by destruct (pool w !! InstanceId r). }
  split.
  - intros b rb Hpool Hrb Hba Hstopped Hnoserver rb2.
    pose proof (startServer_run b rb w Hrb Hstopped) as Hrun. cbv zeta in Hrun. fold rb2 in Hrun.
    assert (HStart : Start (2 + fuel) a w = startServer b w).
    { unfold Start. rewrite (bind_Ok _ _ _ _ _ Hcheck).
      change (2 + fuel) with (S (S fuel)).
      rewrite (bind_Ok _ _ _ _ _ (Hget _ w Hr eq_refl)). by rewrite Hpool. }
    rewrite HStart, Hrun.
    destruct (net_Listen (listenAddr rb2)) as [err|] eqn:Hlisten.
    + eexists. split; [reflexivity|].
      set (w1 := putRest b rb2 w).
      assert (Hr1 : endpoints w1 !! a = Some r) by (unfold w1; by rewrite putRest_lookup_ne).
      assert (Hrb1 : endpoints w1 !! b = Some rb2) by apply putRest_lookup.
      split; [done|].
      split; [unfold Started; by rewrite (bind_Ok _ _ _ _ _ (getRest_Ok _ _ _ Hr1))|].
      split.
      { unfold Started. rewrite (bind_Ok _ _ _ _ _ (getRest_Ok _ _ _ Hrb1)).
        simpl. by rewrite Hstopped. }
      unfold GetServer. rewrite (bind_Ok _ _ _ _ _ (getRest_Ok _ _ _ Hr1)), Hnoserver.
      destruct (decide (InstanceId r ≠ "")) as [_|Hne]; [|done].
      change (2 + fuel) with (S (S fuel)).
      rewrite (bind_Ok _ _ _ _ _ (Hget _ w1 Hr1 eq_refl)), Hpool.
      by rewrite (bind_Ok _ _ _ _ _ (getRest_Ok _ _ _ Hrb1)).
    + eexists. split; [reflexivity|].
      set (w1 := logged (Logger rb) (startLine rb) (putRest b (setStarted true rb2) w)).
      assert (Hr1 : endpoints w1 !! a = Some r).
      { unfold w1. rewrite logged_endpoints. by rewrite putRest_lookup_ne. }
      assert (Hrb1 : endpoints w1 !! b = Some (setStarted true rb2)).
      { unfold w1. rewrite logged_endpoints. apply putRest_lookup. }
      assert (Hpool1 : pool w1 = pool w) by (unfold w1; by rewrite logged_pool).
      split; [done|].
      split; [unfold Started; by rewrite (bind_Ok _ _ _ _ _ (getRest_Ok _ _ _ Hr1))|].
      split; [unfold Started; by rewrite (bind_Ok _ _ _ _ _ (getRest_Ok _ _ _ Hrb1))|].
      unfold GetServer. rewrite (bind_Ok _ _ _ _ _ (getRest_Ok _ _ _ Hr1)), Hnoserver.
      destruct (decide (InstanceId r ≠ "")) as [_|Hne]; [|done].
      change (2 + fuel) with (S (S fuel)).
      rewrite (bind_Ok _ _ _ _ _ (Hget _ w1 Hr1 Hpool1)), Hpool.
      by rewrite (bind_Ok _ _ _ _ _ (getRest_Ok _ _ _ Hrb1)).
  - intros Hpool. unfold Start. rewrite (bind_Ok _ _ _ _ _ Hcheck).
    change (2 + fuel) with (S (S fuel)).
    rewrite (bind_Ok _ _ _ _ _ (Hget _ w Hr eq_refl)). by rewrite Hpool.
Qed.

End routes.

(** ** Static files *)

Section static_files.
Import gostrings.

Lemma app_cons c (x y : string) : String c x +:+ y = String c (x +:+ y).
Proof. done. Qed.

Lemma substring_all s : substring 0 (String.length s) s = s.
Proof. induction s as [|c s IH]; simpl; [done|]. by rewrite IH. Qed.

Lemma substring_app_r pre s n :
  substring (String.length pre) n (pre +:+ s) = substring 0 n s.
Proof. induction pre as [|c pre IH]; [done|]. rewrite app_cons. exact IH. Qed.

Lemma substring_app_l pre s :
  substring 0 (String.length pre) (pre +:+ s) = pre.
Proof.
  induction pre as [|c pre IH]; [by destruct s|]. rewrite app_cons. simpl. by rewrite IH.
Qed.

Lemma length_app s t : String.length (s +:+ t) = String.length s + String.length t.
Proof. induction s as [|c s IH]; [done|]. rewrite app_cons. simpl. by rewrite IH. Qed.

Lemma substring_split s n :
  n ≤ String.length s →
  s = substring 0 n s +:+ substring n (String.length s - n) s.
Proof.
  revert n. induction s as [|c s IH]; intros n Hn; simpl in *.
  - by destruct n.
  - destruct n as [|n]; simpl.
    + by rewrite substring_all.
    + rewrite app_cons. f_equal. apply IH. lia.
Qed.

Lemma HasSuffix_app pre suffix : HasSuffix (pre +:+ suffix) suffix = true.
Proof.
  unfold HasSuffix. rewrite length_app.
  rewrite bool_decide_eq_true_2 by lia. simpl.
  apply bool_decide_eq_true_2.
  replace (String.length pre + String.length suffix - String.length suffix)
    with (String.length pre) by lia.
  by rewrite substring_app_r, substring_all.
Qed.

Lemma HasSuffix_split s suffix :
  HasSuffix s suffix = true → ∃ pre, s = pre +:+ suffix.
Proof.
  unfold HasSuffix. intros [Hlen Hsub]%andb_prop.
  apply bool_decide_eq_true_1 in Hlen, Hsub.
  exists (substring 0 (String.length s - String.length suffix) s).
  pose proof (substring_split s (String.length s - String.length suffix) ltac:(lia)) as Hs.
  replace (String.length s - (String.length s - String.length suffix))
    with (String.length suffix) in Hs by lia.
  by rewrite Hsub in Hs.
Qed.

Lemma app_assoc' (s t u : string) : (s +:+ t) +:+ u = s +:+ (t +:+ u).
Proof. induction s as [|c s IH]; [done|]. by rewrite !app_cons, IH. Qed.

Lemma TrimLeft_firstOk s : firstOk (TrimLeft s).
Proof. induction s as [|c s IH]; simpl; [done|]. destruct (isSpace c) eqn:Hc; [done|]. simpl. done. Qed.

Lemma TrimLeft_id s : firstOk s → TrimLeft s = s.
Proof. destruct s as [|c s]; simpl; [done|]. by intros ->. Qed.

Lemma TrimRight_firstOk s : firstOk s → firstOk (TrimRight s).
Proof.
  destruct s as [|c s]; simpl; [done|]. intros Hc.
  destruct (TrimRight s); simpl; [by rewrite Hc|done].
Qed.

Lemma TrimRight_idem s : TrimRight (TrimRight s) = TrimRight s.
Proof.
  induction s as [|c s IH]; simpl; [done|].
  destruct (TrimRight s) as [|d r] eqn:Hs.
  - destruct (isSpace c) eqn:Hc; simpl; [done|]. by rewrite Hc.
  - simpl in *. by rewrite IH.
Qed.

Lemma TrimSpace_firstOk s : firstOk (TrimSpace s).
Proof. apply TrimRight_firstOk, TrimLeft_firstOk. Qed.

Lemma TrimSpace_idem s : TrimSpace (TrimSpace s) = TrimSpace s.
Proof.
  unfold TrimSpace at 1. rewrite (TrimLeft_id _ (TrimSpace_firstOk s)).
  unfold TrimSpace. apply TrimRight_idem.
Qed.

Lemma TrimRight_app s t :
  TrimRight t ≠ "" → TrimRight (s +:+ t) = s +:+ TrimRight t.
Proof.
  intros Ht. induction s as [|c s IH]; [done|]. rewrite !app_cons. simpl. rewrite IH.
  destruct (s +:+ TrimRight t) eqn:Heq; [|done].
  destruct s; [done|]. rewrite app_cons in Heq. discriminate.
Qed.

Lemma TrimSpace_app s t :
  firstOk s → firstOk t → TrimRight t = t → t ≠ "" → TrimSpace (s +:+ t) = s +:+ t.
Proof.
  intros Hs Hf Ht Hne. unfold TrimSpace.
  rewrite TrimLeft_id.
  - rewrite TrimRight_app by (by rewrite Ht). by rewrite Ht.
  - destruct s; [done|]. by rewrite app_cons.
Qed.

Lemma Split_nonempty s sep : Split s sep ≠ [].
Proof.
  induction s as [|c s IH]; simpl; [done|].
  destruct (decide (c = sep)); [done|]. by destruct (Split s sep).
Qed.

Lemma omap_length {A B} (f : A → option B) (l : list A) : length (omap f l) ≤ length l.
Proof.
  induction l as [|x l IH]; [done|]. cbn [omap list_omap]. destruct (f x); simpl; lia.
Qed.

(** Every call of [ServeFiles] that [RegisterStaticFiles] makes has a URL
    path ending in [/*filepath], which is what [ServeFiles] insists on.
    Path and directory are free of surrounding blanks; they come from an
    entry of the comma-separated mapping that has exactly two parts around
    one [=], the directory being the trimmed second part and the path the
    trimmed first part, as it is when it ends in [/*filepath] already, with
    [*filepath] appended when it ends in a slash, and with [/*filepath]
    appended otherwise.  Entries of any other shape are dropped, so there
    are at most as many calls as entries, and none for the empty mapping. *)
Theorem RegisterStaticFiles_paths resourceMapping :
  (∀ urlPath localDir, (urlPath, localDir) ∈ RegisterStaticFiles resourceMapping →
     HasSuffix urlPath "/*filepath" = true
     ∧ TrimSpace urlPath = urlPath ∧ TrimSpace localDir = localDir
     ∧ ∃ item files0 files1,
         item ∈ Split resourceMapping "," ∧ Split item "=" = [files0; files1]
         ∧ localDir = TrimSpace files1
         ∧ (urlPath = TrimSpace files0
            ∨ urlPath = TrimSpace files0 +:+ "*filepath"
            ∨ urlPath = TrimSpace files0 +:+ "/*filepath"))
  ∧ length (RegisterStaticFiles resourceMapping) ≤ length (Split resourceMapping ",")
  ∧ RegisterStaticFiles "" = [].
Proof.
  split; [|split; [|done]].
  - intros urlPath localDir. unfold RegisterStaticFiles.
    destruct (decide (resourceMapping ≠ "")); [|by intros ?%elem_of_nil].
    intros (item & Hitem & Hcall)%list_elem_of_omap.
    destruct (Split item "=") as [|files0 [|files1 [|? ?]]] eqn:Hsplit; try done.
    cbv zeta in Hcall. set (u := TrimSpace files0) in *.
    assert (Hu : firstOk u) by apply TrimSpace_firstOk.
    assert (Hidem : TrimSpace u = u) by apply TrimSpace_idem.
    assert (Hdir : TrimSpace (TrimSpace files1) = TrimSpace files1) by apply TrimSpace_idem.
    destruct (HasSuffix u "/*filepath") eqn:Hsuffix; simpl in Hcall.
    + injection Hcall as <- <-. rewrite Hidem, !Hdir.
      split; [done|]. split; [done|]. split; [done|].
      exists item, files0, files1. split; [done|]. split; [done|]. split; [done|]. by left.
    + destruct (HasSuffix u "/") eqn:Hslash; injection Hcall as <- <-.
      * rewrite !TrimSpace_app by done. rewrite !Hdir.
        destruct (HasSuffix_split _ _ Hslash) as [pre Hpre].
        split.
        { rewrite Hpre, app_assoc'. apply HasSuffix_app. }
        split; [done|]. split; [done|].
        exists item, files0, files1. split; [done|]. split; [done|]. split; [done|].
        right. by left.
      * rewrite !TrimSpace_app by done. rewrite !Hdir.
        split; [apply HasSuffix_app|]. split; [done|]. split; [done|].
        exists item, files0, files1. split; [done|]. split; [done|]. split; [done|].
        right. by right.
  - unfold RegisterStaticFiles. destruct (decide _); [apply omap_length|simpl; lia].
Qed.

End static_files.

(** ** Instances *)

(** An instance: on the shared endpoint a call with two routers stores the
    first one only; the second router is as it was. *)
Lemma addRouter_shared_first_only_witness :
  addRouter (H := demo_rest.world) 9 5 "GET" [1; 2] demo_rest.sharedWorld
  = addRouter (H := demo_rest.world) 9 5 "GET" [1] demo_rest.sharedWorld
  ∧ routers (demo_rest.after (addRouter (H := demo_rest.world) 9 5 "GET" [1; 2])
               demo_rest.sharedWorld) !! 2
    = Some (demo_rest.route "" " /api/v1/status ").
Proof.
  split.
  - exact (addRouter_shared_first_only (H := demo_rest.world) 9 5 demo_rest.sharedRest "GET" 1 [2]
             demo_rest.sharedWorld eq_refl ltac:(discriminate)).
  - vm_compute. reflexivity.
Defined.

(** An instance: on the fresh endpoint a call with two routers registers
    both, in order. *)
Lemma addRouter_one_by_one_witness :
  ∃ w', addRouter (H := demo_rest.world) 4 0 "get" [1; 2] (demo_rest.freshWorld true) = Ok None w'
        ∧ (handles <$> (endpoints w' !! 0 ≫= router))
          = Some [mkHandle "GET" "/api/v1/msg" 1 true; mkHandle "GET" "/api/v1/status" 2 true].
Proof.
  pose proof (addRouter_one_by_one (H := demo_rest.world) 0 0 (demo_rest.freshRest true) 1
                (demo_rest.route "" "/api/v1/msg") [2] "get" (demo_rest.freshWorld true)
                eq_refl ltac:(split; [|right]; reflexivity) eq_refl) as Hrun.
  change (4 + 0) with 4 in Hrun. eexists. split; [rewrite Hrun|]; vm_compute; reflexivity.
Defined.

(** An instance: the route for [/api/v1/msg] is registered, served, removed
    and then answered with "not found". *)
Lemma route_round_trip_witness :
  ∃ w1 w2,
    AddRouter (H := demo_rest.world) 4 0 (Some 1) ["get"] (demo_rest.freshWorld true)
    = Ok ("GET:/api/v1/msg", None) w1
    ∧ handler (mkHandle "GET" "/api/v1/msg" 1 true) w1 = Ok (Processed 1 false) w1
    ∧ RemoveRouter 0 "GET:/api/v1/msg" w1 = Ok None w2
    ∧ handler (mkHandle "GET" "/api/v1/msg" 1 true) w2 = Ok NotFound404 w2.
Proof.
  edestruct (route_round_trip (H := demo_rest.world) 0 0 (demo_rest.freshRest true) 1
               (demo_rest.route "" "/api/v1/msg") "get" (demo_rest.freshWorld true)
               "GET:/api/v1/msg")
    as (r1 & s1 & w2 & _ & _ & _ & Hserved & Hremoved & Hgone & _);
    [reflexivity|split; [|right]; reflexivity|reflexivity|reflexivity
    |vm_compute; reflexivity|reflexivity|].
  eexists _, w2. split; [vm_compute; reflexivity|].
  split; [exact Hserved|]. split; [exact Hremoved|exact Hgone].
Defined.

(** An instance: the route stored under the id [ a ], blanks included, is
    not removed by [deleteRouter] with that id. *)
Lemma deleteRouter_lookup_witness :
  ∃ w', deleteRouter 0 " a " (demo_rest.registeredWorld true) = Ok tt w'
        ∧ HasRouter 0 "a" w' = Ok false w'
        ∧ HasRouter 0 " a " w' = Ok true w'.
Proof.
  set (w := demo_rest.registeredWorld true).
  set (r := default (demo_rest.freshRest true) (endpoints w !! 0)).
  assert (Hr : endpoints w !! 0 = Some r) by (vm_compute; reflexivity).
  destruct (deleteRouter_lookup 0 r " a " w Hr) as (w' & Hrun & _ & _ & _ & _ & _ & Hgone & Hkept).
  exists w'. split; [done|]. split; [exact Hgone|].
  destruct (Hkept " a " ltac:(discriminate)) as (has & Hbefore & Hafter).
  rewrite Hafter. f_equal. vm_compute in Hbefore. by injection Hbefore as <-.
Defined.

(** An instance: the storage of the endpoint with its four routes is in
    shape, and still is after one of them was removed. *)
Lemma route_storage_invariant_witness :
  ∃ r, endpoints (demo_rest.servingWorld true) !! 0 = Some r
       ∧ storageWf (demo_rest.servingWorld true) (default ∅ (RouterStorage r)).
Proof.
  set (w := demo_rest.registeredWorld true).
  set (r := default (demo_rest.freshRest true) (endpoints w !! 0)).
  assert (Hr : endpoints w !! 0 = Some r) by (vm_compute; reflexivity).
  assert (Hwf : storageWf w (default ∅ (RouterStorage r))).
  { apply storageWf_check. apply (bool_decide_unpack _). vm_compute. exact I. }
  destruct (route_storage_invariant (H := demo_rest.world) 0 0 r w Hr Hwf) as (_ & Hremove & _).
  exists r. apply (Hremove "POST:/api/v1/status" None). vm_compute. reflexivity.
Defined.

(** An instance: the router whose path lacks the slash makes [GET] panic
    and [AddRouter] return an error; on the endpoint whose pooled instance
    is unknown [GET] returns as if the route had been registered. *)
Lemma shortcuts_hide_failures_witness :
  (∃ w', GET (H := demo_rest.world) 4 0 [4] (demo_rest.freshWorld true)
         = Panic "path must begin with '/' in path 'api'" w'
         ∧ AddRouter (H := demo_rest.world) 4 0 (Some 4) ["GET"] (demo_rest.freshWorld true)
           = Ok ("", Some "addRouter err :path must begin with '/' in path 'api'") w')
  ∧ (∃ w', GET (H := demo_rest.world) 2 5 [1] demo_rest.orphanWorld = Ok 5 w'
           ∧ AddRouter (H := demo_rest.world) 2 5 (Some 1) ["GET"] demo_rest.orphanWorld
             = Ok ("GET:/api/v1/msg", Some "node resources not found id=srv") w').
Proof.
  split.
  - destruct (shortcuts_hide_failures (H := demo_rest.world) 0 0 (demo_rest.freshRest true) 4
                (demo_rest.route "bad" "api") (demo_rest.freshWorld true) GET "GET"
                ltac:(constructor) eq_refl eq_refl) as [Hself _].
    eexists. exact (Hself ltac:(split; [|right]; reflexivity) _ eq_refl).
  - destruct (shortcuts_hide_failures (H := demo_rest.world) 0 5 demo_rest.sharedRest 1
                (demo_rest.route "" "/api/v1/msg") demo_rest.orphanWorld GET "GET"
                ltac:(constructor) eq_refl eq_refl) as [_ Hshared].
    eexists. exact (Hshared ltac:(discriminate) eq_refl).
Defined.

(** An instance: [newRouter] on the endpoint with its four routes leaves an
    empty surface and the four entries of the storage. *)
Lemma newRouter_resets_surface_witness :
  ∃ w', newRouter (H := demo_rest.world) 3 0 (demo_rest.registeredWorld true) = Ok tt w'
        ∧ (endpoints w' !! 0 ≫= router) = Some (mkSurface [] false)
        ∧ (size <$> (endpoints w' !! 0 ≫= RouterStorage)) = Some 4.
Proof.
  set (w := demo_rest.registeredWorld true).
  set (r := default (demo_rest.freshRest true) (endpoints w !! 0)).
  assert (Hr : endpoints w !! 0 = Some r) by (vm_compute; reflexivity).
  destruct (newRouter_resets_surface (H := demo_rest.world) 0 0 r w Hr
              ltac:(split; [|right]; vm_compute; reflexivity))
    as (r' & Hrun & Hrouter & _ & Hst & _).
  eexists. split; [exact Hrun|]. simpl. rewrite lookup_insert_eq. simpl.
  split; [exact Hrouter|]. rewrite Hst. vm_compute. reflexivity.
Defined.

(** An instance: the fresh endpoint starts, and a second [Start] changes
    nothing. *)
Lemma Start_listens_once_witness :
  ∃ w1, Start (H := demo_rest.world) 4 0 (demo_rest.freshWorld true) = Ok None w1
        ∧ Started 0 w1 = Ok true w1
        ∧ Start (H := demo_rest.world) 4 0 w1 = Ok None w1.
Proof.
  destruct (Start_listens_once (H := demo_rest.world) 0 0 (demo_rest.freshRest true)
              (demo_rest.freshWorld true) eq_refl ltac:(split; [|right]; reflexivity) eq_refl)
    as (w1 & Hrun & Hstarted & _ & _ & Hagain & _).
  exists w1. split; [exact Hrun|]. split; [exact Hstarted|]. exact (Hagain eq_refl 0).
Defined.

(** An instance: starting the shared endpoint starts the first endpoint,
    whose server the shared one then reports. *)
Lemma Start_shared_witness :
  ∃ w1, Start (H := demo_rest.world) 2 5 demo_rest.sharedWorld = Ok None w1
        ∧ Started 5 w1 = Ok false w1 ∧ Started 0 w1 = Ok true w1
        ∧ GetServer (H := demo_rest.world) 2 5 w1 = Ok (Some ":6333") w1.
Proof.
  destruct (Start_shared (H := demo_rest.world) 0 5 demo_rest.sharedRest demo_rest.sharedWorld
              eq_refl ltac:(discriminate) eq_refl) as [Hfound _].
  destruct (Hfound 0 (demo_rest.freshRest true) eq_refl eq_refl ltac:(discriminate) eq_refl eq_refl)
    as (w1 & Hrun & _ & Hown & Hpooled & Hserver).
  exists w1. split; [exact Hrun|]. split; [exact Hown|]. split; [exact Hpooled|exact Hserver].
Defined.

(** An instance: a mapping with four entries, one of them without [=]. *)
Lemma RegisterStaticFiles_paths_witness :
  RegisterStaticFiles "/static=./web, /assets/ = /var/assets ,bad,/files/*filepath=./f"
  = [("/static/*filepath", "./web"); ("/assets/*filepath", "/var/assets");
     ("/files/*filepath", "./f")]
  ∧ gostrings.HasSuffix "/assets/*filepath" "/*filepath" = true.
Proof.
  assert (Hcalls : RegisterStaticFiles
                     "/static=./web, /assets/ = /var/assets ,bad,/files/*filepath=./f"
                   = [("/static/*filepath", "./web"); ("/assets/*filepath", "/var/assets");
                      ("/files/*filepath", "./f")]) by (vm_compute; reflexivity).
  split; [exact Hcalls|].
  destruct (RegisterStaticFiles_paths
              "/static=./web, /assets/ = /var/assets ,bad,/files/*filepath=./f") as [Hpaths _].
  apply (Hpaths "/assets/*filepath" "/var/assets"). rewrite Hcalls. right. left.
Defined.

End rest_props.

(* ===================================================================== *)
(** * Restarting and closing the REST endpoint                           *)
(* ===================================================================== *)

Module rest_lifecycle.
Import engine endpoint rest rest_spec.

Section restart.
Context `{RestWorld}.

(** [Restart] of a self-hosted endpoint that can listen again. *)
Lemma Restart_self_run fuel a r w :
  endpoints w !! a = Some r → selfHosted r → storageWf w (default ∅ (RouterStorage r)) →
  net_Listen (serverAddr r) = None →
  let old := filter (λ kv, isEnabled w kv.2 = true) (default ∅ (RouterStorage r)) in
  ∃ w' r' s',
    Restart (5 + fuel) a w = Ok None w'
    ∧ endpoints w' !! a = Some r' ∧ router r' = Some s' ∧ started r' = true
    ∧ RouterStorage r' = Some old
    ∧ (∀ k p, old !! k = Some p →
         ∃ ro, routers w !! p = Some ro ∧ disable ro = false ∧ id ro = k
           ∧ routers w' !! p = Some (mkRouter k [replayMethod ro] false (from ro))
           ∧ (handleOf (replayMethod ro) p ro ∈ handles s'
              ∨ ∃ msg, Logger r = true → replayErrorLine ro msg ∈ log w'))
    ∧ (∀ p, (∀ k, old !! k ≠ Some p) → routers w' !! p = routers w !! p)
    ∧ (∀ h, h ∈ handles s' →
         ∃ k p ro, old !! k = Some p ∧ routers w !! p = Some ro
                   ∧ h = handleOf (replayMethod ro) p ro)
    ∧ pool w' = pool w
    ∧ (∀ b, b ≠ a → endpoints w' !! b = endpoints w !! b).
Proof.
  intros Hr Hself Hwf Hlisten old.
  assert (Hhead : Restart (5 + fuel) a w
                  = bind (Start (S (S (S (S fuel)))) a)
                         (λ err, match err with
                                 | Some err => ret (Some err)
                                 | None => replay (S (S (S (S fuel)))) a
                                             (rangeOrder (map_to_list old));;
                                           ret None
                                 end) (putRest a (cleared r) w)).
  { cbn [Restart Nat.add].
    rewrite (bind_Ok _ _ _ _ _ (getRest_Ok _ _ _ Hr)).
    destruct (decide (InstanceId r ≠ "")) as [Hne|_]; [by destruct Hself|].
    set (rA := match router r with Some _ => freshRouter r | None => r end).
    assert (Hpre : (match router r with
                    | Some _ => newRouter (S (S (S (S fuel)))) a
                    | None => ret tt
                    end) w = Ok tt (putRest a rA w)).
    { unfold rA. destruct (router r).
      - by apply newRouter_self.
      - by rewrite putRest_id. }
    rewrite (bind_Ok _ _ _ _ _ Hpre).
    rewrite (bind_Ok _ _ _ _ _ (getRest_Ok _ _ _ (putRest_lookup _ _ _))).
    assert (HstA : RouterStorage rA = RouterStorage r).
    { unfold rA. destruct (router r); [|done].
      by destruct (freshRouter_fields r) as (_ & _ & _ & _ & _ & _ & ?). }
    rewrite HstA.
    assert (Hen : enabledRoutes (default ∅ (RouterStorage r)) (putRest a rA w)
                  = Ok old (putRest a rA w)).
    { unfold enabledRoutes. rewrite bool_decide_eq_true_2; [done|].
      intros k p Hk. destruct (Hwf k p Hk) as (_ & ro & Hro & _). by exists ro. }
    rewrite (bind_Ok _ _ _ _ _ Hen).
    rewrite (bind_Ok _ _ _ _ _ (modifyRest_Ok _ _ _ _ (putRest_lookup _ _ _))), putRest_putRest.
    rewrite (bind_Ok _ _ _ _ _ (modifyRest_Ok _ _ _ _ (putRest_lookup _ _ _))), putRest_putRest.
    done. }
  rewrite Hhead. clear Hhead.
  destruct (cleared_facts r Hself) as (HselfB & HstartB & HstB & HlogB & HcfgB & HrouterB).
  pose proof (Start_self fuel a (cleared r) _ (putRest_lookup _ _ w) HselfB HstartB) as HStart.
  assert (HrouterB' : router (cleared r) = None
                      ∨ router (cleared r) = Some (mkSurface [] (AllowCors (Config' (cleared r)))))
    by (by rewrite HcfgB).
  destruct (withServer_facts (cleared r) HselfB HrouterB')
    as (HselfC & HrouterC & HstC & HlogC & HstartedC & Haddr).
  assert (Haddr' : listenAddr (withServer (cleared r)) = serverAddr r).
  { rewrite Haddr. unfold serverAddr, listenAddr.
    change (Config' (setHttpServer ?x ?y)) with (Config' y).
    change (HttpServer (setHttpServer ?x ?y)) with x.
    by rewrite HcfgB. }
  rewrite Haddr', Hlisten in HStart. clear Haddr.
  rewrite (bind_Ok _ _ _ _ _ HStart), putRest_putRest.
  set (rC := setStarted true (withServer (cleared r))) in *.
  set (W1 := logged (Logger (cleared r)) (startLine (cleared r)) (putRest a rC w)).
  assert (HrC : endpoints W1 !! a = Some rC).
  { unfold W1. rewrite logged_endpoints. apply putRest_lookup. }
  assert (HroutersW1 : routers W1 = routers w) by (unfold W1; by rewrite logged_routers).
  assert (Hold : ∀ k p, (k, p) ∈ rangeOrder (map_to_list old) ↔ old !! k = Some p).
  { intros k p. rewrite rangeOrder_perm. apply elem_of_map_to_list. }
  assert (Hentry : ∀ k p, old !! k = Some p →
            k ≠ "" ∧ ∃ ro, routers w !! p = Some ro ∧ id ro = k ∧ disable ro = false).
  { intros k p [Hk Hen]%map_lookup_filter_Some. simpl in Hen.
    destruct (Hwf k p Hk) as (Hne & ro & Hro & Hid). split; [done|].
    exists ro. split; [done|]. split; [done|].
    unfold isEnabled in Hen. rewrite Hro in Hen. by destruct (disable ro). }
  destruct (replay_all fuel a (rangeOrder (map_to_list old)) W1 rC _ ∅ HrC HselfC HrouterC)
    as (w' & r' & s' & Hrun & Hr' & _ & Hs' & HL' & Hst' & _ & Hm' & Hdone & Hframe
        & Hhandles & _ & _ & Hpool & Hother).
  { by rewrite HstC. }
  { rewrite rangeOrder_perm. apply NoDup_fst_map_to_list. }
  { intros k p Hin%Hold. destruct (Hentry k p Hin) as (Hne & ro & Hro & Hid & _).
    split; [done|]. split; [done|]. exists ro. by rewrite HroutersW1. }
  exists w', r', s'. rewrite (bind_Ok _ _ _ _ _ Hrun).
  split; [done|]. split; [done|]. split; [done|]. split; [congruence|].
  split.
  { rewrite Hm', (right_id_L ∅ (∪)). f_equal.
    rewrite (list_to_map_proper _ (map_to_list old)).
    - apply list_to_map_to_list.
    - rewrite rangeOrder_perm. apply NoDup_fst_map_to_list.
    - apply rangeOrder_perm. }
  split.
  { intros k p Hk. destruct (Hentry k p Hk) as (_ & ro & Hro & Hid & Hen).
    exists ro. split; [done|]. split; [done|]. split; [done|].
    destruct (Hdone k p ro) as [Hfinal Hhl]; [by apply Hold|by rewrite HroutersW1|].
    rewrite Hen in Hfinal. split; [done|].
    destruct Hhl as [?|[msg Hmsg]]; [by left|]. right. exists msg.
    intros HL. apply Hmsg. by rewrite HlogC, HlogB. }
  split.
  { intros p Hp. rewrite Hframe, HroutersW1; [done|].
    intros [[k p'] [-> Hin%Hold]]%list_elem_of_fmap. by apply (Hp k). }
  split.
  { intros h Hh. destruct (Hhandles h Hh) as [Hnil|(k & p & ro & Hin%Hold & Hro & ->)].
    - by apply elem_of_nil in Hnil.
    - exists k, p, ro. by rewrite <-HroutersW1. }
  split.
  { rewrite Hpool. unfold W1. by rewrite logged_pool. }
  intros b Hb. rewrite Hother by done. unfold W1. rewrite logged_endpoints.
  by apply putRest_lookup_ne.
Qed.

(** A removed route does not come back.  On a self-hosted endpoint whose
    routes are stored under their ids, after [RemoveRouter] has disabled an
    enabled route, a [Restart] (that can listen again) returns nil and
    leaves the route out: its id is no longer in the storage, no handle of
    the new surface belongs to its router, and the router itself stays
    disabled.  Every other route that was enabled is still stored under
    its id. *)
Theorem remove_then_restart fuel a r storage routerId p ro w :
  endpoints w !! a = Some r → selfHosted r → RouterStorage r = Some storage →
  storageWf w storage →
  storage !! gostrings.TrimSpace routerId = Some p → routers w !! p = Some ro →
  disable ro = false → net_Listen (serverAddr r) = None →
  ∃ w1 w2 r2 s2,
    RemoveRouter a routerId w = Ok None w1
    ∧ Restart (5 + fuel) a w1 = Ok None w2
    ∧ endpoints w2 !! a = Some r2 ∧ router r2 = Some s2 ∧ started r2 = true
    ∧ default ∅ (RouterStorage r2) !! gostrings.TrimSpace routerId = None
    ∧ (∀ h, h ∈ handles s2 → hRouter h ≠ p)
    ∧ (disable <$> routers w2 !! p) = Some true
    ∧ (∀ k q, k ≠ gostrings.TrimSpace routerId → storage !! k = Some q →
         isEnabled w q = true → default ∅ (RouterStorage r2) !! k = Some q).
Proof.
  intros Hr Hself Hst Hwf Hp Hro Hen Hlisten.
  set (key := gostrings.TrimSpace routerId) in *.
  set (gone := mkRouter (id ro) (params ro) true (from ro)).
  set (w1 := putRouter p gone w).
  assert (Hremove : RemoveRouter a routerId w = Ok None w1).
  { unfold RemoveRouter. fold key.
    rewrite (bind_Ok _ _ _ _ _ (getRest_Ok _ _ _ Hr)), Hst, Hp.
    rewrite (bind_Ok _ _ _ _ _ (IsDisable_Ok _ _ _ Hro)), Hen. simpl.
    by rewrite (bind_Ok _ _ _ _ _ (Disable_Ok _ true _ _ Hro)). }
  assert (Hr1 : endpoints w1 !! a = Some r) by done.
  assert (Hwf1 : storageWf w1 (default ∅ (RouterStorage r))).
  { eapply (RemoveRouter_storageWf a routerId w None w1 a r Hremove Hr).
    by rewrite Hst. }
  destruct (Hwf _ _ Hp) as (_ & ro0 & Hro0 & Hid). rewrite Hro in Hro0. injection Hro0 as <-.
  destruct (Restart_self_run fuel a r w1 Hr1 Hself Hwf1 Hlisten)
    as (w2 & r2 & s2 & Hrestart & Hr2 & Hs2 & Hstarted & Hst2 & Hold & Hframe & Hhandles & _ & _).
  set (old := filter (λ kv, isEnabled w1 kv.2 = true) (default ∅ (RouterStorage r))) in *.
  assert (Hkey : old !! key = None).
  { apply map_lookup_filter_None. right. intros q. rewrite Hst. simpl. rewrite Hp.
    intros [= <-]. simpl. unfold isEnabled, w1. simpl. by rewrite lookup_insert_eq. }
  assert (Hnotp : ∀ k, old !! k ≠ Some p).
  { intros k [Hk Henabled]%map_lookup_filter_Some. simpl in Henabled.
    unfold isEnabled, w1 in Henabled. simpl in Henabled. by rewrite lookup_insert_eq in Henabled. }
  exists w1, w2, r2, s2. split; [done|]. split; [done|]. split; [done|]. split; [done|].
  split; [done|]. split; [by rewrite Hst2|].
  split.
  { intros h Hh <-. destruct (Hhandles h Hh) as (k & q & roq & Hk & _ & ->).
    by apply (Hnotp k). }
  split.
  { rewrite (Hframe p Hnotp). unfold w1. simpl. by rewrite lookup_insert_eq. }
  intros k q Hk Hq Henq. rewrite Hst2. simpl. apply map_lookup_filter_Some.
  rewrite Hst. simpl. split; [done|]. simpl.
  unfold isEnabled, w1 in *. simpl.
  destruct (decide (q = p)) as [->|Hqp].
  - destruct (Hwf _ _ Hq) as (_ & roq & Hroq & Hidq). rewrite Hro in Hroq.
    injection Hroq as <-. exfalso. apply Hk. by rewrite <-Hidq, Hid.
  - by rewrite lookup_insert_ne.
Qed.

End restart.

Section closing.
Context `{RestWorld} `{ServerWorld}.

(** [Close] of a self-hosted endpoint.  If [Shutdown] returns an error,
    [Close] returns that error at once and resets nothing: every field of
    the endpoint is left as it is, so an endpoint that was started still
    counts as started and keeps its surface and its routes, and a later
    [Start] returns nil without asking [net.Listen], although [Shutdown] has
    been called on the server.  Otherwise [Close] returns nil, the endpoint
    is not started any more, its surface, if it had one, is replaced by an
    empty one, the base endpoint is destroyed, and the server it had is
    still recorded. *)
Theorem Close_self fuel a r w :
  endpoints w !! a = Some r → selfHosted r →
  (∀ err, HttpServer r ≫= http_Shutdown = Some err →
     Close (3 + fuel) a w = Ok (Some err) w
     ∧ Started a w = Ok (started r) w
     ∧ (started r = true → SharedNode_IsInit r = true → is_Some (router r) →
        ∀ fuel', Start (4 + fuel') a w = Ok None w))
  ∧ (HttpServer r ≫= http_Shutdown = None →
     ∃ r', Close (3 + fuel) a w = Ok None (putRest a r' w)
       ∧ started r' = false ∧ HttpServer r' = HttpServer r
       ∧ router r' = (λ _, mkSurface [] (AllowCors (Config' r))) <$> router r
       ∧ ∃ n, (RouterStorage r', interceptors r') = BaseEndpoint_Destroy (RouterStorage r, n)).
Proof.
  intros Hr Hself. split.
  - intros err Herr. split; [|split].
    + unfold Close. rewrite (bind_Ok _ _ _ _ _ (getRest_Ok _ _ _ Hr)). by rewrite Herr.
    + unfold Started. by rewrite (bind_Ok _ _ _ _ _ (getRest_Ok _ _ _ Hr)).
    + intros Hstarted Hinit [s Hs] fuel'. unfold Start.
      change (4 + fuel') with (S (S (S (S fuel')))).
      rewrite (bind_Ok _ _ _ _ _ (checkIsInitSharedNode_self _ _ _ Hr Hself)).
      rewrite (rest_props.inited_id r Hinit), (putRest_id _ _ _ Hr).
      rewrite (bind_Ok _ _ _ _ _ (SharedNode_Get_self _ a r s w Hr (proj1 Hself) Hinit Hs)).
      unfold startServer. rewrite (bind_Ok _ _ _ _ _ (getRest_Ok _ _ _ Hr)). by rewrite Hstarted.
  - intros Hdown. unfold Close. rewrite (bind_Ok _ _ _ _ _ (getRest_Ok _ _ _ Hr)), Hdown.
    set (rA := match router r with Some _ => freshRouter r | None => r end).
    assert (Hpre : (match router r with
                    | Some _ => newRouter (3 + fuel) a
                    | None => ret tt
                    end) w = Ok tt (putRest a rA w)).
    { unfold rA. destruct (router r).
      - by apply newRouter_self.
      - by rewrite putRest_id. }
    rewrite (bind_Ok _ _ _ _ _ Hpre).
    rewrite (bind_Ok _ _ _ _ _ (getRest_Ok _ _ _ (putRest_lookup _ _ _))).
    assert (HidA : InstanceId rA = "").
    { unfold rA. destruct (router r); [|by destruct Hself].
      destruct (freshRouter_fields r) as (-> & _). by destruct Hself. }
    destruct (decide (InstanceId rA ≠ "")) as [Hne|_]; [done|].
    rewrite (bind_Ok _ _ _ _ _ (modifyRest_Ok _ _ _ _ (putRest_lookup _ _ _))), putRest_putRest.
    rewrite (bind_Ok _ _ _ _ _ (modifyRest_Ok _ _ _ _ (putRest_lookup _ _ _))), putRest_putRest.
    eexists. split; [reflexivity|].
    change (RouterStorage (setStarted false rA)) with (RouterStorage rA).
    change (interceptors (setStarted false rA)) with (interceptors rA).
    destruct (BaseEndpoint_Destroy (RouterStorage rA, interceptors rA)) as [storage n] eqn:HD.
    assert (Hfields : HttpServer rA = HttpServer r ∧ RouterStorage rA = RouterStorage r
                      ∧ router rA = (λ _, mkSurface [] (AllowCors (Config' r))) <$> router r).
    { unfold rA. destruct (router r) as [s|] eqn:Hrt.
      - destruct (freshRouter_fields r) as (_ & _ & _ & H1 & H2 & _ & H3).
        by rewrite H1, H2, H3.
      - by rewrite Hrt. }
    destruct Hfields as (Hsrv & Hst & Hrouter).
    split; [done|]. split; [done|]. split; [done|].
    exists (interceptors rA). simpl. by rewrite <-Hst, HD.
Qed.

Lemma delete_loop b rb storage (keys : list string) w :
  endpoints w !! b = Some rb → RouterStorage rb = Some storage →
  (fix loop (keys : list string) : M unit :=
     match keys with
     | [] => ret tt
     | key :: keys => deleteRouter b key;; loop keys
     end) keys w
  = Ok tt (putRest b (setRouterStorage
                        (Some (filter (λ kv, kv.1 ∉ gostrings.TrimSpace <$> keys) storage)) rb) w).
Proof.
  revert rb storage w. induction keys as [|key keys IH]; intros rb storage w Hrb Hst.
  - unfold ret. f_equal. rewrite map_filter_id; [|intros ? ? _; by intros ?%elem_of_nil].
    rewrite <-Hst. symmetry. rewrite <-(putRest_id b rb w Hrb) at 2. f_equal. by destruct rb.
  - assert (Hdel : deleteRouter b key w
                   = Ok tt (putRest b (setRouterStorage
                                         (Some (delete (gostrings.TrimSpace key) storage)) rb) w)).
    { unfold deleteRouter. rewrite (bind_Ok _ _ _ _ _ (getRest_Ok _ _ _ Hrb)), Hst.
      by apply modifyRest_Ok. }
    rewrite (bind_Ok _ _ _ _ _ Hdel).
    rewrite (IH (setRouterStorage (Some (delete (gostrings.TrimSpace key) storage)) rb)
               (delete (gostrings.TrimSpace key) storage) _ (putRest_lookup _ _ _) eq_refl).
    rewrite putRest_putRest. do 2 f_equal. unfold setRouterStorage. simpl. do 2 f_equal.
    apply map_eq. intros k. apply option_eq. intros q.
    rewrite !map_lookup_filter_Some, lookup_delete_Some. cbn [fst].
    rewrite not_elem_of_cons.
    split; [intros [[Hk Hq] Hks]|intros [Hq [Hk Hks]]]; repeat split; try done; congruence.
Qed.

(** [Close] of a shared endpoint does not stop anything.  When the endpoint
    refers to a pooled instance (another endpoint, whose storage is
    initialised) and has neither a server nor a surface of its own,
    [Close] deletes from the instance's storage every id, trimmed, under
    which the endpoint itself has stored a route, and then is the
    instance's [Restart]; the endpoint's own record, its storage included,
    is not changed by the deletions.  When the pooled instance cannot be
    found the endpoint only resets itself: it returns nil, is not started
    and has its base endpoint destroyed. *)
Theorem Close_shared fuel a r w :
  endpoints w !! a = Some r → InstanceId r ≠ "" → HttpServer r = None → router r = None →
  (∀ b rb storage,
     pool w !! InstanceId r = Some b → b ≠ a → endpoints w !! b = Some rb →
     RouterStorage rb = Some storage →
     let own := gostrings.TrimSpace <$> (map_to_list (default ∅ (RouterStorage r))).*1 in
     let w1 := putRest b (setRouterStorage (Some (filter (λ kv, kv.1 ∉ own) storage)) rb) w in
     Close (1 + fuel) a w = Restart (1 + fuel) b w1 ∧ endpoints w1 !! a = Some r)
  ∧ (pool w !! InstanceId r = None →
     ∃ r', Close (1 + fuel) a w = Ok None (putRest a r' w) ∧ started r' = false
           ∧ (RouterStorage r', interceptors r')
             = BaseEndpoint_Destroy (RouterStorage r, interceptors r)).
Proof.
  intros Hr Hshared Hsrv Hrouter.
  assert (Hget : SharedNode_Get (S fuel) a w
                 = Ok (match pool w !! InstanceId r with
                       | Some shared => inl shared
                       | None => inr ("node resources not found id=" +:+ InstanceId r)
                       end) w).
  { cbn [SharedNode_Get]. rewrite (bind_Ok _ _ _ _ _ (getRest_Ok _ _ _ Hr)).
    destruct (decide (InstanceId r ≠ "")) as [_|Hne]; [|done].
    by destruct (pool w !! InstanceId r). }
  split.
  - intros b rb storage Hpool Hba Hrb Hst own w1.
    split; [|unfold w1; by rewrite putRest_lookup_ne].
    unfold Close. rewrite (bind_Ok _ _ _ _ _ (getRest_Ok _ _ _ Hr)), Hsrv, Hrouter. simpl.
    rewrite bind_ret, (bind_Ok _ _ _ _ _ (getRest_Ok _ _ _ Hr)).
    destruct (decide (InstanceId r ≠ "")) as [_|Hne]; [|done].
    rewrite (bind_Ok _ _ _ _ _ Hget), Hpool.
    rewrite (bind_Ok _ _ _ _ _ (getRest_Ok _ _ _ Hr)).
    rewrite (bind_Ok _ _ _ _ _ (delete_loop b rb storage _ w Hrb Hst)).
    replace (filter (λ kv, kv.1 ∉ gostrings.TrimSpace <$>
                             (rangeOrder (map_to_list (default ∅ (RouterStorage r)))).*1) storage)
      with (filter (λ kv, kv.1 ∉ own) storage); [done|].
    apply map_filter_ext. intros k q _. simpl. unfold own.
    by rewrite (rangeOrder_perm (map_to_list (default ∅ (RouterStorage r)))).
  - intros Hpool. unfold Close.
    rewrite (bind_Ok _ _ _ _ _ (getRest_Ok _ _ _ Hr)), Hsrv, Hrouter. simpl.
    rewrite bind_ret, (bind_Ok _ _ _ _ _ (getRest_Ok _ _ _ Hr)).
    destruct (decide (InstanceId r ≠ "")) as [_|Hne]; [|done].
    rewrite (bind_Ok _ _ _ _ _ Hget), Hpool.
    rewrite (bind_Ok _ _ _ _ _ (modifyRest_Ok _ _ _ _ Hr)).
    rewrite (bind_Ok _ _ _ _ _ (modifyRest_Ok _ _ _ _ (putRest_lookup _ _ _))), putRest_putRest.
    eexists. split; [reflexivity|].
    change (RouterStorage (setStarted false r)) with (RouterStorage r).
    change (interceptors (setStarted false r)) with (interceptors r).
    by destruct (BaseEndpoint_Destroy (RouterStorage r, interceptors r)) as [storage n].
Qed.

End closing.

(** ** Instances *)

(** An instance: of the four routes of the endpoint, the one for
    [/api/v1/status] is removed; after the restart the other three are
    stored and the removed one is not. *)
Lemma remove_then_restart_witness :
  ∃ w1 w2 r2,
    RemoveRouter 0 "POST:/api/v1/status" (demo_rest.registeredWorld true) = Ok None w1
    ∧ Restart (H := demo_rest.world) 5 0 w1 = Ok None w2
    ∧ endpoints w2 !! 0 = Some r2
    ∧ default ∅ (RouterStorage r2) !! "POST:/api/v1/status" = None
    ∧ default ∅ (RouterStorage r2) !! "GET:/api/v1/msg" = Some 1.
Proof.
  set (w := demo_rest.registeredWorld true).
  set (r := default (demo_rest.freshRest true) (endpoints w !! 0)).
  set (storage := default ∅ (RouterStorage r)).
  assert (Hr : endpoints w !! 0 = Some r) by (vm_compute; reflexivity).
  assert (Hst : RouterStorage r = Some storage) by (vm_compute; reflexivity).
  assert (Hwf : storageWf w storage).
  { apply storageWf_check. apply (bool_decide_unpack _). vm_compute. exact I. }
  destruct (remove_then_restart (H := demo_rest.world) 0 0 r storage "POST:/api/v1/status" 2
              (mkRouter "POST:/api/v1/status" ["POST"] false
                 (Some (mkFrom " /api/v1/status " (Some true)))) w Hr
              ltac:(split; [|right]; vm_compute; reflexivity) Hst Hwf
              ltac:(vm_compute; reflexivity) ltac:(vm_compute; reflexivity) eq_refl eq_refl)
    as (w1 & w2 & r2 & s2 & Hremove & Hrestart & Hr2 & _ & _ & Hgone & _ & _ & Hkept).
  exists w1, w2, r2. split; [exact Hremove|]. split; [exact Hrestart|]. split; [exact Hr2|].
  split; [exact Hgone|].
  apply Hkept; [discriminate|vm_compute; reflexivity|vm_compute; reflexivity].
Defined.

(** An instance: the started endpoint is closed; with a server that does
    not shut down in time the close fails, the endpoint stays started and
    [Start] does nothing; with one that does the endpoint is stopped. *)
Lemma Close_self_witness :
  Close (H := demo_rest.world) (H0 := demo_rest.slowServer) 3 0 demo_rest.startedWorld
  = Ok (Some "context deadline exceeded") demo_rest.startedWorld
  ∧ Start (H := demo_rest.world) 4 0 demo_rest.startedWorld = Ok None demo_rest.startedWorld
  ∧ ∃ w', Close (H := demo_rest.world) (H0 := demo_rest.server) 3 0 demo_rest.startedWorld
          = Ok None w'
          ∧ (started <$> endpoints w' !! 0) = Some false
          ∧ (started <$> endpoints demo_rest.startedWorld !! 0) = Some true.
Proof.
  set (w := demo_rest.startedWorld).
  set (r := default (demo_rest.freshRest true) (endpoints w !! 0)).
  assert (Hr : endpoints w !! 0 = Some r) by (vm_compute; reflexivity).
  assert (Hself : selfHosted (H := demo_rest.world) r).
  { split; [|right]; vm_compute; reflexivity. }
  destruct (Close_self (H := demo_rest.world) (H0 := demo_rest.slowServer) 0 0 r w Hr Hself)
    as [Hfail _].
  destruct (Hfail "context deadline exceeded" ltac:(vm_compute; reflexivity))
    as (Hclose & _ & Hstart).
  split; [exact Hclose|]. split.
  - apply (Hstart ltac:(vm_compute; reflexivity) ltac:(vm_compute; reflexivity)
             ltac:(vm_compute; eauto) 0).
  - destruct (Close_self (H := demo_rest.world) (H0 := demo_rest.server) 0 0 r w Hr Hself)
      as [_ Hok].
    destruct (Hok ltac:(vm_compute; reflexivity)) as (r' & Hrun & Hstopped & _).
    eexists. split; [exact Hrun|]. split; [|vm_compute; reflexivity].
    simpl. rewrite lookup_insert_eq. simpl. by rewrite Hstopped.
Defined.

(** An instance: the shared endpoint has registered the route for
    [/api/v1/msg] with the first endpoint; closing the shared endpoint
    takes the route out of the first endpoint's storage and restarts that
    endpoint, which is started afterwards, while the shared endpoint keeps
    its own entry. *)
Lemma Close_shared_witness :
  ∃ w', Close (H := demo_rest.world) (H0 := demo_rest.server) 6 5 demo_rest.sharingWorld
        = Ok None w'
        ∧ (endpoints demo_rest.sharingWorld !! 0 ≫= RouterStorage) = Some {[ "GET:/api/v1/msg" := 1 ]}
        ∧ (endpoints w' !! 0 ≫= RouterStorage) = Some ∅
        ∧ (started <$> endpoints w' !! 0) = Some true
        ∧ (endpoints w' !! 5 ≫= RouterStorage) = Some {[ "GET:/api/v1/msg" := 1 ]}.
Proof.
  set (w := demo_rest.sharingWorld).
  set (r := default demo_rest.sharedRest (endpoints w !! 5)).
  set (rb := default (demo_rest.freshRest true) (endpoints w !! 0)).
  assert (Hr : endpoints w !! 5 = Some r) by (vm_compute; reflexivity).
  destruct (Close_shared (H := demo_rest.world) (H0 := demo_rest.server) 5 5 r w Hr
              ltac:(vm_compute; discriminate) ltac:(vm_compute; reflexivity)
              ltac:(vm_compute; reflexivity)) as [Hfound _].
  destruct (Hfound 0 rb (default ∅ (RouterStorage rb))) as [Hrun _];
    [vm_compute; reflexivity|discriminate|vm_compute; reflexivity|vm_compute; reflexivity|].
  change (1 + 5) with 6 in Hrun.
  eexists. split; [rewrite Hrun; vm_compute; reflexivity|].
  repeat split; vm_compute; reflexivity.
Defined.

End rest_lifecycle.

(* ===================================================================== *)
(** * Properties of requests, responses and the handler                  *)
(* ===================================================================== *)

Module exchange_props.
Import engine external endpoint exchange.

Section request_message.
Context `{HttpWorld}.
Import RequestMessage.

(** The rule message of a request is built once.  Whenever [GetMsg]
    returns, the message it returns is stored in the request message, and
    asking again returns the same message and changes nothing more; in
    particular a message set with [SetMsg] is what [GetMsg] returns, and
    then neither the request nor its body is touched. *)
Theorem RequestMessage_GetMsg_once r r1 m :
  GetMsg r = Returns (r1, m) →
  msg r1 = Some m
  ∧ GetMsg r1 = Returns (r1, m)
  ∧ (∀ m', msg r = Some m' → r1 = r ∧ m = m')
  ∧ (∀ m', GetMsg (SetMsg r1 (Some m')) = Returns (SetMsg r1 (Some m'), m')).
Proof.
  intros Hget.
  assert (Hset : ∀ x m', GetMsg (SetMsg x (Some m')) = Returns (SetMsg x (Some m'), m')) by done.
  assert (Hmsg : msg r1 = Some m).
  { unfold GetMsg in Hget. destruct (msg r) as [m0|] eqn:Hm; [by injection Hget as <- <-|].
    destruct (request r) as [req|].
    - destruct (decide (Method req = "GET")).
      + by injection Hget as <- <-.
      + destruct (Body r) as [[r2 data]|e]; [|done]. by injection Hget as <- <-.
    - destruct (Body r) as [[r2 data]|e]; [|done]. by injection Hget as <- <-. }
  split; [done|]. split; [|split; [|done]].
  - unfold GetMsg. by rewrite Hmsg.
  - intros m' Hm'. unfold GetMsg in Hget. rewrite Hm' in Hget. by injection Hget as <- <-.
Qed.

(** What the rule message of a request holds when it is built.  Its type
    is the URL of the request and its metadata the metadata of the request
    message (empty when there was none).  For a [GET] request the data is
    the query of the URL, as JSON, and the body is not read.  For any other
    request the data is the body, read from the request now unless a body
    was read or set before, and the data type is JSON when the content type
    starts with [application/json] and text otherwise. *)
Theorem RequestMessage_GetMsg_content r req :
  msg r = None → request r = Some req →
  let metadata := default ∅ (Metadata r) in
  (Method req = "GET" →
   let m := mkRuleMsg (str_ToString_values (Query req)) JSON (URL req) metadata in
   GetMsg r = Returns (setMsg (Some m) (setMetadata (Some metadata) r), m))
  ∧ (Method req ≠ "GET" →
     let dataType := if gostrings.HasPrefix (headerGet (Some (Header req)) ContentTypeKey)
                                            JsonContextType
                     then JSON else TEXT in
     (∀ data, body r = Some data →
        let m := mkRuleMsg data dataType (URL req) metadata in
        GetMsg r = Returns (setMsg (Some m) (setMetadata (Some metadata) r), m))
     ∧ (∀ entry, body r = None → reqBody req = Some entry →
          let m := mkRuleMsg entry dataType (URL req) metadata in
          let drained := mkRequest (Method req) (URL req) (Query req) (Header req) (Some "") in
          GetMsg r = Returns (setMsg (Some m) (setMetadata (Some metadata)
                                (setBody (Some entry) (setRequest (Some drained) r))), m))
     ∧ (body r = None → reqBody req = None → GetMsg r = Panics nilDereference)).
Proof.
  intros Hmsg Hreq metadata.
  assert (Hmd : ∀ x, Metadata x = Metadata r →
            match Metadata x with None => setMetadata (Some ∅) x | Some _ => x end
            = setMetadata (Some metadata) x).
  { intros x Hx. unfold metadata. rewrite <-Hx.
    destruct x as [? ? ? ? ? ? [md|]]; done. }
  split.
  - intros Hget m. unfold GetMsg. rewrite Hmsg, Hreq.
    destruct (decide (Method req = "GET")) as [_|Hne]; [|done].
    rewrite (Hmd r eq_refl). unfold From. simpl. by rewrite Hreq.
  - intros Hother dataType. split; [|split].
    + intros data Hbody m. unfold GetMsg. rewrite Hmsg, Hreq.
      destruct (decide (Method req = "GET")) as [Heq|_]; [done|].
      unfold Body, Headers. rewrite Hbody, Hreq. simpl. fold dataType.
      rewrite (Hmd r eq_refl). unfold From. simpl. by rewrite Hreq.
    + intros entry Hbody Hentry m drained. unfold GetMsg. rewrite Hmsg, Hreq.
      destruct (decide (Method req = "GET")) as [Heq|_]; [done|].
      unfold Body, Headers. rewrite Hbody, Hreq, Hentry. simpl. fold dataType.
      by rewrite (Hmd (setBody (Some entry) (setRequest _ r)) eq_refl).
    + intros Hbody Hnil. unfold GetMsg. rewrite Hmsg, Hreq.
      destruct (decide (Method req = "GET")) as [Heq|_]; [done|].
      unfold Body. by rewrite Hbody, Hreq, Hnil.
Qed.

(** The body of a request is read once.  Whenever [Body] returns, asking
    again returns the same bytes and changes nothing.  The first call on a
    request message without a body takes all the unread bytes of the
    request, which has none left afterwards; a body set with [SetBody] is
    returned without reading the request, but setting a nil body makes the
    next call read the request again. *)
Theorem RequestMessage_Body_once r r1 b :
  Body r = Returns (r1, b) →
  Body r1 = Returns (r1, b)
  ∧ (∀ req entry, body r = None → request r = Some req → reqBody req = Some entry →
       b = Some entry ∧ (request r1 ≫= reqBody) = Some "")
  ∧ (∀ data, Body (SetBody r (Some data)) = Returns (SetBody r (Some data), Some data))
  ∧ (∀ req entry, request r = Some req → reqBody req = Some entry →
       ∃ r2, Body (SetBody r None) = Returns (r2, Some entry)).
Proof.
  intros Hbody. split; [|split; [|split]].
  - unfold Body in *. destruct (body r) as [data|] eqn:Hb.
    + injection Hbody as <- <-. by rewrite Hb.
    + destruct (request r) as [req|] eqn:Hreq.
      * destruct (reqBody req) as [entry|]; [|done]. by injection Hbody as <- <-.
      * injection Hbody as <- <-. by rewrite Hb, Hreq.
  - intros req entry Hb Hreq Hentry. unfold Body in Hbody. rewrite Hb, Hreq, Hentry in Hbody.
    by injection Hbody as <- <-.
  - done.
  - intros req entry Hreq Hentry. unfold Body, SetBody. simpl. rewrite Hreq, Hentry. eauto.
Qed.

End request_message.

Section response_message.
Import ResponseMessage.

(** The response writer receives every body and status code set on a
    response message, in the order of the calls: after any sequence of
    [SetBody], [SetStatusCode], [SetMsg] and [SetError], the writer has
    been sent, after what it held before, one write per [SetBody] and one
    header per [SetStatusCode], while [Body] returns only the body set
    last.  Without a writer the calls only record body, message and
    error. *)
Theorem ResponseMessage_calls r calls :
  let r' := foldl call r calls in
  response r' = (λ w, w ++ concat (sent <$> calls)) <$> response r
  ∧ Body r' = lastBody (body r) calls
  ∧ request r' = request r ∧ to r' = to r.
Proof.
  revert r. induction calls as [|c calls IH]; intros r; simpl.
  - split; [|done]. destruct (response r); simpl; [|done]. by rewrite app_nil_r.
  - destruct (IH (call r c)) as (Hw & Hb & Hreq & Hto). rewrite Hw, Hb, Hreq, Hto.
    unfold lastBody. simpl.
    destruct c as [b|code|m|e]; simpl; unfold SetBody, SetStatusCode; simpl;
      destruct (response r) as [w|] eqn:Hresp; simpl; rewrite ?Hresp; simpl;
      rewrite <-?app_assoc; repeat split; reflexivity.
Qed.

End response_message.

Section handler.
Context `{HttpWorld}.

Lemma fill_params (params : list (string * string)) (m0 : gmap string string) :
  foldl (λ m p, <[p.1 := p.2]> m) m0 params = list_to_map (reverse params) ∪ m0.
Proof.
  revert m0. induction params as [|[k v] params IH]; intros m0; simpl.
  - by rewrite (left_id_L ∅ (∪)).
  - rewrite IH, reverse_cons, list_to_map_app. simpl.
    rewrite <-(assoc_L (∪)). f_equal. rewrite insert_union_singleton_l.
    by rewrite insert_empty.
Qed.

Lemma fillMetadata_run params query :
  fillMetadata params query
  = if bool_decide (map_Forall (λ _ vs, vs ≠ []) query)
    then Some (omap queryValue query ∪ list_to_map (reverse params))
    else None.
Proof.
  unfold fillMetadata. rewrite fill_params, (right_id_L ∅ (∪)).
  set (base := list_to_map (reverse params) : gmap string string).
  assert (Hspec : (map_Forall (λ _ vs, vs ≠ []) query →
                   map_fold (λ key value acc, m ← acc; v ← queryValue value; Some (<[key := v]> m))
                            (Some base) query = Some (omap queryValue query ∪ base))
                  ∧ (¬ map_Forall (λ _ vs, vs ≠ []) query →
                     map_fold (λ key value acc, m ← acc; v ← queryValue value;
                                 Some (<[key := v]> m))
                              (Some base) query = None)).
  { apply (map_fold_weak_ind
             (λ acc (q : gmap string (list string)),
                (map_Forall (λ _ vs, vs ≠ []) q → acc = Some (omap queryValue q ∪ base))
                ∧ (¬ map_Forall (λ _ vs, vs ≠ []) q → acc = None))).
    - split; [|intros Hno; destruct Hno; apply map_Forall_empty].
      intros _. by rewrite omap_empty, (left_id_L ∅ (∪)).
    - intros k vs q acc Hk [Hyes Hno]. split.
      + intros [Hvs Hq]%map_Forall_insert; [|done]. rewrite (Hyes Hq). simpl.
        destruct (queryValue vs) as [v|] eqn:Hv; [|by destruct vs as [|? [|? ?]]].
        simpl. f_equal. rewrite (omap_insert_Some _ _ _ _ v Hv). by rewrite insert_union_l.
      + intros Hnot. destruct (decide (map_Forall (λ _ vs, vs ≠ []) q)) as [Hq|Hq].
        * rewrite (Hyes Hq). simpl. destruct vs as [|v vs]; [done|].
          destruct Hnot. by apply map_Forall_insert.
        * by rewrite (Hno Hq). }
  destruct Hspec as [Hyes Hno]. case_bool_decide; [by apply Hyes|by apply Hno].
Qed.

(** What the handler of a route hands to the router.  While the router is
    disabled a request is answered "not found" and nothing is dispatched.
    Otherwise, for a request whose query holds at least one value under
    every key it has (as [r.URL.Query()] always does), the router is called
    with an exchange whose two messages hold the request and the writer and
    whose metadata holds, for every key, the value of the query parameter of
    that name if there is one (the [str.ToString] of the list when it has
    several values) and else the value of the last path parameter of that
    name; the call is detached from the request's context exactly when the
    route does not wait.  In both cases the handler itself leaves the
    endpoint, the routers and the log as they are. *)
Theorem handler_metadata a item ro isWait wr req params w :
  rest.routers w !! item = Some ro →
  (disable ro = true → handler a item isWait wr req params w = rest.Ok NotFound w)
  ∧ (disable ro = false → map_Forall (λ _ vs, vs ≠ []) (Query req) →
     ∃ metadata,
       handler a item isWait wr req params w
       = rest.Ok (Dispatched item
                    (mkExchange
                       (RequestMessage.mkRequestMessage (Some req) (Some wr) None params None None
                                                        (Some metadata))
                       (ResponseMessage.mkResponseMessage (Some req) (Some wr) None "" None None))
                    (negb isWait)) w
       ∧ ∀ key, metadata !! key
                = match Query req !! key with
                  | Some vs => queryValue vs
                  | None => (list_to_map (reverse params) : gmap string string) !! key
                  end).
Proof.
  intros Hro. unfold handler, rest.recover.
  rewrite (rest_spec.bind_Ok _ _ _ _ _ (rest_spec.IsDisable_Ok _ _ _ Hro)).
  split.
  - by intros ->.
  - intros -> Hall. rewrite fillMetadata_run, bool_decide_eq_true_2 by done.
    eexists. split; [reflexivity|]. intros key.
    rewrite lookup_union, lookup_omap.
    destruct (Query req !! key) as [vs|] eqn:Hkey; simpl.
    + destruct (queryValue vs) as [v|] eqn:Hv.
      * by rewrite (union_Some_l _ _).
      * destruct vs; [|by destruct vs]. by destruct (Hall key [] Hkey).
    + by rewrite (left_id_L None (∪)).
Qed.

End handler.

(** ** Instances *)

(** An instance: the message of the [POST] request is built from its body
    and is then kept. *)
Lemma RequestMessage_GetMsg_once_witness :
  ∃ r1 m, RequestMessage.GetMsg (H := demo_exchange.http) demo_exchange.postMessage
          = Returns (r1, m)
          ∧ Data m = "{temperature:35}"
          ∧ RequestMessage.GetMsg (H := demo_exchange.http) r1 = Returns (r1, m).
Proof.
  eexists _, _. split; [vm_compute; reflexivity|]. split; [reflexivity|].
  eapply (RequestMessage_GetMsg_once (H := demo_exchange.http) demo_exchange.postMessage).
  vm_compute. reflexivity.
Defined.

(** An instance: the message of the [POST] request is JSON, has the URL as
    its type, and the request is left without unread bytes. *)
Lemma RequestMessage_GetMsg_content_witness :
  ∃ r1, RequestMessage.GetMsg (H := demo_exchange.http) demo_exchange.postMessage
        = Returns (r1, mkRuleMsg "{temperature:35}" "JSON" "/devices/7/msg?x=1&tag=a&tag=b&id=9" ∅)
        ∧ (RequestMessage.request r1 ≫= reqBody) = Some "".
Proof.
  destruct (RequestMessage_GetMsg_content (H := demo_exchange.http) demo_exchange.postMessage
              demo_exchange.post eq_refl eq_refl) as [_ Hpost].
  destruct (Hpost ltac:(discriminate)) as (_ & Hread & _).
  eexists. split; [exact (Hread "{temperature:35}" eq_refl eq_refl)|]. reflexivity.
Defined.

(** An instance: the body of the [POST] request is read by the first call
    and returned again by the second. *)
Lemma RequestMessage_Body_once_witness :
  ∃ r1, RequestMessage.Body demo_exchange.postMessage = Returns (r1, Some "{temperature:35}")
        ∧ RequestMessage.Body r1 = Returns (r1, Some "{temperature:35}")
        ∧ (RequestMessage.request r1 ≫= reqBody) = Some "".
Proof.
  eexists. split; [reflexivity|].
  destruct (RequestMessage_Body_once demo_exchange.postMessage _ _ eq_refl)
    as (Hagain & Hread & _).
  split; [exact Hagain|]. exact (proj2 (Hread demo_exchange.post _ eq_refl eq_refl eq_refl)).
Defined.

(** An instance: two bodies and a status code set on a response reach the
    writer in that order, and the second body is the one [Body] returns. *)
Lemma ResponseMessage_calls_witness :
  let r := ResponseMessage.mkResponseMessage None (Some []) None "" None None in
  let r' := ResponseMessage.SetStatusCode
              (ResponseMessage.SetBody (ResponseMessage.SetBody r (Some "a")) (Some "b")) 500 in
  ResponseMessage.response r' = Some [Write "a"; Write "b"; WriteHeader 500]
  ∧ ResponseMessage.Body r' = Some "b".
Proof.
  intros r r'.
  destruct (ResponseMessage_calls r
              [ResponseMessage.CallSetBody (Some "a"); ResponseMessage.CallSetBody (Some "b");
               ResponseMessage.CallSetStatusCode 500]) as (Hw & Hb & _).
  split; [exact Hw|exact Hb].
Defined.

(** An instance: for the [POST] request with the path parameter [id = 7]
    the metadata holds the query's [id], the rendered list of the two tags,
    and [x]. *)
Lemma handler_metadata_witness :
  ∃ ex metadata,
    handler (H := demo_exchange.http) 0 1 true [] demo_exchange.post [("id", "7")]
      (demo_rest.registeredWorld true)
    = rest.Ok (Dispatched 1 ex false) (demo_rest.registeredWorld true)
    ∧ RequestMessage.Metadata (In ex) = Some metadata
    ∧ metadata !! "id" = Some "9" ∧ metadata !! "tag" = Some "a,b"
    ∧ metadata !! "x" = Some "1" ∧ metadata !! "y" = None.
Proof.
  set (w := demo_rest.registeredWorld true).
  destruct (handler_metadata (H := demo_exchange.http) 0 1
              (mkRouter "GET:/api/v1/msg" ["GET"] false
                 (Some (mkFrom "/api/v1/msg" (Some true))))
              true [] demo_exchange.post [("id", "7")] w ltac:(vm_compute; reflexivity))
    as (_ & Hserve).
  destruct (Hserve eq_refl) as (metadata & Hrun & Hmeta).
  { apply (bool_decide_unpack _). vm_compute. exact I. }
  eexists _, metadata. split; [exact Hrun|]. split; [reflexivity|].
  rewrite !Hmeta. repeat split; vm_compute; reflexivity.
Defined.

End exchange_props.
(* ===================================================================== *)
(** * Path parameters                                                     *)
(* ===================================================================== *)

Module regexp_props.
Import regexp.

Lemma append_cons c (x y : string) : String c x +:+ y = String c (x +:+ y).
Proof. done. Qed.

Lemma append_nil_l (s : string) : "" +:+ s = s.
Proof. done. Qed.

Lemma append_nil_r (s : string) : s +:+ "" = s.
Proof. induction s as [|c s IH]; [done|]. by rewrite append_cons, IH. Qed.

Lemma append_assoc (s t u : string) : (s +:+ t) +:+ u = s +:+ (t +:+ u).
Proof. induction s as [|c s IH]; [done|]. by rewrite !append_cons, IH. Qed.

Lemma append_length s t : String.length (s +:+ t) = String.length s + String.length t.
Proof. induction s as [|c s IH]; [done|]. rewrite append_cons. simpl. by rewrite IH. Qed.

Lemma snoc_nonempty (s : string) c : s +:+ String c "" ≠ "".
Proof. by destruct s. Qed.

(** Reading on through the characters of a name. *)
Lemma replaceFrom_name name more rest :
  name ≠ "" → allNameChars more = true →
  replaceFrom (Some name) (more +:+ rest) = replaceFrom (Some (name +:+ more)) rest.
Proof.
  revert name. induction more as [|c more IH]; intros name Hname Hmore.
  - by rewrite append_nil_r.
  - simpl in Hmore. apply andb_prop in Hmore as [Hc Hmore].
    rewrite append_cons. simpl. destruct (decide (name = "")) as [?|_]; [done|].
    rewrite Hc, (IH _ (snoc_nonempty name c) Hmore).
    by rewrite append_assoc.
Qed.

Lemma replaceFrom_noBrace s rest :
  noBrace s = true → replaceFrom None (s +:+ rest) = s +:+ replaceFrom None rest.
Proof.
  induction s as [|c s IH]; [done|]. simpl. intros [Hc Hs]%andb_prop.
  apply bool_decide_eq_true_1 in Hc. rewrite append_cons. simpl.
  destruct (decide (c = "{"%char)); [done|]. by rewrite (IH Hs).
Qed.

Lemma replaceFrom_length pending s :
  String.length (replaceFrom pending s)
  ≤ String.length s + match pending with Some name => S (String.length name) | None => 0 end.
Proof.
  revert pending. induction s as [|c s IH]; intros pending.
  - destruct pending; simpl; lia.
  - destruct pending as [name|]; simpl.
    + destruct (if decide (name = "") then isNameStart c else isNameChar c).
      * pose proof (IH (Some (name +:+ String c ""))) as Hlen. simpl in Hlen.
        rewrite append_length in Hlen. simpl in Hlen. lia.
      * destruct (bool_decide (name ≠ "") && bool_decide (c = "}"%char)); simpl;
          rewrite append_length.
        -- pose proof (IH None). simpl in *. lia.
        -- destruct (decide (c = "{"%char)).
           ++ pose proof (IH (Some "")). simpl in *. lia.
           ++ pose proof (IH None). simpl in *. lia.
    + destruct (decide (c = "{"%char)).
      * pose proof (IH (Some "")). simpl in *. lia.
      * pose proof (IH None). simpl in *. lia.
Qed.

Section path_params.
Context `{rest.RestWorld}.

(** The replacement of [convertPathParams], in a world whose regular
    expression library is the one above.  A path without an opening brace
    is returned as it is.  A brace group [{name}] whose name is a letter or
    underscore followed by letters, digits and underscores, with no opening
    brace before it, becomes [:name], and the rest of the path is converted
    in the same way.  An opening brace that is not followed by such a name
    and a closing brace (an empty group, a name that begins with a digit)
    stays.  The result is never longer than the path. *)
Theorem convertPathParams_groups :
  (∀ path, rest.regexp_ReplaceAllString path = ReplaceAllString path) →
  (∀ path, noBrace path = true → rest.convertPathParams path = path)
  ∧ (∀ pre name post, noBrace pre = true → isName name = true →
       rest.convertPathParams (pre +:+ "{" +:+ name +:+ "}" +:+ post)
       = pre +:+ ":" +:+ name +:+ rest.convertPathParams post)
  ∧ (∀ pre c post, noBrace pre = true → isNameStart c = false → c ≠ "{"%char →
       rest.convertPathParams (pre +:+ "{" +:+ String c post)
       = pre +:+ "{" +:+ String c (rest.convertPathParams post))
  ∧ (∀ path, String.length (rest.convertPathParams path) ≤ String.length path).
Proof.
  intros Hre. unfold rest.convertPathParams. setoid_rewrite Hre.
  unfold ReplaceAllString. split; [|split; [|split]].
  - intros path Hpath. pose proof (replaceFrom_noBrace path "" Hpath) as Hrun.
    by rewrite !append_nil_r in Hrun.
  - intros pre name post Hpre Hname. rewrite (replaceFrom_noBrace _ _ Hpre). f_equal.
    destruct name as [|c name]; [done|]. simpl in Hname.
    apply andb_prop in Hname as [Hc Hname].
    rewrite !append_cons, !append_nil_l. simpl. rewrite Hc, append_nil_l.
    rewrite (replaceFrom_name (String c "") name (String "}" post) ltac:(done) Hname).
    by rewrite append_cons.
  - intros pre c post Hpre Hc Hbrace. rewrite (replaceFrom_noBrace _ _ Hpre). f_equal.
    rewrite !append_cons, !append_nil_l. simpl. rewrite Hc. simpl.
    by destruct (decide (c = "{"%char)).
  - intros path. pose proof (replaceFrom_length None path). simpl in *. lia.
Qed.

End path_params.

(** Instance: the path of a device message route. *)
Lemma convertPathParams_groups_witness :
  (∀ path, @rest.regexp_ReplaceAllString demo_rest.pathWorld path = ReplaceAllString path)
  ∧ @rest.convertPathParams demo_rest.pathWorld "/devices/{id}/msg"
    = "/devices/:id/msg".
Proof.
  split; [done|].
  exact (proj1 (proj2 (@convertPathParams_groups demo_rest.pathWorld (λ _, eq_refl)))
           "/devices/" "id" "/msg" eq_refl eq_refl).
Defined.

End regexp_props.
